(** * BlueCon session and notification core

    A shallow embedding of [bluecon/BlueConAPI.py] and
    [bluecon/notifications/NotificationBuilder.py]: the OAuth token
    lifecycle, push registration, the notification listener callback
    and its duplicate filter, with the properties of the design
    document stated over it. *)

From Stdlib Require Import ZArith Lia Bool.
From Stdlib Require Import Numbers.DecimalString.
From stdpp Require Import base option list strings gmap.

Local Open Scope string_scope.
Local Open Scope Z_scope.

(** ** Python values and exceptions *)

(** The values a decoded push payload or a JSON request body can hold. *)
Inductive pyval : Type :=
| PNone
| PBool (b : bool)
| PInt (z : Z)
| PStr (s : string).

#[global] Instance pyval_eq_dec : EqDecision pyval.
Proof. solve_decision. Defined.

(** Python's [==] between two such values: values of different kinds are
    unequal (booleans are integers in Python, a case the payloads never
    compare). *)
Definition py_eqb (a b : pyval) : bool := bool_decide (a = b).

(** A [dict] with string keys. *)
Abbreviation dict := (gmap string pyval).

(** The exceptions that can leave the modelled code.  [ExternalError]
    stands for anything raised by a collaborator that this package does
    not define: the HTTP client, the OAuth service, the push provider. *)
Inductive exn : Type :=
| KeyError (key : string)
| NotImplementedError
| AttributeError (attr : string)
| ExternalError (what : string).

Inductive result (A : Type) : Type :=
| Ret (a : A)
| Raise (e : exn).
Arguments Ret {A} a.
Arguments Raise {A} e.

(** [d[k]]: a missing key raises [KeyError]. *)
Definition dict_getitem (d : dict) (k : string) : result pyval :=
  match d !! k with
  | Some v => Ret v
  | None => Raise (KeyError k)
  end.

(** ** Notifications *)

(** Modelled from the spec: the classes [CallNotification] and
    [CallEndNotification] (the spec's CallStarted and CallEnded
    variants) are not part of the sources at hand; they are taken as the
    two variants of a tagged union that store their constructor
    arguments. *)
Inductive INotification : Type :=
| CallNotification (notification : dict) (notificationId : string)
| CallEndNotification (notification : dict).

Module NotificationBuilder.

(** [NotificationBuilder.fromNotification] *)
Definition fromNotification (notification : dict) (notificationId : string)
  : result INotification :=
  match dict_getitem notification "FermaxNotificationType" with
  | Raise e => Raise e
  | Ret t =>
      if py_eqb t (PStr "Call") then
        Ret (CallNotification notification notificationId)
      else if py_eqb t (PStr "CallEnd") then
        Ret (CallEndNotification notification)
      else Raise NotImplementedError
  end.

End NotificationBuilder.

(** ** Strings *)

(** Python's [s in x] on two strings: [s] occurs in [x] as a contiguous
    run of characters.  The empty string occurs in every string. *)
Fixpoint str_in (s x : string) : bool :=
  String.prefix s x ||
  match x with
  | EmptyString => false
  | String _ x' => str_in s x'
  end.

(** [s.encode('utf-8')]: a string is kept as the sequence of its UTF-8
    bytes, so encoding reads the bytes off. *)
Definition bytes_of_string (s : string) : list Z :=
  List.map (fun c => Z.of_N (Ascii.N_of_ascii c)) (String.list_ascii_of_string s).

(** Python's [str(n)] on an [int]. *)
Definition py_str_int (n : Z) : string :=
  NilZero.string_of_int (Z.to_int n).

(** ** The client and its surroundings *)

(** Modelled from the spec: the class [OAuthToken] is not part of the
    sources at hand; the data model gives it an access token, a refresh
    token and an expiry timestamp. *)
Record OAuthToken : Type := mkOAuthToken {
  accessToken : string;
  refreshToken : string;
  expiry : Z
}.

(** Push credentials as the provider returns them: a dict of dicts. *)
Abbreviation Credentials := (gmap string (gmap string pyval)).

(** The message object handed to the listener callback next to the
    decoded payload. *)
Record DataMessage : Type := mkDataMessage {
  persistent_id : string;
  id : string
}.

(** A thread of the [threading] module, reduced to what [join] and
    [is_alive] observe: the instant (milliseconds on the model's clock)
    at which its target returns, or [None] when it never does. *)
Record Thread : Type := mkThread {
  terminates_at : option Z
}.

(** The effects the client has on the outside, in the order they occur. *)
Inductive Event : Type :=
| EvUpdateOAuthToken (authHeader : string) (old : OAuthToken)
| EvStoreOAuthToken (t : OAuthToken)
| EvStoreCredentials (c : Credentials)
| EvStorePersistentId (idstr : string)
| EvFCMRegister (api_key project_id : string) (gcm_sender_id : Z)
    (gms_app_id android_package_name android_package_cert : string)
| EvPost (url : string) (json : dict) (headers : dict)
| EvCallback (n : INotification).

(** The constructor arguments kept in the private fields of
    [BlueConAPI]. *)
Record Config : Type := mkConfig {
  clientId : string;
  clientSecret : string;
  senderId : Z;
  apiKey : string;
  projectId : string;
  appId : string;
  packageName : string
}.

(** The mutable state a [BlueConAPI] instance works on: the two storage
    backends, its own attributes, the clock, and the log of effects.

    Modelled from the spec: the storage classes behind
    [IOAuthTokenStorage] and [INotificationInfoStorage] are not part of
    the sources at hand.  The token storage holds at most one token, the
    notification storage at most one credential record and an
    append-only log of persistent ids that is [None] until the first id
    is stored. *)
Record World : Type := mkWorld {
  oAuthTokenStorage : option OAuthToken;
  credentialsStorage : option Credentials;
  persistentIdsStorage : option (list string);
  deviceId : pyval;
  listenerThread : option Thread;
  clock : Z;
  trace : list Event
}.

Definition set_oAuthTokenStorage (v : option OAuthToken) (w : World) : World :=
  mkWorld v (credentialsStorage w) (persistentIdsStorage w) (deviceId w)
          (listenerThread w) (clock w) (trace w).
Definition set_credentialsStorage (v : option Credentials) (w : World) : World :=
  mkWorld (oAuthTokenStorage w) v (persistentIdsStorage w) (deviceId w)
          (listenerThread w) (clock w) (trace w).
Definition set_persistentIdsStorage (v : option (list string)) (w : World) : World :=
  mkWorld (oAuthTokenStorage w) (credentialsStorage w) v (deviceId w)
          (listenerThread w) (clock w) (trace w).
Definition set_deviceId (v : pyval) (w : World) : World :=
  mkWorld (oAuthTokenStorage w) (credentialsStorage w) (persistentIdsStorage w) v
          (listenerThread w) (clock w) (trace w).
Definition set_listenerThread (v : option Thread) (w : World) : World :=
  mkWorld (oAuthTokenStorage w) (credentialsStorage w) (persistentIdsStorage w)
          (deviceId w) v (clock w) (trace w).
Definition set_clock (v : Z) (w : World) : World :=
  mkWorld (oAuthTokenStorage w) (credentialsStorage w) (persistentIdsStorage w)
          (deviceId w) (listenerThread w) v (trace w).
Definition log (e : Event) (w : World) : World :=
  mkWorld (oAuthTokenStorage w) (credentialsStorage w) (persistentIdsStorage w)
          (deviceId w) (listenerThread w) (clock w) (trace w ++ [e]).

(** ** A state and exception monad

    A computation takes the world and gives the world it leaves behind
    with either a value or the exception that ended it.  What was done
    before an exception stays done. *)
Definition M (A : Type) : Type := World -> World * result A.

Definition ret {A} (a : A) : M A := fun w => (w, Ret a).
Definition raise {A} (e : exn) : M A := fun w => (w, Raise e).
Definition bind {A B} (m : M A) (k : A -> M B) : M B :=
  fun w => match m w with
           | (w', Ret a) => k a w'
           | (w', Raise e) => (w', Raise e)
           end.
Definition gets {A} (f : World -> A) : M A := fun w => (w, Ret (f w)).
Definition modify (f : World -> World) : M unit := fun w => (f w, Ret tt).
Definition lift {A} (r : result A) : M A := fun w => (w, r).

Declare Scope py_scope.
Delimit Scope py_scope with py.
Notation "x <- m ;; k" := (bind m (fun x => k))
  (at level 100, m at next level, right associativity) : py_scope.
Notation "m ;;; k" := (bind m (fun _ => k))
  (at level 100, right associativity) : py_scope.
Local Open Scope py_scope.

(** ** Storage backends *)

Module Storage.

(** [IOAuthTokenStorage] *)
Definition retrieveOAuthToken : M (option OAuthToken) :=
  gets oAuthTokenStorage.
Definition storeOAuthToken (t : OAuthToken) : M unit :=
  modify (fun w => log (EvStoreOAuthToken t) (set_oAuthTokenStorage (Some t) w)).

(** [INotificationInfoStorage] *)
Definition retrieveCredentials : M (option Credentials) :=
  gets credentialsStorage.
Definition storeCredentials (c : Credentials) : M unit :=
  modify (fun w => log (EvStoreCredentials c) (set_credentialsStorage (Some c) w)).
Definition retrievePersistentIds : M (option (list string)) :=
  gets persistentIdsStorage.
(** The world after a persistent id was appended to the stored ids. *)
Definition stored (idstr : string) (w : World) : World :=
  log (EvStorePersistentId idstr)
      (set_persistentIdsStorage
         (Some (default [] (persistentIdsStorage w) ++ [idstr])%list) w).
Definition storePersistentId (idstr : string) : M unit :=
  modify (stored idstr).

End Storage.

(** ** SHA-512

    The digest behind [hashlib.sha512], after FIPS 180-4: 64-bit words
    as [Z] with the wrap-around written out, the message as a list of
    bytes. *)
Module SHA512.

Definition word (x : Z) : Z := x mod 2 ^ 64.
Definition add (x y : Z) : Z := word (x + y).
Definition rotr (n x : Z) : Z :=
  Z.lor (Z.shiftr x n) (word (Z.shiftl x (64 - n))).
Definition shr (n x : Z) : Z := Z.shiftr x n.
Definition lnot (x : Z) : Z := 2 ^ 64 - 1 - x.

Definition Ch (x y z : Z) : Z := Z.lxor (Z.land x y) (Z.land (lnot x) z).
Definition Maj (x y z : Z) : Z :=
  Z.lxor (Z.lxor (Z.land x y) (Z.land x z)) (Z.land y z).
Definition Sigma0 (x : Z) : Z := Z.lxor (Z.lxor (rotr 28 x) (rotr 34 x)) (rotr 39 x).
Definition Sigma1 (x : Z) : Z := Z.lxor (Z.lxor (rotr 14 x) (rotr 18 x)) (rotr 41 x).
Definition sigma0 (x : Z) : Z := Z.lxor (Z.lxor (rotr 1 x) (rotr 8 x)) (shr 7 x).
Definition sigma1 (x : Z) : Z := Z.lxor (Z.lxor (rotr 19 x) (rotr 61 x)) (shr 6 x).

(** The first primes, by trial division. *)
Fixpoint divisible_by_any (ps : list Z) (n : Z) : bool :=
  match ps with
  | [] => false
  | p :: ps' => (n mod p =? 0) || divisible_by_any ps' n
  end.
Fixpoint primes_from (fuel : nat) (n : Z) (count : nat) (found : list Z) : list Z :=
  match count, fuel with
  | O, _ | _, O => List.rev found
  | S count', S fuel' =>
      if divisible_by_any found n then primes_from fuel' (n + 1) count found
      else primes_from fuel' (n + 1) count' (n :: found)
  end.
Definition primes (count : nat) : list Z := primes_from 1000 2 count [].

(** Integer cube root by bisection. *)
Fixpoint cbrt_bisect (fuel : nat) (lo hi n : Z) : Z :=
  match fuel with
  | O => lo
  | S fuel' =>
      if hi - lo <=? 1 then lo
      else let mid := (lo + hi) / 2 in
           if mid * mid * mid <=? n then cbrt_bisect fuel' mid hi n
           else cbrt_bisect fuel' lo mid n
  end.
Definition cbrt (n : Z) : Z := cbrt_bisect 300 0 (2 ^ 70) n.

(** The initial hash value: the first 64 bits of the fractional parts of
    the square roots of the first 8 primes. *)
Definition H0 : list Z :=
  Eval vm_compute in List.map (fun p => word (Z.sqrt (p * 2 ^ 128))) (primes 8).
(** The round constants: the first 64 bits of the fractional parts of
    the cube roots of the first 80 primes. *)
Definition K : list Z :=
  Eval vm_compute in List.map (fun p => word (cbrt (p * 2 ^ 192))) (primes 80).

(** [n] as [len] bytes, most significant first. *)
Fixpoint be_bytes (len : nat) (n : Z) : list Z :=
  match len with
  | O => []
  | S len' => (Z.shiftr n (8 * Z.of_nat len')) mod 256 :: be_bytes len' n
  end.
Definition be_word (bs : list Z) : Z :=
  List.fold_left (fun acc b => acc * 256 + b) bs 0.

Definition pad (msg : list Z) : list Z :=
  let l := Z.of_nat (List.length msg) in
  let zeros := (111 - l) mod 128 in
  (msg ++ [128] ++ List.repeat 0 (Z.to_nat zeros) ++ be_bytes 16 (8 * l))%list.

Fixpoint chunks (fuel : nat) (size : nat) (l : list Z) : list (list Z) :=
  match fuel, l with
  | O, _ | _, [] => []
  | S fuel', _ => List.firstn size l :: chunks fuel' size (List.skipn size l)
  end.

(** The message schedule: [ws] holds the words so far, latest first. *)
Fixpoint schedule (n : nat) (ws : list Z) : list Z :=
  match n with
  | O => List.rev ws
  | S n' =>
      let w := add (add (sigma1 (List.nth 1 ws 0)) (List.nth 6 ws 0))
                   (add (sigma0 (List.nth 14 ws 0)) (List.nth 15 ws 0)) in
      schedule n' (w :: ws)
  end.

Definition round (st : list Z) (kw : Z * Z) : list Z :=
  match st with
  | [a; b; c; d; e; f; g; h] =>
      let t1 := add (add (add h (Sigma1 e)) (add (Ch e f g) (fst kw))) (snd kw) in
      let t2 := add (Sigma0 a) (Maj a b c) in
      [add t1 t2; a; b; c; add d t1; e; f; g]
  | _ => st
  end.

Definition compress (st : list Z) (block : list Z) : list Z :=
  let w16 := List.map be_word (chunks 16 8 block) in
  let w := schedule 64 (List.rev w16) in
  let st' := List.fold_left round (List.combine K w) st in
  List.map (fun p => add (fst p) (snd p)) (List.combine st st').

Definition digest (msg : list Z) : list Z :=
  let padded := pad msg in
  let blocks := chunks (List.length padded) 128 padded in
  List.flat_map (be_bytes 8) (List.fold_left compress blocks H0).

Definition hex_digit (n : Z) : Ascii.ascii :=
  Ascii.ascii_of_N (Z.to_N (if n <? 10 then 48 + n else 87 + n)).
Fixpoint hex (bs : list Z) : string :=
  match bs with
  | [] => EmptyString
  | b :: bs' => String (hex_digit (b / 16)) (String (hex_digit (b mod 16)) (hex bs'))
  end.

Definition hexdigest (s : string) : string := hex (digest (bytes_of_string s)).

End SHA512.

(** ** Base64

    The encoder behind [base64.b64encode], after RFC 4648. *)
Module Base64.

Definition alphabet : string :=
  "ABCDEFGHIJKLMNOPQRSTUVWXYZabcdefghijklmnopqrstuvwxyz0123456789+/".

(** The character of a 6-bit group. *)
Definition sextet (n : Z) : Ascii.ascii :=
  match String.get (Z.to_nat (n mod 64)) alphabet with
  | Some c => c
  | None => Ascii.ascii_of_N 61
  end.

(** Three bytes give four characters; a last group of one or two bytes
    is filled up with [=]. *)
Fixpoint encode (bs : list Z) : string :=
  match bs with
  | [] => ""
  | [a] =>
      let n := a * 65536 in
      String (sextet (n / 262144)) (String (sextet (n / 4096)) "==")
  | [a; b] =>
      let n := a * 65536 + b * 256 in
      String (sextet (n / 262144)) (String (sextet (n / 4096))
        (String (sextet (n / 64)) "="))
  | a :: b :: c :: rest =>
      let n := a * 65536 + b * 256 + c in
      String (sextet (n / 262144)) (String (sextet (n / 4096))
        (String (sextet (n / 64)) (String (sextet n) (encode rest))))
  end.

Definition b64encode (s : string) : string := encode (bytes_of_string s).

End Base64.

(** ** [hashlib] objects *)

(** A hash object accumulates the bytes it is fed; the digest is taken
    over all of them. *)
Module Hashlib.

Record hash : Type := mkHash { fed : string }.

Definition sha512 : hash := mkHash "".
Definition update (h : hash) (data : string) : hash := mkHash (fed h +:+ data).
Definition hexdigest (h : hash) : string := SHA512.hexdigest (fed h).

End Hashlib.

(** ** What a trace shows *)

(** The notifications the callback was invoked with, in order. *)
Definition callbacks (tr : list Event) : list INotification :=
  omap (fun e => match e with EvCallback n => Some n | _ => None end) tr.

(** The number of registration calls to the push provider. *)
Definition is_fcm_register (e : Event) : bool :=
  match e with EvFCMRegister _ _ _ _ _ _ => true | _ => false end.
Definition fcm_registrations (tr : list Event) : nat :=
  length (List.filter is_fcm_register tr).

(** The number of refresh exchanges with the OAuth service. *)
Definition is_refresh (e : Event) : bool :=
  match e with EvUpdateOAuthToken _ _ => true | _ => false end.
Definition refresh_exchanges (tr : list Event) : nat :=
  length (List.filter is_refresh tr).

(** The bodies of the POST requests sent to a given URL, in order. *)
Definition posts_to (url : string) (tr : list Event) : list dict :=
  omap (fun e => match e with
                 | EvPost u json _ => if String.eqb u url then Some json else None
                 | _ => None
                 end) tr.

Definition FERMAX_BASE_URL : string := "https://blue.fermax.io".

(** ** [BlueConAPI] *)

Section BlueConAPI.

(** Methods of classes that are not part of the sources at hand. *)
Variable shouldAcknowledge : INotification -> bool.
Variable getFcmMessageId : INotification -> pyval.
Variable isExpired : Z -> OAuthToken -> bool.
Variable getBearerAuthHeader : OAuthToken -> dict.

(** The outside world.  Each answer may depend on everything that
    happened before, which the trace records: the OAuth refresh
    exchange, an HTTP POST (the status of the response, or the
    exception the request raised), and the push provider's
    registration call. *)
Variable OAuthService_updateOAuthToken :
  list Event -> string -> OAuthToken -> result OAuthToken.
Variable session_post : list Event -> string -> dict -> dict -> result Z.
Variable AndroidFCM_register :
  list Event -> string -> string -> Z -> string -> string -> string ->
  result Credentials.

Variable self : Config.

Definition updateOAuthToken (authHeader : string) (t : OAuthToken) : M OAuthToken :=
  modify (log (EvUpdateOAuthToken authHeader t)) ;;;
  tr <- gets trace ;;
  lift (OAuthService_updateOAuthToken tr authHeader t).

Definition post (url : string) (json headers : dict) : M Z :=
  modify (log (EvPost url json headers)) ;;;
  tr <- gets trace ;;
  lift (session_post tr url json headers).

Definition register (api_key project_id : string) (gcm_sender_id : Z)
    (gms_app_id android_package_name android_package_cert : string)
  : M Credentials :=
  modify (log (EvFCMRegister api_key project_id gcm_sender_id gms_app_id
                 android_package_name android_package_cert)) ;;;
  tr <- gets trace ;;
  lift (AndroidFCM_register tr api_key project_id gcm_sender_id gms_app_id
          android_package_name android_package_cert).

(** The registered callback: its invocation is an observable effect. *)
Definition notificationCallback (n : INotification) : M unit :=
  modify (log (EvCallback n)).

(** The URL and the body of the acknowledgment request, and the URL of
    the app-token request. *)
Definition ack_url : string :=
  FERMAX_BASE_URL +:+ "/callmanager/api/v1/message/ack".
Definition ack_json (notification : INotification) : dict :=
  {[ "attended" := PBool true;
     "fcmMessageId" := getFcmMessageId notification ]}.
Definition apptoken_url : string :=
  FERMAX_BASE_URL +:+ "/notification/api/v1/apptoken".
Definition apptoken_json (token : pyval) (active : bool) : dict :=
  {[ "token" := token;
     "appVersion" := PStr "3.3.2";
     "locale" := PStr "en";
     "os" := PStr "Android";
     "osVersion" := PStr "Android 13";
     "active" := PBool active ]}.

(** [__getAuthHeader] *)
Definition __getAuthHeader : string :=
  Base64.b64encode (clientId self +:+ ":" +:+ clientSecret self).

(** [__getOrRefreshOAuthToken].  Calling [isExpired] on the [None] of
    an empty storage raises [AttributeError]. *)
Definition __getOrRefreshOAuthToken : M OAuthToken :=
  oAuthToken <- Storage.retrieveOAuthToken ;;
  match oAuthToken with
  | None => raise (AttributeError "isExpired")
  | Some oAuthToken =>
      now <- gets clock ;;
      if isExpired now oAuthToken then
        oAuthToken <- updateOAuthToken __getAuthHeader oAuthToken ;;
        Storage.storeOAuthToken oAuthToken ;;;
        ret oAuthToken
      else ret oAuthToken
  end.

(** [acknowledgeNotification].  A Python function that falls off its
    end returns [None]: the result is [Some b] for a boolean [b] and
    [None] for Python's [None]. *)
Definition acknowledgeNotification (notification : INotification) : M (option bool) :=
  if shouldAcknowledge notification then
    let json : dict := ack_json notification in
    oAuthToken <- __getOrRefreshOAuthToken ;;
    status <- post ack_url json (getBearerAuthHeader oAuthToken) ;;
    ret (Some (status =? 200)%Z)
  else ret None.

(** [buildPackageCert], the closure inside [registerAppToken]. *)
Definition buildPackageCert : string :=
  let sha := Hashlib.sha512 in
  let sha := Hashlib.update sha (py_str_int (senderId self)) in
  let sha := Hashlib.update sha (appId self) in
  let sha := Hashlib.update sha (apiKey self) in
  let sha := Hashlib.update sha (projectId self) in
  let sha := Hashlib.update sha (packageName self) in
  Hashlib.hexdigest sha.

(** [credentials["fcm"]["token"]] *)
Definition fcm_token (credentials : Credentials) : result pyval :=
  match credentials !! "fcm" with
  | None => Raise (KeyError "fcm")
  | Some fcm => dict_getitem fcm "token"
  end.

(** [registerAppToken] *)
Definition registerAppToken (active : bool) : M bool :=
  d <- gets deviceId ;;
  (if py_eqb d PNone then
     let PACKAGE_CERT := buildPackageCert in
     credentials <- Storage.retrieveCredentials ;;
     credentials <-
       match credentials with
       | None =>
           credentials <- register (apiKey self) (projectId self) (senderId self)
                            (appId self) (packageName self) PACKAGE_CERT ;;
           Storage.storeCredentials credentials ;;;
           ret credentials
       | Some credentials => ret credentials
       end ;;
     token <- lift (fcm_token credentials) ;;
     modify (set_deviceId token)
   else ret tt) ;;;
  d <- gets deviceId ;;
  let json : dict := apptoken_json d active in
  oAuthToken <- __getOrRefreshOAuthToken ;;
  status <- post apptoken_url json (getBearerAuthHeader oAuthToken) ;;
  ret (status =? 200)%Z.

(** *** The notification listener *)

(** The duplicate test of [on_notification]:
    [received_persistent_ids is not None and
     any(idstr in x for x in received_persistent_ids)]. *)
Definition is_duplicate (idstr : string)
    (received_persistent_ids : option (list string)) : bool :=
  match received_persistent_ids with
  | Some ids => existsb (fun x => str_in idstr x) ids
  | None => false
  end.

(** [on_notification], the callback handed to the push receiver. *)
Definition on_notification (notification : dict) (data_message : DataMessage)
  : M unit :=
  let idstr := persistent_id data_message in
  received_persistent_ids <- Storage.retrievePersistentIds ;;
  if is_duplicate idstr received_persistent_ids
  then ret tt
  else
    Storage.storePersistentId idstr ;;;
    blueConNotification <-
      lift (NotificationBuilder.fromNotification notification (id data_message)) ;;
    _ <- acknowledgeNotification blueConNotification ;;
    notificationCallback blueConNotification.

(** The push receiver hands each inbound message to the callback, in
    the order of delivery.  Whether it goes on after the callback
    raised is the receiver's business: [resume_after_error] leaves
    both behaviours open. *)
Variable resume_after_error : bool.

Fixpoint listen (inbound : list (dict * DataMessage)) : M unit :=
  match inbound with
  | [] => ret tt
  | (notification, data_message) :: rest =>
      fun w =>
        match on_notification notification data_message w with
        | (w', Ret _) => listen rest w'
        | (w', Raise e) =>
            if resume_after_error then listen rest w' else (w', Raise e)
        end
  end.

(** [listener_thread], the target of the listener thread: it reads the
    credentials and the stored ids to build the receiver, then
    listens. *)
Definition listener_thread (inbound : list (dict * DataMessage)) : M unit :=
  credentials <- Storage.retrieveCredentials ;;
  received_persistent_ids <- Storage.retrievePersistentIds ;;
  listen inbound.

(** How long the target of the listener thread runs once started, in
    milliseconds; [None] when it never returns. *)
Variable listener_run_time : option Z.

(** [startNotificationListener] *)
Definition startNotificationListener : M unit :=
  credentials <- Storage.retrieveCredentials ;;
  match credentials with
  | None => _ <- registerAppToken true ;; ret tt
  | Some _ => ret tt
  end ;;;
  now <- gets clock ;;
  modify (set_listenerThread
            (Some (mkThread (option_map (fun d => now + d) listener_run_time)))).

(** [Thread.is_alive] *)
Definition is_alive (t : Thread) : M bool :=
  now <- gets clock ;;
  ret match terminates_at t with
      | Some e => now <? e
      | None => true
      end.

(** [Thread.join(timeout)]: the caller blocks until the thread has
    terminated or the timeout has elapsed, whichever comes first. *)
Definition join (t : Thread) (timeout : Z) : M unit :=
  modify (fun w =>
    set_clock match terminates_at t with
              | Some e => Z.max (clock w) (Z.min e (clock w + timeout))
              | None => clock w + timeout
              end w).

(** [stopNotificationListener].  The [10.0] seconds of the source are
    [10000] on the millisecond clock.  Before the listener was ever
    started the attribute [__listenerThread] does not exist. *)
Definition stopNotificationListener : M bool :=
  t <- gets listenerThread ;;
  match t with
  | None => raise (AttributeError "__listenerThread")
  | Some t =>
      join t 10000 ;;;
      is_alive t
  end.

End BlueConAPI.

(** ** Sample surroundings

    Concrete collaborators and states on which the client can be run. *)
Module Sample.

Definition shouldAcknowledge (n : INotification) : bool :=
  match n with
  | CallNotification _ _ => true
  | CallEndNotification _ => false
  end.

Definition getFcmMessageId (n : INotification) : pyval :=
  match n with
  | CallNotification _ notificationId => PStr notificationId
  | CallEndNotification _ => PNone
  end.

Definition isExpired (now : Z) (t : OAuthToken) : bool := expiry t <=? now.

Definition getBearerAuthHeader (t : OAuthToken) : dict :=
  {[ "Authorization" := PStr ("Bearer " +:+ accessToken t) ]}.

Definition config : Config :=
  mkConfig "client" "secret" 1234 "key" "project" "app" "com.example".

Definition stale : OAuthToken := mkOAuthToken "old" "refresh" 50.
Definition fresh : OAuthToken := mkOAuthToken "new" "refresh" 5000.

(** An OAuth service that answers every refresh with [fresh], and one
    that fails. *)
Definition refresh_ok (_ : list Event) (_ : string) (_ : OAuthToken)
  : result OAuthToken := Ret fresh.
Definition refresh_fails (_ : list Event) (_ : string) (_ : OAuthToken)
  : result OAuthToken := Raise (ExternalError "authentication").

(** An OAuth service whose answer to a refresh is a token that has
    expired already. *)
Definition late : OAuthToken := mkOAuthToken "late" "refresh" 60.
Definition refresh_late (_ : list Event) (_ : string) (_ : OAuthToken)
  : result OAuthToken := Ret late.

(** A server that answers every POST with the same status, and a
    connection on which every request raises. *)
Definition post_status (status : Z) (_ : list Event) (_ : string) (_ _ : dict)
  : result Z := Ret status.
Definition post_raises (_ : list Event) (_ : string) (_ _ : dict)
  : result Z := Raise (ExternalError "transport").

Definition provider_credentials : Credentials :=
  {[ "fcm" := {[ "token" := PStr "device-token" ]} ]}.
Definition fcm_register (_ : list Event) (_ _ : string) (_ : Z) (_ _ _ : string)
  : result Credentials := Ret provider_credentials.

(** A client at time 100 holding a token that is still valid, with
    nothing else stored. *)
Definition world : World :=
  mkWorld (Some fresh) None None PNone None 100 [].

Definition call (device : string) : dict :=
  {[ "FermaxNotificationType" := PStr "Call"; "DeviceId" := PStr device ]}.
Definition call_end (device : string) : dict :=
  {[ "FermaxNotificationType" := PStr "CallEnd"; "DeviceId" := PStr device ]}.
Definition other (device : string) : dict :=
  {[ "FermaxNotificationType" := PStr "Info"; "DeviceId" := PStr device ]}.

(** The methods of the client with the sample collaborators, an OAuth
    service that answers every refresh, and a server [session_post]. *)
Definition client_getOrRefreshOAuthToken
    (service : list Event -> string -> OAuthToken -> result OAuthToken)
  : M OAuthToken :=
  __getOrRefreshOAuthToken isExpired service config.
Definition client_acknowledgeNotification
    (session_post : list Event -> string -> dict -> dict -> result Z)
  : INotification -> M (option bool) :=
  acknowledgeNotification shouldAcknowledge getFcmMessageId isExpired
    getBearerAuthHeader refresh_ok session_post config.
Definition client_on_notification
    (session_post : list Event -> string -> dict -> dict -> result Z)
  : dict -> DataMessage -> M unit :=
  on_notification shouldAcknowledge getFcmMessageId isExpired
    getBearerAuthHeader refresh_ok session_post config.
Definition client_listen (resume_after_error : bool)
    (session_post : list Event -> string -> dict -> dict -> result Z)
  : list (dict * DataMessage) -> M unit :=
  listen shouldAcknowledge getFcmMessageId isExpired
    getBearerAuthHeader refresh_ok session_post config resume_after_error.
Definition client_registerAppToken : bool -> M bool :=
  registerAppToken isExpired getBearerAuthHeader refresh_ok (post_status 200)
    fcm_register config.

(** The notifications the callback of the sample client is invoked
    with when the listener is handed [inbound], starting from [world]. *)
Definition deliveries (resume_after_error : bool)
    (session_post : list Event -> string -> dict -> dict -> result Z)
    (inbound : list (dict * DataMessage)) : list INotification :=
  callbacks (trace (client_listen resume_after_error session_post inbound world).1).

(** Four messages with the persistent ids [a, a, b, a]: well-formed
    calls with the ids ["a1"] and ["b2"]; the same with a third message
    of an unknown type; and well-formed calls with the ids ["abc"] and
    ["ab"]. *)
Definition inbound_calls : list (dict * DataMessage) :=
  [ (call "d1", mkDataMessage "a1" "m1");
    (call "d1", mkDataMessage "a1" "m2");
    (call "d2", mkDataMessage "b2" "m3");
    (call "d1", mkDataMessage "a1" "m4") ].
Definition inbound_unknown_type : list (dict * DataMessage) :=
  [ (call "d1", mkDataMessage "a1" "m1");
    (call "d1", mkDataMessage "a1" "m2");
    (other "d2", mkDataMessage "b2" "m3");
    (call "d1", mkDataMessage "a1" "m4") ].
Definition inbound_substring : list (dict * DataMessage) :=
  [ (call "d1", mkDataMessage "abc" "m1");
    (call "d1", mkDataMessage "abc" "m2");
    (call "d2", mkDataMessage "ab" "m3");
    (call "d1", mkDataMessage "abc" "m4") ].

(** The sample client with an expired token, with stored credentials,
    with stored persistent ids, and with a listener thread that
    terminates four seconds from now or never. *)
Definition world_stale : World := set_oAuthTokenStorage (Some stale) world.
Definition world_registered : World :=
  set_credentialsStorage (Some provider_credentials) world.
Definition world_seen (ids : list string) : World :=
  set_persistentIdsStorage (Some ids) world.
Definition world_listening (terminates : option Z) : World :=
  set_listenerThread (Some (mkThread terminates)) world.

End Sample.

(** * The rest of the package *)

(** ** More of Python *)

(** Python's [==] between a value and an [int] literal: a [bool] is the
    integer 0 or 1, anything that is not a number is unequal. *)
Definition py_eq_int (v : pyval) (n : Z) : bool :=
  match v with
  | PInt z => z =? n
  | PBool b => (if b then 1 else 0) =? n
  | _ => false
  end.

(** Python's [str(v)], as an f-string applies it. *)
Definition py_str (v : pyval) : string :=
  match v with
  | PNone => "None"
  | PBool true => "True"
  | PBool false => "False"
  | PInt z => py_str_int z
  | PStr s => s
  end.

(** [d.get(k, None) is not None] *)
Definition dict_has (d : dict) (k : string) : bool :=
  match d !! k with
  | Some v => negb (py_eqb v PNone)
  | None => false
  end.

(** ** [sensor.py]: the text of a wireless signal *)

Definition SIGNAL_TERRIBLE : string := "terrible".
Definition SIGNAL_BAD : string := "bad".
Definition SIGNAL_WEAK : string := "weak".
Definition SIGNAL_GOOD : string := "good".
Definition SIGNAL_EXCELENT : string := "excelent".
Definition SIGNAL_UNKNOWN : string := "unknown".

(** [getWirelessSignalText].  The last branch of the source is the bare
    expression [SIGNAL_UNKNOWN], with no [return]: the function falls
    off its end there and returns [None]. *)
Definition getWirelessSignalText (wirelessSignal : pyval) : pyval :=
  if py_eq_int wirelessSignal 0 then PStr SIGNAL_TERRIBLE
  else if py_eq_int wirelessSignal 1 then PStr SIGNAL_BAD
  else if py_eq_int wirelessSignal 2 then PStr SIGNAL_WEAK
  else if py_eq_int wirelessSignal 3 then PStr SIGNAL_GOOD
  else if py_eq_int wirelessSignal 4 then PStr SIGNAL_EXCELENT
  else PNone.

(** The [_attr_options] of [BlueConWifiStrenghtSensor]. *)
Definition wifi_options : list string :=
  [SIGNAL_TERRIBLE; SIGNAL_BAD; SIGNAL_WEAK; SIGNAL_GOOD; SIGNAL_EXCELENT;
   SIGNAL_UNKNOWN].

(** ** More exceptions, parsed JSON *)

(** The exceptions of the code below: those above, and two more. *)
Inductive pyexn : Type :=
| Core (e : exn)
| TypeError
| RuntimeError (msg : string).

Inductive outcome (A : Type) : Type :=
| Done (a : A)
| Fail (e : pyexn).
Arguments Done {A} a.
Arguments Fail {A} e.

Definition outcome_of_result {A} (r : result A) : outcome A :=
  match r with
  | Ret a => Done a
  | Raise e => Fail (Core e)
  end.

(** A parsed JSON document.  An object is the list of the items of the
    [dict] it parses to, in order, each key once. *)
Unset Elimination Schemes.
Inductive json : Type :=
| JNull
| JBool (b : bool)
| JInt (z : Z)
| JStr (s : string)
| JList (items : list json)
| JDict (items : list (string * json)).
Set Elimination Schemes.

Fixpoint assoc {A} (k : string) (items : list (string * A)) : option A :=
  match items with
  | [] => None
  | (k', v) :: rest => if String.eqb k k' then Some v else assoc k rest
  end.

(** [j[k]] for a string [k]: only a [dict] can be indexed by a string. *)
Definition json_getitem (j : json) (k : string) : outcome json :=
  match j with
  | JDict items =>
      match assoc k items with
      | Some v => Done v
      | None => Fail (Core (KeyError k))
      end
  | _ => Fail TypeError
  end.

(** [list(map(f, l))] for a constructor [f] that may raise: the first
    failure is the failure of the whole. *)
Fixpoint traverse {A B} (f : A -> outcome B) (l : list A) : outcome (list B) :=
  match l with
  | [] => Done []
  | x :: rest =>
      match f x with
      | Fail e => Fail e
      | Done y =>
          match traverse f rest with
          | Fail e => Fail e
          | Done ys => Done (y :: ys)
          end
      end
  end.

(** [max(l, key=key, default=None)]: the first of the elements whose
    key is the greatest. *)
Definition py_max_by {A} (key : A -> Z) (l : list A) : option A :=
  match l with
  | [] => None
  | x :: rest =>
      Some (List.fold_left (fun best y => if key best <? key y then y else best)
              rest x)
  end.

(** ** The model classes

    The classes of [bluecon/model] are not part of the sources at hand.
    Each is taken with the attributes the sources read from it. *)

Module AccessDoor.
Record t : Type := mk {
  title : pyval;
  block : pyval;
  subBlock : pyval;
  number : pyval;
  visible : pyval
}.
End AccessDoor.

Module Pairing.
Record t : Type := mk {
  id : pyval;
  deviceId : string;
  accessDoorMap : list (string * AccessDoor.t)
}.
End Pairing.

Module DeviceInfo.
Record t : Type := mk {
  deviceId : pyval;
  connectionState : pyval;
  family : pyval;
  type : pyval;
  subType : pyval;
  photoCaller : pyval;
  wirelessSignal : pyval
}.
End DeviceInfo.

Module User.
Record t : Type := mk {
  email : pyval;
  locale : pyval
}.
End User.

(** ** GET requests *)

Record GetRequest : Type := mkGet {
  get_url : string;
  get_params : dict;
  get_headers : dict
}.

(** A response: its status, what [json.loads] makes of its text and
    what [response.json()] returns; both may raise. *)
Record Response : Type := mkResponse {
  status : Z;
  loads_text : outcome json;
  response_json : outcome json
}.

(** The client's world together with the GET requests sent so far. *)
Record Net : Type := mkNet {
  net_world : World;
  net_gets : list GetRequest
}.

Definition N (A : Type) : Type := Net -> Net * outcome A.

Definition retN {A} (a : A) : N A := fun s => (s, Done a).
Definition failN {A} (e : pyexn) : N A := fun s => (s, Fail e).
Definition bindN {A B} (m : N A) (k : A -> N B) : N B :=
  fun s => match m s with
           | (s', Done a) => k a s'
           | (s', Fail e) => (s', Fail e)
           end.
Definition liftN {A} (o : outcome A) : N A := fun s => (s, o).

(** A computation on the client's world, run inside the larger state. *)
Definition liftM {A} (m : M A) : N A :=
  fun s => match m (net_world s) with
           | (w', r) => (mkNet w' (net_gets s), outcome_of_result r)
           end.

Fixpoint mapN {A B} (f : A -> N B) (l : list A) : N (list B) :=
  match l with
  | [] => retN []
  | x :: rest =>
      bindN (f x) (fun y => bindN (mapN f rest) (fun ys => retN (y :: ys)))
  end.

Declare Scope net_scope.
Delimit Scope net_scope with net.
Notation "x <- m ;; k" := (bindN m (fun x => k))
  (at level 100, m at next level, right associativity) : net_scope.
Notation "m ;;; k" := (bindN m (fun _ => k))
  (at level 100, right associativity) : net_scope.

(** ** The rest of [BlueConAPI] *)

(** [self.deviceId], read. *)
Definition self_deviceId : M pyval := gets deviceId.

Section BlueConAPI_rest.

Local Open Scope net_scope.

Variable isExpired : Z -> OAuthToken -> bool.
Variable getBearerAuthHeader : OAuthToken -> dict.
Variable OAuthService_updateOAuthToken :
  list Event -> string -> OAuthToken -> result OAuthToken.
Variable session_post : list Event -> string -> dict -> dict -> result Z.
Variable self : Config.

(** The password exchange of the OAuth service, a method of
    [AccessDoor], and the constructors of the model classes: none of
    them is part of the sources at hand. *)
Variable OAuthService_createOAuthToken :
  list Event -> string -> string -> string -> result OAuthToken.
Variable getDirectOpenDoorParamsRequest : AccessDoor.t -> dict.
Variable Pairing_new : json -> outcome Pairing.t.
Variable User_new : json -> outcome User.t.
Variable DeviceInfo_new : json -> outcome DeviceInfo.t.

(** The class [CallLog], with what the sources use of it. *)
Variable CallLog : Type.
Variable CallLog_new : json -> outcome CallLog.
Variable CallLog_deviceId : CallLog -> pyval.
Variable CallLog_photoId : CallLog -> pyval.
Variable getCallDate : CallLog -> Z.

(** Library functions: [base64.b64decode] and the characters of a
    [str]. *)
Variable b64decode : json -> outcome string.
Variable py_chars : string -> list string.

(** The answer to a GET request; it may depend on everything that
    happened before. *)
Variable session_get :
  list Event -> list GetRequest -> GetRequest -> outcome Response.

(** The client holds a token, and the token is not expired. *)
Definition has_valid_token (w : World) (t : OAuthToken) : Prop :=
  oAuthTokenStorage w = Some t /\ isExpired (clock w) t = false.

(** [__init__]: a new instance holds no device token and no listener
    thread; the storages it is given are what they are. *)
Definition __init__ (w : World) : World :=
  set_listenerThread None (set_deviceId PNone w).

(** [create] *)
Definition create (username password : string) : M Config :=
  (modify __init__ ;;;
   tr <- gets trace ;;
   oauthToken <- lift (OAuthService_createOAuthToken tr (__getAuthHeader self)
                         username password) ;;
   Storage.storeOAuthToken oauthToken ;;;
   ret self)%py.

(** [create_already_authed] *)
Definition create_already_authed : N Config :=
  stored <- liftM Storage.retrieveOAuthToken ;;
  match stored with
  | Some _ => liftM (modify __init__) ;;; retN self
  | None =>
      failN (RuntimeError "Provided IOAuthTokenStorage does not contain a token")
  end.

(** The URLs of a device. *)
Definition device_url (deviceId : string) : string :=
  FERMAX_BASE_URL +:+ "/deviceaction/api/v1/device/" +:+ deviceId.
Definition directed_opendoor_url (deviceId : string) : string :=
  FERMAX_BASE_URL +:+ "/deviceaction/api/v1/device/" +:+ deviceId
  +:+ "/directed-opendoor".

(** [openDoor] *)
Definition openDoor (deviceId : string) (door : AccessDoor.t) : M bool :=
  (let url := directed_opendoor_url deviceId in
   let json := getDirectOpenDoorParamsRequest door in
   oAuthToken <- __getOrRefreshOAuthToken isExpired OAuthService_updateOAuthToken self ;;
   status <- post session_post url json (getBearerAuthHeader oAuthToken) ;;
   ret (status =? 200))%py.

(** [(await self.__getOrRefreshOAuthToken()).getBearerAuthHeader()], in
    the larger state. *)
Definition bearer : N dict :=
  oAuthToken <- liftM (__getOrRefreshOAuthToken isExpired
                         OAuthService_updateOAuthToken self) ;;
  retN (getBearerAuthHeader oAuthToken).

(** [session.get] *)
Definition get (url : string) (params headers : dict) : N Response :=
  fun s =>
    let request := mkGet url params headers in
    (mkNet (net_world s) (net_gets s ++ [request]),
     session_get (trace (net_world s)) (net_gets s) request).

(** What iterating over a parsed document yields: the items of a list,
    the keys of a dict, the characters of a string. *)
Definition py_iter (j : json) : outcome (list json) :=
  match j with
  | JList items => Done items
  | JDict items => Done (List.map (fun kv => JStr kv.1) items)
  | JStr s => Done (List.map JStr (py_chars s))
  | _ => Fail TypeError
  end.

(** [getPairings] *)
Definition getPairings : N (list Pairing.t) :=
  headers <- bearer ;;
  response <- get (FERMAX_BASE_URL +:+ "/pairing/api/v3/pairings/me") ∅ headers ;;
  loaded <- liftN (loads_text response) ;;
  items <- liftN (py_iter loaded) ;;
  liftN (traverse Pairing_new items).

(** [getUserInfo] *)
Definition getUserInfo : N User.t :=
  headers <- bearer ;;
  response <- get (FERMAX_BASE_URL +:+ "/user/api/v1/users/me") ∅ headers ;;
  loaded <- liftN (loads_text response) ;;
  liftN (User_new loaded).

(** [getDeviceInfo] *)
Definition getDeviceInfo (deviceId : string) : N (option DeviceInfo.t) :=
  headers <- bearer ;;
  response <- get (device_url deviceId) ∅ headers ;;
  if status response =? 200 then
    parsed <- liftN (response_json response) ;;
    deviceInfo <- liftN (DeviceInfo_new parsed) ;;
    retN (Some deviceInfo)
  else retN None.

(** The test of the list comprehension in [getLastPicture]:
    [callLog.deviceId == deviceId and callLog.photoId is not None]. *)
Definition has_photo_of (deviceId : string) (callLog : CallLog) : bool :=
  py_eqb (CallLog_deviceId callLog) (PStr deviceId) &&
  negb (py_eqb (CallLog_photoId callLog) PNone).

Definition callregistry_url : string :=
  FERMAX_BASE_URL +:+ "/callManager/api/v1/callregistry/participant".
Definition photocall_url : string :=
  FERMAX_BASE_URL +:+ "/callManager/api/v1/photocall".

(** [getLastPicture] *)
Definition getLastPicture (deviceId : string) : N (option string) :=
  appToken <- liftM self_deviceId ;;
  headers <- bearer ;;
  response <- get callregistry_url
                  {[ "appToken" := appToken; "callRegistryType" := PStr "all" ]}
                  headers ;;
  responseJson <- liftN (response_json response) ;;
  items <- liftN (py_iter responseJson) ;;
  constructed <- liftN (traverse CallLog_new items) ;;
  let callLogs := List.filter (has_photo_of deviceId) constructed in
  match py_max_by getCallDate callLogs with
  | Some latestCallLog =>
      headers <- bearer ;;
      response <- get photocall_url
                      {[ "photoId" := CallLog_photoId latestCallLog ]} headers ;;
      parsed <- liftN (response_json response) ;;
      image <- liftN (json_getitem parsed "image") ;;
      data <- liftN (json_getitem image "data") ;;
      picture <- liftN (b64decode data) ;;
      retN (Some picture)
  | None => retN None
  end.

End BlueConAPI_rest.

(** ** The entities of [binary_sensor.py] and [sensor.py] *)

(** The device description an entity hands to the platform. *)
Record HassDeviceInfo : Type := mkHassDeviceInfo {
  identifiers : list (string * string);
  name : string;
  manufacturer : string;
  model : string;
  sw_version : string
}.

Definition STATE_CONNECTED : string := "Connected".

(** [f'{deviceInfo.type} {deviceInfo.subType} {deviceInfo.family}']:
    reading an attribute of [None] raises [AttributeError]. *)
Definition model_of (deviceInfo : option DeviceInfo.t) : outcome string :=
  match deviceInfo with
  | None => Fail (Core (AttributeError "type"))
  | Some d =>
      Done (py_str (DeviceInfo.type d) +:+ " " +:+ py_str (DeviceInfo.subType d)
            +:+ " " +:+ py_str (DeviceInfo.family d))
  end.

(** [deviceInfo is not None and
     deviceInfo.connectionState == STATE_CONNECTED] *)
Definition is_connected (deviceInfo : option DeviceInfo.t) : bool :=
  match deviceInfo with
  | None => false
  | Some d => py_eqb (DeviceInfo.connectionState d) (PStr STATE_CONNECTED)
  end.

Module BlueConCallStatusBinarySensor.
Section Class.

(** [str.lower], and the constants of [const.py], which is not part of
    the sources at hand. *)
Variable lower : string -> string.
Variable DOMAIN : string.
Variable DEVICE_MANUFACTURER : string.
Variable HASS_BLUECON_VERSION : string.

Record t : Type := mk {
  lockId : string;
  deviceId : string;
  accessDoorName : string;
  block : pyval;
  subBlock : pyval;
  number : pyval;
  _attr_unique_id : string;
  entity_id : string;
  _attr_is_on : bool;
  __model : string
}.

Definition __init__ (deviceId accessDoorName : string)
    (block subBlock number : pyval) (deviceInfo : option DeviceInfo.t)
  : outcome t :=
  let lockId := deviceId +:+ "_" +:+ accessDoorName in
  let _attr_unique_id := lower (lockId +:+ "_call_status") in
  let entity_id := lower (DOMAIN +:+ "." +:+ _attr_unique_id) in
  match model_of deviceInfo with
  | Fail e => Fail e
  | Done model =>
      Done (mk lockId deviceId accessDoorName block subBlock number
               _attr_unique_id entity_id false model)
  end.

Definition unique_id (s : t) : string := entity_id s.

Definition set_is_on (b : bool) (s : t) : t :=
  mk (lockId s) (deviceId s) (accessDoorName s) (block s) (subBlock s) (number s)
     (_attr_unique_id s) (entity_id s) b (__model s).

Definition _call_started_callback (s : t) : t := set_is_on true s.
Definition _call_ended_callback (s : t) : t := set_is_on false s.

Definition device_info (s : t) : HassDeviceInfo :=
  mkHassDeviceInfo [(DOMAIN, deviceId s)] (__model s +:+ " " +:+ deviceId s)
    DEVICE_MANUFACTURER (__model s) HASS_BLUECON_VERSION.

(** [async_added_to_hass] connects the two signals of the device to the
    two callbacks. *)
Inductive signal : Type := SIGNAL_CALL_STARTED | SIGNAL_CALL_ENDED.

Definition dispatch (s : t) (sig : signal) : t :=
  match sig with
  | SIGNAL_CALL_STARTED => _call_started_callback s
  | SIGNAL_CALL_ENDED => _call_ended_callback s
  end.

End Class.
End BlueConCallStatusBinarySensor.

Module BlueConConnectionStatusBinarySensor.
Section Class.

Variable lower : string -> string.
Variable DOMAIN : string.
Variable DEVICE_MANUFACTURER : string.
Variable HASS_BLUECON_VERSION : string.

(** The method [getDeviceInfo] of the client the sensor holds. *)
Variable getDeviceInfo : string -> N (option DeviceInfo.t).

Record t : Type := mk {
  deviceId : string;
  _attr_unique_id : string;
  entity_id : string;
  _attr_is_on : bool;
  __model : string
}.

Definition __init__ (deviceId : string) (deviceInfo : option DeviceInfo.t)
  : outcome t :=
  let _attr_unique_id := lower (deviceId +:+ "_connection_status") in
  let entity_id := lower (DOMAIN +:+ "." +:+ _attr_unique_id) in
  let _attr_is_on := is_connected deviceInfo in
  match model_of deviceInfo with
  | Fail e => Fail e
  | Done model => Done (mk deviceId _attr_unique_id entity_id _attr_is_on model)
  end.

Definition unique_id (s : t) : string := entity_id s.

Definition device_info (s : t) : HassDeviceInfo :=
  mkHassDeviceInfo [(DOMAIN, deviceId s)] (__model s +:+ " " +:+ deviceId s)
    DEVICE_MANUFACTURER (__model s) HASS_BLUECON_VERSION.

Definition async_update (s : t) : N t :=
  (deviceInfo <- getDeviceInfo (deviceId s) ;;
   retN (mk (deviceId s) (_attr_unique_id s) (entity_id s)
            (is_connected deviceInfo) (__model s)))%net.

End Class.
End BlueConConnectionStatusBinarySensor.

Module BlueConWifiStrenghtSensor.
Section Class.

Variable lower : string -> string.
Variable DOMAIN : string.
Variable DEVICE_MANUFACTURER : string.
Variable HASS_BLUECON_VERSION : string.
Variable getDeviceInfo : string -> N (option DeviceInfo.t).

Record t : Type := mk {
  deviceId : string;
  _attr_unique_id : string;
  entity_id : string;
  _attr_options : list string;
  _attr_native_value : pyval;
  __model : string;
  _attr_translation_key : string
}.

(** [getWirelessSignalText(deviceInfo.wirelessSignal)] *)
Definition signal_text (deviceInfo : option DeviceInfo.t) : outcome pyval :=
  match deviceInfo with
  | None => Fail (Core (AttributeError "wirelessSignal"))
  | Some d => Done (getWirelessSignalText (DeviceInfo.wirelessSignal d))
  end.

Definition __init__ (deviceId : string) (deviceInfo : option DeviceInfo.t)
  : outcome t :=
  let _attr_unique_id := lower (deviceId +:+ "_connection_status") in
  let entity_id := lower (DOMAIN +:+ "." +:+ _attr_unique_id) in
  match signal_text deviceInfo with
  | Fail e => Fail e
  | Done _attr_native_value =>
      match model_of deviceInfo with
      | Fail e => Fail e
      | Done model =>
          Done (mk deviceId _attr_unique_id entity_id wifi_options
                   _attr_native_value model "wifi-state")
      end
  end.

Definition unique_id (s : t) : string := entity_id s.

Definition device_info (s : t) : HassDeviceInfo :=
  mkHassDeviceInfo [(DOMAIN, deviceId s)] (__model s +:+ " " +:+ deviceId s)
    DEVICE_MANUFACTURER (__model s) HASS_BLUECON_VERSION.

Definition async_update (s : t) : N t :=
  (deviceInfo <- getDeviceInfo (deviceId s) ;;
   value <- liftN (signal_text deviceInfo) ;;
   retN (mk (deviceId s) (_attr_unique_id s) (entity_id s) (_attr_options s)
            value (__model s) (_attr_translation_key s)))%net.

End Class.
End BlueConWifiStrenghtSensor.

(** ** Platform setup *)

(** An entity of the binary sensor platform. *)
Inductive BinarySensor : Type :=
| ConnectionStatus (s : BlueConConnectionStatusBinarySensor.t)
| CallStatus (s : BlueConCallStatusBinarySensor.t).

(** What a list of binary sensors holds: the devices of its connection
    sensors, and the device and door of each of its call sensors. *)
Definition connection_devices (sensors : list BinarySensor) : list string :=
  omap (fun sensor =>
          match sensor with
          | ConnectionStatus s => Some (BlueConConnectionStatusBinarySensor.deviceId s)
          | CallStatus _ => None
          end) sensors.
Definition call_doors (sensors : list BinarySensor) : list (string * string) :=
  omap (fun sensor =>
          match sensor with
          | ConnectionStatus _ => None
          | CallStatus s =>
              Some (BlueConCallStatusBinarySensor.deviceId s,
                    BlueConCallStatusBinarySensor.accessDoorName s)
          end) sensors.

(** The device and door name of every door of a list of pairings. *)
Definition doors_of (pairings : list Pairing.t) : list (string * string) :=
  List.flat_map (fun p => List.map (fun door : string * AccessDoor.t =>
                                      (Pairing.deviceId p, door.1))
                                   (Pairing.accessDoorMap p)) pairings.

Section Setup.

Local Open Scope net_scope.

Variable lower : string -> string.
Variable DOMAIN : string.

(** The keys of the configuration entry. *)
Variable CONF_SENDER_ID : string.
Variable CONF_API_KEY : string.
Variable CONF_PROJECT_ID : string.
Variable CONF_APP_ID : string.
Variable CONF_PACKAGE_NAME : string.

(** The two methods of the client the setup calls. *)
Variable getPairings : N (list Pairing.t).
Variable getDeviceInfo : string -> N (option DeviceInfo.t).

(** The condition under which [binary_sensor.async_setup_entry] adds
    the call sensors: all five notification settings are there. *)
Definition notifications_configured (data : dict) : bool :=
  dict_has data CONF_SENDER_ID && dict_has data CONF_API_KEY &&
  dict_has data CONF_PROJECT_ID && dict_has data CONF_APP_ID &&
  dict_has data CONF_PACKAGE_NAME.

(** The call sensors of one pairing, in the order of its doors. *)
Definition call_sensors (pairing : Pairing.t) (deviceInfo : option DeviceInfo.t)
  : outcome (list BinarySensor) :=
  traverse (fun door : string * AccessDoor.t =>
              match BlueConCallStatusBinarySensor.__init__ lower DOMAIN
                      (Pairing.deviceId pairing) door.1
                      (AccessDoor.block door.2) (AccessDoor.subBlock door.2)
                      (AccessDoor.number door.2) deviceInfo with
              | Fail e => Fail e
              | Done sensor => Done (CallStatus sensor)
              end)
           (Pairing.accessDoorMap pairing).

(** The body of the loop over the pairings in
    [binary_sensor.async_setup_entry]: what one pairing appends to
    [sensors]. *)
Definition binary_sensors_of (data : dict) (pairing : Pairing.t)
  : N (list BinarySensor) :=
  deviceInfo <- getDeviceInfo (Pairing.deviceId pairing) ;;
  connection <- liftN (BlueConConnectionStatusBinarySensor.__init__ lower DOMAIN
                         (Pairing.deviceId pairing) deviceInfo) ;;
  if notifications_configured data then
    calls <- liftN (call_sensors pairing deviceInfo) ;;
    retN (ConnectionStatus connection :: calls)
  else retN [ConnectionStatus connection].

(** [binary_sensor.async_setup_entry], with the client of the entry at
    hand.  The value is the list handed to [async_add_entities], which
    is called once, as the last step. *)
Definition binary_sensor_async_setup_entry (data : dict) : N (list BinarySensor) :=
  pairings <- getPairings ;;
  per_pairing <- mapN (binary_sensors_of data) pairings ;;
  retN (List.concat per_pairing).

(** [sensor.async_setup_entry], likewise. *)
Definition sensor_async_setup_entry : N (list BlueConWifiStrenghtSensor.t) :=
  pairings <- getPairings ;;
  mapN (fun pairing : Pairing.t =>
          deviceInfo <- getDeviceInfo (Pairing.deviceId pairing) ;;
          liftN (BlueConWifiStrenghtSensor.__init__ lower DOMAIN
                   (Pairing.deviceId pairing) deviceInfo))
       pairings.

End Setup.

(** ** Sample surroundings for the rest of the package *)

Module Home.

(** [str.lower] on ASCII text. *)
Definition lower_char (c : Ascii.ascii) : Ascii.ascii :=
  let n := Z.of_N (Ascii.N_of_ascii c) in
  if (65 <=? n) && (n <=? 90) then Ascii.ascii_of_N (Z.to_N (n + 32)) else c.
Fixpoint lower (s : string) : string :=
  match s with
  | EmptyString => EmptyString
  | String c rest => String (lower_char c) (lower rest)
  end.

(** The characters of an ASCII string. *)
Definition py_chars (s : string) : list string :=
  List.map (fun c => String c "") (String.list_ascii_of_string s).

(** A Base64 decoder for padded input over the standard alphabet. *)
Fixpoint sextet_of (c : Ascii.ascii) (alphabet : string) (i : Z) : option Z :=
  match alphabet with
  | EmptyString => None
  | String a rest =>
      if Ascii.eqb a c then Some i else sextet_of c rest (i + 1)
  end.
Definition byte_string (bs : list Z) : string :=
  String.string_of_list_ascii (List.map (fun b => Ascii.ascii_of_N (Z.to_N b)) bs).
Fixpoint decode (fuel : nat) (cs : list Ascii.ascii) : option (list Z) :=
  match fuel, cs with
  | _, [] => Some []
  | S fuel', a :: b :: c :: d :: rest =>
      let s := fun x => sextet_of x Base64.alphabet 0 in
      let pad := Ascii.ascii_of_N 61 in
      match s a, s b with
      | Some x, Some y =>
          if Ascii.eqb c pad && Ascii.eqb d pad then
            match rest with
            | [] => Some [(x * 4 + y / 16) mod 256]
            | _ => None
            end
          else
            match s c with
            | None => None
            | Some z =>
                if Ascii.eqb d pad then
                  match rest with
                  | [] => Some [(x * 4 + y / 16) mod 256; (y * 16 + z / 4) mod 256]
                  | _ => None
                  end
                else
                  match s d, decode fuel' rest with
                  | Some u, Some bytes =>
                      Some ((x * 4 + y / 16) mod 256 :: (y * 16 + z / 4) mod 256
                            :: (z * 64 + u) mod 256 :: bytes)
                  | _, _ => None
                  end
            end
      | _, _ => None
      end
  | _, _ => None
  end.
Definition b64decode (data : json) : outcome string :=
  match data with
  | JStr s =>
      match decode (String.length s) (String.list_ascii_of_string s) with
      | Some bytes => Done (byte_string bytes)
      | None => Fail (Core (ExternalError "binascii.Error"))
      end
  | _ => Fail TypeError
  end.

Definition DOMAIN : string := "bluecon".
Definition DEVICE_MANUFACTURER : string := "Fermax".
Definition HASS_BLUECON_VERSION : string := "0.0.0".
Definition CONF_SENDER_ID : string := "sender_id".
Definition CONF_API_KEY : string := "api_key".
Definition CONF_PROJECT_ID : string := "project_id".
Definition CONF_APP_ID : string := "app_id".
Definition CONF_PACKAGE_NAME : string := "package_name".

(** A configuration entry with all notification settings, and one
    without the sender id. *)
Definition configured : dict :=
  {[ "sender_id" := PInt 1234; "api_key" := PStr "key";
     "project_id" := PStr "project"; "app_id" := PStr "app";
     "package_name" := PStr "com.example" ]}.
Definition not_configured : dict :=
  {[ "api_key" := PStr "key"; "project_id" := PStr "project";
     "app_id" := PStr "app"; "package_name" := PStr "com.example" ]}.

(** The value of an attribute read from a parsed object. *)
Definition attr (j : json) (k : string) : pyval :=
  match json_getitem j k with
  | Done (JStr s) => PStr s
  | Done (JInt z) => PInt z
  | Done (JBool b) => PBool b
  | _ => PNone
  end.

Definition DeviceInfo_new (j : json) : outcome DeviceInfo.t :=
  match j with
  | JDict _ =>
      Done (DeviceInfo.mk (attr j "deviceId") (attr j "connectionState")
              (attr j "family") (attr j "type") (attr j "subType")
              (attr j "photoCaller") (attr j "wirelessSignal"))
  | _ => Fail TypeError
  end.

(** Call logs: the device, the photo and the date of a call. *)
Record CallLog : Type := mkCallLog {
  call_device : pyval;
  call_photo : pyval;
  call_date : Z
}.
Definition CallLog_new (j : json) : outcome CallLog :=
  match j, json_getitem j "callDate" with
  | JDict _, Done (JInt date) =>
      Done (mkCallLog (attr j "deviceId") (attr j "photoId") date)
  | JDict _, _ => Fail (Core (KeyError "callDate"))
  | _, _ => Fail TypeError
  end.

Definition door1 : AccessDoor.t :=
  AccessDoor.mk (PStr "Street") (PInt 1) (PInt 0) (PInt 2) (PBool true).
Definition door2 : AccessDoor.t :=
  AccessDoor.mk (PStr "Garage") (PInt 1) (PInt 0) (PInt 3) (PBool true).
Definition getDirectOpenDoorParamsRequest (door : AccessDoor.t) : dict :=
  {[ "block" := AccessDoor.block door; "subblock" := AccessDoor.subBlock door;
     "number" := AccessDoor.number door ]}.

Definition pairing1 : Pairing.t :=
  Pairing.mk (PStr "p1") "D1" [("ZERO", door1); ("ONE", door2)].
Definition pairing2 : Pairing.t := Pairing.mk (PStr "p2") "d2" [("ZERO", door1)].

Definition info1 : DeviceInfo.t :=
  DeviceInfo.mk (PStr "D1") (PStr "Connected") (PStr "MONITOR") (PStr "VEO")
    (PStr "WIFI") (PBool true) (PInt 3).
Definition info2 : DeviceInfo.t :=
  DeviceInfo.mk (PStr "d2") (PStr "Disconnected") (PStr "MONITOR") (PStr "VEO")
    (PStr "WIFI") (PBool false) (PInt 7).

(** A client whose pairings are the two above, and for which every
    device has an info, or the second has none. *)
Definition getPairings : N (list Pairing.t) := retN [pairing1; pairing2].
Definition getDeviceInfo_all (deviceId : string) : N (option DeviceInfo.t) :=
  retN (Some (if String.eqb deviceId "D1" then info1 else info2)).
Definition getDeviceInfo_first (deviceId : string) : N (option DeviceInfo.t) :=
  retN (if String.eqb deviceId "D1" then Some info1 else None).

(** The vendor's server: it knows the device ["D1"], keeps three call
    logs, two of them of ["D1"] with a photo, and has one picture. *)
Definition registry : json :=
  JList [ JDict [("deviceId", JStr "D1"); ("photoId", JStr "ph1"); ("callDate", JInt 10)];
          JDict [("deviceId", JStr "d2"); ("photoId", JStr "ph2"); ("callDate", JInt 30)];
          JDict [("deviceId", JStr "D1"); ("photoId", JStr "ph3"); ("callDate", JInt 20)];
          JDict [("deviceId", JStr "D1"); ("photoId", JNull); ("callDate", JInt 40)] ].
Definition session_get (_ : list Event) (_ : list GetRequest) (request : GetRequest)
  : outcome Response :=
  let ok := fun j => Done (mkResponse 200 (Done j) (Done j)) in
  if String.eqb (get_url request) (device_url "D1") then
    ok (JDict [("deviceId", JStr "D1"); ("connectionState", JStr "Connected");
               ("family", JStr "MONITOR"); ("type", JStr "VEO");
               ("subType", JStr "WIFI"); ("photoCaller", JBool true);
               ("wirelessSignal", JInt 3)])
  else if String.eqb (get_url request) callregistry_url then ok registry
  else if String.eqb (get_url request) photocall_url then
    ok (JDict [("image", JDict [("data", JStr "aGVsbG8=")])])
  else Done (mkResponse 404 (Done JNull) (Done JNull)).

(** The sample client of above, with these collaborators. *)
Definition net : Net := mkNet Sample.world [].
Definition client_getDeviceInfo : string -> N (option DeviceInfo.t) :=
  getDeviceInfo Sample.isExpired Sample.getBearerAuthHeader Sample.refresh_ok
    Sample.config DeviceInfo_new session_get.
Definition client_getLastPicture : string -> N (option string) :=
  getLastPicture Sample.isExpired Sample.getBearerAuthHeader Sample.refresh_ok
    Sample.config CallLog CallLog_new call_device call_photo call_date b64decode
    py_chars session_get.
Definition client_openDoor : string -> AccessDoor.t -> M bool :=
  openDoor Sample.isExpired Sample.getBearerAuthHeader Sample.refresh_ok
    (Sample.post_status 200) Sample.config getDirectOpenDoorParamsRequest.

(** The call logs made from [registry], and a client without a token. *)
Definition call_logs : list CallLog :=
  [ mkCallLog (PStr "D1") (PStr "ph1") 10; mkCallLog (PStr "d2") (PStr "ph2") 30;
    mkCallLog (PStr "D1") (PStr "ph3") 20; mkCallLog (PStr "D1") PNone 40 ].
Definition net_signed_out : Net :=
  mkNet (set_oAuthTokenStorage None Sample.world) [].

(** A password exchange that answers with the fresh token. *)
Definition createOAuthToken (_ : list Event) (_ _ _ : string) : result OAuthToken :=
  Ret Sample.fresh.

End Home.

(** * Properties *)

Section Properties.

(** Methods of classes that are not part of the sources at hand. *)
Variable shouldAcknowledge : INotification -> bool.
Variable getFcmMessageId : INotification -> pyval.
Variable isExpired : Z -> OAuthToken -> bool.
Variable getBearerAuthHeader : OAuthToken -> dict.

(** The outside world.  Each answer may depend on everything that
    happened before, which the trace records: the OAuth refresh
    exchange, an HTTP POST (the status of the response, or the
    exception the request raised), and the push provider's
    registration call. *)
Variable OAuthService_updateOAuthToken :
  list Event -> string -> OAuthToken -> result OAuthToken.
Variable session_post : list Event -> string -> dict -> dict -> result Z.
Variable AndroidFCM_register :
  list Event -> string -> string -> Z -> string -> string -> string ->
  result Credentials.

Variable self : Config.
Variable resume_after_error : bool.
Variable listener_run_time : option Z.

Local Abbreviation updateOAuthToken :=
  (updateOAuthToken OAuthService_updateOAuthToken).
Local Abbreviation post := (post session_post).
Local Abbreviation __getAuthHeader := (__getAuthHeader self).
Local Abbreviation __getOrRefreshOAuthToken :=
  (__getOrRefreshOAuthToken isExpired OAuthService_updateOAuthToken self).
Local Abbreviation ack_json := (ack_json getFcmMessageId).
Local Abbreviation acknowledgeNotification :=
  (acknowledgeNotification shouldAcknowledge getFcmMessageId isExpired
     getBearerAuthHeader OAuthService_updateOAuthToken session_post self).
Local Abbreviation buildPackageCert := (buildPackageCert self).
Local Abbreviation registerAppToken :=
  (registerAppToken isExpired getBearerAuthHeader
     OAuthService_updateOAuthToken session_post AndroidFCM_register self).
Local Abbreviation on_notification :=
  (on_notification shouldAcknowledge getFcmMessageId isExpired
     getBearerAuthHeader OAuthService_updateOAuthToken session_post self).
Local Abbreviation listen :=
  (listen shouldAcknowledge getFcmMessageId isExpired
     getBearerAuthHeader OAuthService_updateOAuthToken session_post self
     resume_after_error).
Local Abbreviation startNotificationListener :=
  (startNotificationListener isExpired getBearerAuthHeader
     OAuthService_updateOAuthToken session_post AndroidFCM_register self
     listener_run_time).


(** ** Strings *)

Lemma append_String c (s q : string) : String c s +:+ q = String c (s +:+ q).
Proof. reflexivity. Qed.
Lemma append_empty (q : string) : "" +:+ q = q.
Proof. reflexivity. Qed.

Lemma prefix_spec (s x : string) :
  String.prefix s x = true <-> exists q, x = s +:+ q.
Proof.
  revert x. induction s as [|c s IH]; intros x.
  - split; [intros _; by exists x | intros _; by destruct x].
  - destruct x as [|d x]; simpl.
    + split; [done | intros [q Hq]; discriminate].
    + destruct (Ascii.ascii_dec c d) as [->|Hne].
      * rewrite IH. split; intros [q Hq]; exists q;
          rewrite append_String in *; congruence.
      * split; [done | intros [q Hq]; rewrite append_String in Hq; congruence].
Qed.
Lemma str_in_nil (s : string) : str_in s "" = String.prefix s "".
Proof. apply orb_false_r. Qed.
Lemma str_in_String (s : string) d (x : string) :
  str_in s (String d x) = String.prefix s (String d x) || str_in s x.
Proof. reflexivity. Qed.

Lemma append_assoc (s1 s2 s3 : string) :
  (s1 +:+ s2) +:+ s3 = s1 +:+ s2 +:+ s3.
Proof.
  induction s1 as [|c s1 IH]; [done|].
  rewrite !append_String. by rewrite IH.
Qed.

(** [str_in] is occurrence as a contiguous run: [s in x] holds exactly
    when [x] is some [p], then [s], then some [q]. *)
Lemma str_in_spec (s x : string) :
  str_in s x = true <-> exists p q, x = p +:+ s +:+ q.
Proof.
  induction x as [|d x IH].
  - rewrite str_in_nil, prefix_spec. split.
    + intros [q Hq]. by exists "", q.
    + intros [p [q Hq]]. destruct p; [by exists q | discriminate].
  - rewrite str_in_String, orb_true_iff, prefix_spec, IH. split.
    + intros [[q Hq] | [p [q Hq]]].
      * by exists "", q.
      * exists (String d p), q. rewrite append_String. by rewrite Hq.
    + intros [p [q Hq]]. destruct p as [|c p].
      * left. by exists q.
      * right. exists p, q. rewrite append_String in Hq. congruence.
Qed.

Lemma str_in_refl (s : string) : str_in s s = true.
Proof.
  apply str_in_spec. exists "", "". rewrite append_empty.
  induction s as [|c s IH]; [done|]. rewrite append_String. congruence.
Qed.

(** ** The monad *)

Lemma bind_ret_run {A B} (m : M A) (k : A -> M B) w w' a :
  m w = (w', Ret a) -> bind m k w = k a w'.
Proof. unfold bind. by intros ->. Qed.

Lemma bind_raise_run {A B} (m : M A) (k : A -> M B) w w' e :
  m w = (w', Raise e) -> bind m k w = (w', Raise e).
Proof. unfold bind. by intros ->. Qed.

(** ** Decoding *)

(** C4: the discriminator ["Call"] decodes to a [CallNotification],
    ["CallEnd"] to a [CallEndNotification], and every other value of
    the discriminator field makes the decoder raise (the source raises
    [NotImplementedError]) instead of returning a value. *)
Theorem fromNotification_dispatch
    (notification : dict) (notificationId : string) (v : pyval) :
  notification !! "FermaxNotificationType" = Some v ->
  (v = PStr "Call" ->
     NotificationBuilder.fromNotification notification notificationId
     = Ret (CallNotification notification notificationId)) /\
  (v = PStr "CallEnd" ->
     NotificationBuilder.fromNotification notification notificationId
     = Ret (CallEndNotification notification)) /\
  (v <> PStr "Call" -> v <> PStr "CallEnd" ->
     NotificationBuilder.fromNotification notification notificationId
     = Raise NotImplementedError).
Proof.
  intros Hv. unfold NotificationBuilder.fromNotification, dict_getitem, py_eqb.
  rewrite Hv. repeat split.
  - intros ->. reflexivity.
  - intros ->. reflexivity.
  - intros H1 H2. rewrite !bool_decide_eq_false_2 by done. reflexivity.
Qed.

(** Without the discriminator field the decoder raises as well. *)
Lemma fromNotification_missing_field (notification : dict) (notificationId : string) :
  notification !! "FermaxNotificationType" = None ->
  NotificationBuilder.fromNotification notification notificationId
  = Raise (KeyError "FermaxNotificationType").
Proof.
  intros H. unfold NotificationBuilder.fromNotification, dict_getitem.
  by rewrite H.
Qed.

(** The decoder returns nothing but the two variants, each carrying
    the payload it was given. *)
Lemma fromNotification_ret (notification : dict) (notificationId : string) n :
  NotificationBuilder.fromNotification notification notificationId = Ret n ->
  n = CallNotification notification notificationId \/
  n = CallEndNotification notification.
Proof.
  unfold NotificationBuilder.fromNotification.
  destruct (dict_getitem _ _); [|done].
  repeat case_match; naive_solver.
Qed.

(** ** Traces *)

Lemma callbacks_app (tr1 tr2 : list Event) :
  callbacks (tr1 ++ tr2) = (callbacks tr1 ++ callbacks tr2)%list.
Proof. apply omap_app. Qed.

Lemma fcm_registrations_app (tr1 tr2 : list Event) :
  fcm_registrations (tr1 ++ tr2) = (fcm_registrations tr1 + fcm_registrations tr2)%nat.
Proof. unfold fcm_registrations. by rewrite List.filter_app, length_app. Qed.

Lemma refresh_exchanges_app (tr1 tr2 : list Event) :
  refresh_exchanges (tr1 ++ tr2) = (refresh_exchanges tr1 + refresh_exchanges tr2)%nat.
Proof. unfold refresh_exchanges. by rewrite List.filter_app, length_app. Qed.

Lemma posts_to_app (url : string) (tr1 tr2 : list Event) :
  posts_to url (tr1 ++ tr2) = (posts_to url tr1 ++ posts_to url tr2)%list.
Proof. apply omap_app. Qed.

(** ** The token *)

(** What [__getOrRefreshOAuthToken] leaves untouched, whatever its
    outcome: it writes to the token storage only, and its effects are a
    refresh exchange followed, at most, by the store of its answer. *)
Lemma getOrRefreshOAuthToken_frame (w w' : World) r :
  __getOrRefreshOAuthToken w = (w', r) ->
  credentialsStorage w' = credentialsStorage w /\
  persistentIdsStorage w' = persistentIdsStorage w /\
  deviceId w' = deviceId w /\
  listenerThread w' = listenerThread w /\
  clock w' = clock w /\
  exists evs, trace w' = (trace w ++ evs)%list /\
    callbacks evs = [] /\ fcm_registrations evs = 0%nat /\
    forall url, posts_to url evs = [].
Proof.
  unfold __getOrRefreshOAuthToken, Storage.retrieveOAuthToken, updateOAuthToken,
    Storage.storeOAuthToken, bind, gets, modify, lift, ret, raise.
  destruct (oAuthTokenStorage w) as [t|].
  - destruct (isExpired (clock w) t).
    + simpl. destruct (OAuthService_updateOAuthToken _ _ _) as [t'|e];
        intros [= <- <-]; simpl; repeat split; try done.
      * exists [EvUpdateOAuthToken __getAuthHeader t; EvStoreOAuthToken t'].
        by rewrite <- app_assoc.
      * by exists [EvUpdateOAuthToken __getAuthHeader t].
    + intros [= <- <-]. repeat split; try done. exists []. by rewrite app_nil_r.
  - intros [= <- <-]. repeat split; try done. exists []. by rewrite app_nil_r.
Qed.

(** A stored token that is not expired is returned as it is, and
    nothing happens. *)
Lemma getOrRefreshOAuthToken_not_expired (w : World) (t : OAuthToken) :
  oAuthTokenStorage w = Some t ->
  isExpired (clock w) t = false ->
  __getOrRefreshOAuthToken w = (w, Ret t).
Proof.
  intros Hstored Hvalid.
  unfold __getOrRefreshOAuthToken, Storage.retrieveOAuthToken, bind, gets, ret.
  by rewrite Hstored, Hvalid.
Qed.

(** C3: with an expired token in the storage, [__getOrRefreshOAuthToken]
    performs exactly one refresh exchange and ends with the outcome of
    that exchange, whatever it is.  A token the exchange answers with is
    stored and then returned as it is: its expiry is never looked at,
    and the clock has not moved, so it is unexpired at the return
    exactly when the OAuth service handed out an unexpired one.  An
    exception of the exchange is raised, with the expired token still
    in the storage.  With a token that is not expired the call returns
    that token and does nothing else: no refresh, no store. *)
Theorem getOrRefreshOAuthToken_valid (w : World) (t : OAuthToken) :
  oAuthTokenStorage w = Some t ->
  (isExpired (clock w) t = false ->
     __getOrRefreshOAuthToken w = (w, Ret t)) /\
  (isExpired (clock w) t = true ->
   let answer :=
     OAuthService_updateOAuthToken
       (trace w ++ [EvUpdateOAuthToken __getAuthHeader t]) __getAuthHeader t in
   exists w',
     __getOrRefreshOAuthToken w = (w', answer) /\
     clock w' = clock w /\
     refresh_exchanges (trace w') = S (refresh_exchanges (trace w)) /\
     match answer with
     | Ret t' =>
         oAuthTokenStorage w' = Some t' /\
         trace w' = (trace w ++ [EvUpdateOAuthToken __getAuthHeader t;
                                 EvStoreOAuthToken t'])%list
     | Raise e =>
         oAuthTokenStorage w' = Some t /\
         trace w' = (trace w ++ [EvUpdateOAuthToken __getAuthHeader t])%list
     end).
Proof.
  intros Hstored.
  unfold __getOrRefreshOAuthToken, Storage.retrieveOAuthToken, updateOAuthToken,
    Storage.storeOAuthToken, bind, gets, modify, lift, ret.
  rewrite Hstored. split.
  - by intros ->.
  - intros ->. simpl.
    destruct (OAuthService_updateOAuthToken _ _ _) as [t'|e];
      eexists; (split; [reflexivity|]); simpl.
    + rewrite <- app_assoc, refresh_exchanges_app. simpl.
      repeat split; try done. unfold refresh_exchanges. simpl. lia.
    + rewrite refresh_exchanges_app.
      repeat split; try done. unfold refresh_exchanges. simpl. lia.
Qed.

(** A failed refresh exchange ends [__getOrRefreshOAuthToken] with the
    exception of the exchange; the storage keeps the expired token. *)
Lemma getOrRefreshOAuthToken_refresh_fails (w : World) (t : OAuthToken) e :
  oAuthTokenStorage w = Some t ->
  isExpired (clock w) t = true ->
  OAuthService_updateOAuthToken
    (trace w ++ [EvUpdateOAuthToken __getAuthHeader t]) __getAuthHeader t = Raise e ->
  __getOrRefreshOAuthToken w = (log (EvUpdateOAuthToken __getAuthHeader t) w, Raise e).
Proof.
  intros Hstored Hexp Hfail.
  unfold __getOrRefreshOAuthToken, Storage.retrieveOAuthToken, updateOAuthToken,
    bind, gets, modify, lift.
  rewrite Hstored, Hexp. simpl. by rewrite Hfail.
Qed.

(** ** Acknowledgment *)

Lemma post_run (url : string) (json headers : dict) (w : World) :
  post url json headers w =
  (log (EvPost url json headers) w,
   session_post (trace w ++ [EvPost url json headers]) url json headers).
Proof. reflexivity. Qed.

(** What [acknowledgeNotification] leaves untouched, whatever its
    outcome: the notification storage, and the callback. *)
Lemma acknowledgeNotification_frame (n : INotification) (w w' : World) r :
  acknowledgeNotification n w = (w', r) ->
  credentialsStorage w' = credentialsStorage w /\
  persistentIdsStorage w' = persistentIdsStorage w /\
  deviceId w' = deviceId w /\
  exists evs, trace w' = (trace w ++ evs)%list /\
    callbacks evs = [] /\ fcm_registrations evs = 0%nat.
Proof.
  unfold acknowledgeNotification.
  destruct (shouldAcknowledge n).
  - unfold bind at 1.
    destruct (__getOrRefreshOAuthToken w) as [w1 [t|e]] eqn:Htok;
      destruct (getOrRefreshOAuthToken_frame _ _ _ Htok)
        as (Hc & Hp & Hd & _ & _ & evs & Htr & Hcb & Hfcm & _).
    + unfold bind, ret. rewrite post_run.
      destruct (session_post _ _ _ _); intros [= <- <-]; simpl;
        (repeat split; try done);
        exists (evs ++ [EvPost ack_url (ack_json n) (getBearerAuthHeader t)])%list;
        rewrite Htr, callbacks_app, fcm_registrations_app, Hcb, Hfcm, <- app_assoc;
        done.
    + intros [= <- <-]. repeat split; try done. by exists evs.
  - intros [= <- <-]. repeat split; try done. exists []. by rewrite app_nil_r.
Qed.


(** With a valid token at hand, a response to the acknowledgment
    request, whatever its status, makes [acknowledgeNotification] return
    a boolean; a request that raises makes it raise. *)
Lemma acknowledgeNotification_send (n : INotification) (w : World) (t : OAuthToken) :
  shouldAcknowledge n = true ->
  oAuthTokenStorage w = Some t ->
  isExpired (clock w) t = false ->
  acknowledgeNotification n w =
  (log (EvPost ack_url (ack_json n) (getBearerAuthHeader t)) w,
   match session_post (trace w ++ [EvPost ack_url (ack_json n) (getBearerAuthHeader t)])
           ack_url (ack_json n) (getBearerAuthHeader t) with
   | Ret status => Ret (Some (status =? 200))
   | Raise e => Raise e
   end).
Proof.
  intros Hack Hstored Hvalid. unfold acknowledgeNotification. rewrite Hack.
  rewrite (bind_ret_run _ _ _ _ _
             (getOrRefreshOAuthToken_not_expired w t Hstored Hvalid)).
  unfold bind, ret. rewrite post_run. by destruct (session_post _ _ _ _).
Qed.

(** ** The listener callback *)

(** [on_notification] on a message that passes the duplicate test: the
    id is stored, then the payload is decoded, the notification
    acknowledged and the callback invoked, each step only if the one
    before did not raise. *)
Lemma on_notification_new (notification : dict) (dm : DataMessage) (w : World) :
  is_duplicate (persistent_id dm) (persistentIdsStorage w) = false ->
  on_notification notification dm w =
  match NotificationBuilder.fromNotification notification (id dm) with
  | Raise e => (Storage.stored (persistent_id dm) w, Raise e)
  | Ret n =>
      match acknowledgeNotification n (Storage.stored (persistent_id dm) w) with
      | (w2, Ret _) => (log (EvCallback n) w2, Ret tt)
      | (w2, Raise e) => (w2, Raise e)
      end
  end.
Proof.
  intros Hnew.
  unfold on_notification, Storage.retrievePersistentIds, Storage.storePersistentId,
    notificationCallback, bind at 1, gets.
  rewrite Hnew. unfold bind at 1, modify.
  unfold bind at 1, lift.
  destruct (NotificationBuilder.fromNotification _ _) as [n|e]; [|done].
  unfold bind. by destruct (acknowledgeNotification n _) as [w2 [b|e]].
Qed.

Lemma on_notification_duplicate (notification : dict) (dm : DataMessage) (w : World) :
  is_duplicate (persistent_id dm) (persistentIdsStorage w) = true ->
  on_notification notification dm w = (w, Ret tt).
Proof.
  intros Hdup.
  unfold on_notification, Storage.retrievePersistentIds, bind, gets.
  by rewrite Hdup.
Qed.

Lemma is_duplicate_spec (idstr : string) (received : option (list string)) :
  is_duplicate idstr received = true <->
  exists ids x, received = Some ids /\ In x ids /\
                exists p q, x = p +:+ idstr +:+ q.
Proof.
  unfold is_duplicate. destruct received as [ids|].
  - rewrite existsb_exists. split.
    + intros (x & Hx & Hin). exists ids, x. by rewrite <- str_in_spec.
    + intros (ids' & x & [= <-] & Hx & Hin). exists x. by rewrite str_in_spec.
  - split; [done | by intros (ids & x & [=] & _)].
Qed.

(** C7: a message whose persistent id occurs inside some stored id, be
    it as a proper part of a different id, is dropped: [on_notification]
    returns at once and leaves the world as it found it, so the id is
    not stored, no acknowledgment is sent and the callback is not
    invoked. *)
Theorem on_notification_substring_discarded
    (notification : dict) (dm : DataMessage) (w : World)
    (ids : list string) (x p q : string) :
  persistentIdsStorage w = Some ids ->
  In x ids ->
  x = p +:+ persistent_id dm +:+ q ->
  on_notification notification dm w = (w, Ret tt).
Proof.
  intros Hids Hin Hx. apply on_notification_duplicate, is_duplicate_spec.
  exists ids, x. eauto.
Qed.

(** C6, amended: a message whose persistent id occurs in no stored id
    has its id appended to the stored ids before anything else is done
    with it: the store is the first effect of [on_notification], the id
    is still stored when it ends, whether it ends by returning or by an
    exception of the decoder or of the acknowledgment. *)
Theorem on_notification_stores_first
    (notification : dict) (dm : DataMessage) (w w' : World) r :
  is_duplicate (persistent_id dm) (persistentIdsStorage w) = false ->
  on_notification notification dm w = (w', r) ->
  persistentIdsStorage w' =
    Some (default [] (persistentIdsStorage w) ++ [persistent_id dm])%list /\
  exists evs, trace w' = (trace w ++ EvStorePersistentId (persistent_id dm) :: evs)%list.
Proof.
  intros Hnew. rewrite (on_notification_new _ _ _ Hnew).
  destruct (NotificationBuilder.fromNotification _ _) as [n|e].
  - destruct (acknowledgeNotification n _) as [w2 [b|e]] eqn:Hack;
      destruct (acknowledgeNotification_frame _ _ _ _ Hack)
        as (_ & Hp & _ & evs & Htr & _);
      intros [= <- <-]; simpl; rewrite Hp, Htr; simpl; split; try done.
    + exists (evs ++ [EvCallback n])%list. by rewrite <- !app_assoc.
    + exists evs. by rewrite <- !app_assoc.
  - intros [= <- <-]. split; [done|]. by exists [].
Qed.

(** C2, amended: once a new message has been decoded, the callback is
    invoked with the decoded notification whenever the acknowledgment
    send returns, whatever it reports (a response with a status other
    than 200 makes it return [False]); when the acknowledgment send
    raises, [on_notification] ends with that exception and the callback
    is not invoked. *)
Theorem on_notification_after_acknowledge
    (notification : dict) (dm : DataMessage) (n : INotification)
    (w w2 : World) (r : result (option bool)) :
  is_duplicate (persistent_id dm) (persistentIdsStorage w) = false ->
  NotificationBuilder.fromNotification notification (id dm) = Ret n ->
  acknowledgeNotification n (Storage.stored (persistent_id dm) w) = (w2, r) ->
  match r with
  | Ret _ =>
      on_notification notification dm w = (log (EvCallback n) w2, Ret tt) /\
      callbacks (trace (log (EvCallback n) w2)) = (callbacks (trace w) ++ [n])%list
  | Raise e =>
      on_notification notification dm w = (w2, Raise e) /\
      callbacks (trace w2) = callbacks (trace w)
  end.
Proof.
  intros Hnew Hdec Hack. rewrite (on_notification_new _ _ _ Hnew), Hdec, Hack.
  destruct (acknowledgeNotification_frame _ _ _ _ Hack)
    as (_ & _ & _ & evs & Htr & Hcb & _).
  simpl in Htr.
  destruct r as [b|e]; (split; [done|]); simpl; rewrite Htr;
    rewrite !callbacks_app, Hcb; simpl; by rewrite ?app_nil_r.
Qed.

(** A new message that [on_notification] processes to its end was
    decoded, the callback was invoked with the decoded notification and
    with nothing else, and the id is stored. *)
Lemma on_notification_new_ret (notification : dict) (dm : DataMessage) (w w' : World) :
  is_duplicate (persistent_id dm) (persistentIdsStorage w) = false ->
  on_notification notification dm w = (w', Ret tt) ->
  exists n,
    NotificationBuilder.fromNotification notification (id dm) = Ret n /\
    callbacks (trace w') = (callbacks (trace w) ++ [n])%list /\
    persistentIdsStorage w' =
      Some (default [] (persistentIdsStorage w) ++ [persistent_id dm])%list.
Proof.
  intros Hnew. rewrite (on_notification_new _ _ _ Hnew).
  destruct (NotificationBuilder.fromNotification _ _) as [n|e]; [|done].
  destruct (acknowledgeNotification n _) as [w2 [b|e]] eqn:Hack; [|done].
  destruct (acknowledgeNotification_frame _ _ _ _ Hack)
    as (_ & Hp & _ & evs & Htr & Hcb & _).
  intros [= <-]. exists n. simpl in *. rewrite Hp, Htr.
  rewrite !callbacks_app, Hcb. simpl. by rewrite !app_nil_r.
Qed.

Lemma is_duplicate_snoc (idstr x : string) (received : option (list string)) :
  is_duplicate idstr (Some (default [] received ++ [x])%list) =
  is_duplicate idstr received || str_in idstr x.
Proof.
  unfold is_duplicate. rewrite existsb_app. simpl. rewrite orb_false_r.
  by destruct received.
Qed.

(** C1, amended: four messages with the persistent ids [a, a, b, a],
    where neither [a] nor [b] occurs in an id stored beforehand and [b]
    does not occur in [a].  If the first message and the third are
    processed to their end (each decodes, and its acknowledgment does
    not raise), the listener gets through all four, and the callback is
    invoked exactly twice: with the decoded first message, then with the
    decoded third. *)
Theorem listen_a_a_b_a
    (m1 m2 m3 m4 : dict * DataMessage) (a b : string) (w0 w1 w3 : World) :
  persistent_id m1.2 = a -> persistent_id m2.2 = a ->
  persistent_id m3.2 = b -> persistent_id m4.2 = a ->
  is_duplicate a (persistentIdsStorage w0) = false ->
  is_duplicate b (persistentIdsStorage w0) = false ->
  str_in b a = false ->
  on_notification m1.1 m1.2 w0 = (w1, Ret tt) ->
  on_notification m3.1 m3.2 w1 = (w3, Ret tt) ->
  listen [m1; m2; m3; m4] w0 = (w3, Ret tt) /\
  exists n1 n3,
    NotificationBuilder.fromNotification m1.1 (id m1.2) = Ret n1 /\
    NotificationBuilder.fromNotification m3.1 (id m3.2) = Ret n3 /\
    callbacks (trace w3) = (callbacks (trace w0) ++ [n1; n3])%list.
Proof.
  destruct m1 as [p1 d1], m2 as [p2 d2], m3 as [p3 d3], m4 as [p4 d4]. simpl.
  intros Ha1 Ha2 Hb3 Ha4 Hnew_a Hnew_b Hba H1 H3.
  rewrite <- Ha1 in Hnew_a.
  destruct (on_notification_new_ret _ _ _ _ Hnew_a H1) as (n1 & Hd1 & Hcb1 & Hids1).
  rewrite Ha1 in Hids1.
  assert (Hdup_a1 : is_duplicate a (persistentIdsStorage w1) = true).
  { rewrite Hids1, is_duplicate_snoc, str_in_refl. apply orb_true_r. }
  assert (Hnew_b1 : is_duplicate (persistent_id d3) (persistentIdsStorage w1) = false).
  { by rewrite Hb3, Hids1, is_duplicate_snoc, Hnew_b, Hba. }
  destruct (on_notification_new_ret _ _ _ _ Hnew_b1 H3) as (n3 & Hd3 & Hcb3 & Hids3).
  assert (Hdup_a3 : is_duplicate a (persistentIdsStorage w3) = true).
  { rewrite Hids3, is_duplicate_snoc, Hdup_a1. done. }
  split.
  - simpl. rewrite H1.
    rewrite on_notification_duplicate by by rewrite Ha2.
    rewrite H3.
    rewrite on_notification_duplicate by by rewrite Ha4.
    reflexivity.
  - exists n1, n3. repeat split; try done.
    by rewrite Hcb3, Hcb1, <- app_assoc.
Qed.

(** *** At most once per id *)

(** One message either changes nothing, or adds its id to the stored
    ids and invokes the callback at most once. *)
Lemma on_notification_step (notification : dict) (dm : DataMessage) (w w' : World) r :
  on_notification notification dm w = (w', r) ->
  (is_duplicate (persistent_id dm) (persistentIdsStorage w) = true /\ w' = w) \/
  (is_duplicate (persistent_id dm) (persistentIdsStorage w) = false /\
   persistentIdsStorage w' =
     Some (default [] (persistentIdsStorage w) ++ [persistent_id dm])%list /\
   exists cbs, callbacks (trace w') = (callbacks (trace w) ++ cbs)%list /\
               (length cbs <= 1)%nat).
Proof.
  destruct (is_duplicate (persistent_id dm) (persistentIdsStorage w)) eqn:Hdup.
  - rewrite (on_notification_duplicate _ _ _ Hdup). intros [= <- <-]. by left.
  - rewrite (on_notification_new _ _ _ Hdup).
    destruct (NotificationBuilder.fromNotification _ _) as [n|e].
    + destruct (acknowledgeNotification n _) as [w2 [b|e]] eqn:Hack;
        destruct (acknowledgeNotification_frame _ _ _ _ Hack)
          as (_ & Hp & _ & evs & Htr & Hcb & _);
        intros [= <- <-]; right; simpl in *; rewrite Hp, Htr;
        (split; [done|]); (split; [done|]).
      * exists [n]. rewrite !callbacks_app, Hcb. simpl.
        by rewrite !app_nil_r.
      * exists []. rewrite !callbacks_app, Hcb. simpl.
        split; [by rewrite !app_nil_r | lia].
    + intros [= <- <-]. right. simpl. split; [done|]. split; [done|].
      exists []. rewrite callbacks_app. simpl. split; [done | lia].
Qed.

Lemma not_duplicate_not_stored (idstr : string) (received : option (list string)) :
  is_duplicate idstr received = false -> ~ In idstr (default [] received).
Proof.
  intros Hnew Hin. destruct received as [ids|]; [|done]. simpl in *.
  assert (existsb (fun x => str_in idstr x) ids = true); [|congruence].
  apply existsb_exists. exists idstr. split; [done | apply str_in_refl].
Qed.

(** Whatever the listener is handed, and whether or not it goes on
    after an exception: the ids it adds to the stored ids are pairwise
    distinct and were not stored before, and the callback is invoked at
    most once per added id. *)
Lemma listen_at_most_once (inbound : list (dict * DataMessage)) (w w' : World) r :
  listen inbound w = (w', r) ->
  exists added cbs,
    default [] (persistentIdsStorage w') =
      (default [] (persistentIdsStorage w) ++ added)%list /\
    NoDup added /\
    (forall x, x ∈ added -> x ∉ default [] (persistentIdsStorage w)) /\
    callbacks (trace w') = (callbacks (trace w) ++ cbs)%list /\
    (length cbs <= length added)%nat.
Proof.
  revert w. induction inbound as [|[notification dm] rest IH]; intros w; simpl.
  - intros [= <- <-]. exists [], []. rewrite !app_nil_r.
    split; [done|]. split; [constructor|]. split; [|done].
    by intros x ?%elem_of_nil.
  - destruct (on_notification notification dm w) as [w1 r1] eqn:Hstep.
    intros Hrun.
    assert (Htail : exists added cbs,
      default [] (persistentIdsStorage w') =
        (default [] (persistentIdsStorage w1) ++ added)%list /\
      NoDup added /\
      (forall x, x ∈ added -> x ∉ default [] (persistentIdsStorage w1)) /\
      callbacks (trace w') = (callbacks (trace w1) ++ cbs)%list /\
      (length cbs <= length added)%nat).
    { assert (Hstop : (w1, r1) = (w', r) -> exists added cbs,
        default [] (persistentIdsStorage w') =
          (default [] (persistentIdsStorage w1) ++ added)%list /\
        NoDup added /\
        (forall x, x ∈ added -> x ∉ default [] (persistentIdsStorage w1)) /\
        callbacks (trace w') = (callbacks (trace w1) ++ cbs)%list /\
        (length cbs <= length added)%nat).
      { intros [= <- <-]. exists [], []. rewrite !app_nil_r.
        split; [done|]. split; [constructor|]. split; [|done].
        by intros x ?%elem_of_nil. }
      destruct r1 as [[]|e]; [by apply IH|].
      destruct resume_after_error; [by apply IH | by apply Hstop]. }
    destruct Htail as (added & cbs & Hids & Hnd & Hfresh & Hcb & Hlen).
    destruct (on_notification_step _ _ _ _ _ Hstep)
      as [[Hdup ->] | (Hnew & Hids1 & cbs1 & Hcb1 & Hlen1)].
    + by exists added, cbs.
    + rewrite Hids1 in Hids, Hfresh. simpl in Hids, Hfresh.
      exists (persistent_id dm :: added), (cbs1 ++ cbs)%list.
      split; [by rewrite Hids, <- app_assoc|].
      split.
      { constructor; [|done]. intros Hin. apply (Hfresh _ Hin).
        apply elem_of_app. right. by left. }
      split.
      { intros x [->|Hin]%elem_of_cons.
        - rewrite list_elem_of_In. by apply not_duplicate_not_stored.
        - intros Hx. apply (Hfresh _ Hin). apply elem_of_app. by left. }
      split; [by rewrite Hcb, Hcb1, <- app_assoc|].
      rewrite length_app. simpl. lia.
Qed.

(** ** Registration *)

Lemma posts_to_single (url : string) (json headers : dict) :
  posts_to url [EvPost url json headers] = [json].
Proof. unfold posts_to. simpl. by rewrite String.eqb_refl. Qed.

(** The second half of [registerAppToken]: the app-token request for
    the device token the client holds.  It touches neither the
    notification storage nor the device token, never calls the push
    provider, and every app-token request it sends carries that
    token. *)
Lemma apptoken_request_frame (active : bool) (w w' : World) (r : result bool) :
  bind (gets deviceId) (fun d =>
    bind __getOrRefreshOAuthToken (fun oAuthToken =>
      bind (post apptoken_url (apptoken_json d active)
                 (getBearerAuthHeader oAuthToken))
           (fun status => ret (status =? 200)))) w = (w', r) ->
  credentialsStorage w' = credentialsStorage w /\
  deviceId w' = deviceId w /\
  exists evs, trace w' = (trace w ++ evs)%list /\
    fcm_registrations evs = 0%nat /\
    Forall (fun json => json = apptoken_json (deviceId w) active)
           (posts_to apptoken_url evs).
Proof.
  unfold bind at 1, gets. unfold bind at 1.
  destruct (__getOrRefreshOAuthToken w) as [w1 [t|e]] eqn:Htok;
    destruct (getOrRefreshOAuthToken_frame _ _ _ Htok)
      as (Hc & _ & Hd & _ & _ & evs & Htr & _ & Hfcm & Hposts).
  - unfold bind, ret. rewrite post_run.
    destruct (session_post _ _ _ _); intros [= <- <-]; simpl;
      (repeat split; try done);
      exists (evs ++ [EvPost apptoken_url (apptoken_json (deviceId w) active)
                        (getBearerAuthHeader t)])%list;
      rewrite Htr, fcm_registrations_app, posts_to_app, Hfcm, Hposts,
        posts_to_single, <- app_assoc;
      repeat split; try done; by constructor.
  - intros [= <- <-]. repeat split; try done.
    exists evs. rewrite Hposts. by repeat split.
Qed.

(** [registerAppToken] with credentials in the storage: whatever its
    outcome, the credentials stay, the push provider is not called, the
    device token afterwards is the one held before or, if none was held,
    the one of the stored credentials, and every app-token request sent
    carries the device token held afterwards. *)
Lemma registerAppToken_cached (active : bool) (c : Credentials)
    (w w' : World) (r : result bool) :
  credentialsStorage w = Some c ->
  registerAppToken active w = (w', r) ->
  credentialsStorage w' = Some c /\
  (if py_eqb (deviceId w) PNone
   then match fcm_token c with
        | Ret token => deviceId w' = token
        | Raise e => r = Raise e /\ deviceId w' = deviceId w
        end
   else deviceId w' = deviceId w) /\
  exists evs, trace w' = (trace w ++ evs)%list /\
    fcm_registrations evs = 0%nat /\
    Forall (fun json => json = apptoken_json (deviceId w') active)
           (posts_to apptoken_url evs).
Proof.
  intros Hc. unfold registerAppToken.
  unfold bind at 1, gets.
  destruct (py_eqb (deviceId w) PNone) eqn:Hnone.
  - unfold bind at 1. unfold bind at 1. unfold bind at 1.
    unfold Storage.retrieveCredentials, gets. rewrite Hc.
    unfold ret at 1. unfold bind at 1, lift.
    destruct (fcm_token c) as [token|e] eqn:Htoken.
    + unfold modify. intros Hrest.
      destruct (apptoken_request_frame _ _ _ _ Hrest) as (Hc' & Hd' & evs & Htr & Hev).
      simpl in *. rewrite Hc', Hd'. repeat split; try done.
      by exists evs.
    + intros [= <- <-]. repeat split; try done.
      exists []. rewrite app_nil_r. by repeat split.
  - unfold bind at 1, ret at 1. intros Hrest.
    destruct (apptoken_request_frame _ _ _ _ Hrest) as (Hc' & Hd' & evs & Htr & Hev).
    rewrite Hc', Hd'. repeat split; try done. by exists evs.
Qed.

(** C5: with credentials in the notification storage,
    [registerAppToken] does not call the push provider, and neither does
    a second call with the same argument: the number of provider
    registrations stays what it was and the stored credentials stay in
    place.  A client that holds no device token yet takes the token of
    the stored credentials, and every app-token request of the two calls
    carries it. *)
Theorem registerAppToken_idempotent
    (active : bool) (c : Credentials) (w w1 w2 : World) (r1 r2 : result bool) :
  credentialsStorage w = Some c ->
  registerAppToken active w = (w1, r1) ->
  registerAppToken active w1 = (w2, r2) ->
  fcm_registrations (trace w1) = fcm_registrations (trace w) /\
  fcm_registrations (trace w2) = fcm_registrations (trace w) /\
  credentialsStorage w1 = Some c /\
  credentialsStorage w2 = Some c /\
  (deviceId w = PNone ->
   forall token, fcm_token c = Ret token ->
     deviceId w1 = token /\ deviceId w2 = token /\
     exists evs, trace w2 = (trace w ++ evs)%list /\
       Forall (fun json => json = apptoken_json token active)
              (posts_to apptoken_url evs)).
Proof.
  intros Hc H1 H2.
  destruct (registerAppToken_cached _ _ _ _ _ Hc H1)
    as (Hc1 & Hd1 & evs1 & Htr1 & Hfcm1 & Hposts1).
  destruct (registerAppToken_cached _ _ _ _ _ Hc1 H2)
    as (Hc2 & Hd2 & evs2 & Htr2 & Hfcm2 & Hposts2).
  assert (Hn1 : fcm_registrations (trace w1) = fcm_registrations (trace w)).
  { rewrite Htr1, fcm_registrations_app, Hfcm1. lia. }
  split; [done|]. split; [rewrite Htr2, fcm_registrations_app, Hfcm2, Hn1; lia|].
  split; [done|]. split; [done|].
  intros Hnone token Htoken.
  rewrite Hnone, Htoken in Hd1. simpl in Hd1.
  assert (Hd2' : deviceId w2 = token).
  { destruct (py_eqb (deviceId w1) PNone); [by rewrite Htoken in Hd2 | congruence]. }
  split; [done|]. split; [done|].
  exists (evs1 ++ evs2)%list. split.
  - by rewrite Htr2, Htr1, <- app_assoc.
  - rewrite posts_to_app, Forall_app. rewrite Hd1 in Hposts1.
    by rewrite Hd2' in Hposts2.
Qed.

(** Without stored credentials and without a device token, the first
    thing [registerAppToken] does is to call the push provider, with the
    package certificate of [buildPackageCert]. *)
Lemma registerAppToken_registers (active : bool) (w w' : World) (r : result bool) :
  credentialsStorage w = None ->
  deviceId w = PNone ->
  registerAppToken active w = (w', r) ->
  exists evs,
    trace w' = (trace w ++
                EvFCMRegister (apiKey self) (projectId self) (senderId self)
                  (appId self) (packageName self) buildPackageCert :: evs)%list.
Proof.
  intros Hc Hd. unfold registerAppToken.
  unfold bind at 1, gets. rewrite Hd. simpl.
  unfold bind at 1. unfold bind at 1. unfold bind at 1.
  unfold Storage.retrieveCredentials, gets. rewrite Hc.
  unfold bind at 1. unfold register, bind at 1, modify.
  unfold bind at 1, gets, lift. simpl.
  destruct (AndroidFCM_register _ _ _ _ _ _ _) as [c|e].
  - unfold Storage.storeCredentials, bind at 1, modify. unfold ret at 1.
    unfold bind at 1, lift.
    destruct (fcm_token c) as [token|e].
    + unfold modify. intros Hrest.
      destruct (apptoken_request_frame _ _ _ _ Hrest) as (_ & _ & evs & Htr & _).
      simpl in Htr. exists (EvStoreCredentials c :: evs).
      rewrite Htr. by rewrite <- !app_assoc.
    + intros [= <- <-]. exists [EvStoreCredentials c]. simpl.
      by rewrite <- !app_assoc.
  - intros [= <- <-]. by exists [].
Qed.

(** ** Stopping the listener *)

(** C9: once the listener thread exists, [stopNotificationListener]
    waits for it and then returns, without an exception, whether the
    thread is still alive.  The wait ends at the instant the thread
    terminates, at once when it has terminated already, and after 10
    seconds ([10000] on the millisecond clock) at the latest.  The
    value returned is the state of the thread at the return: [false]
    exactly when the thread has terminated by then, which is exactly
    when it terminated within the 10 seconds; [true] otherwise, in
    which case the full 10 seconds were spent waiting.  Nothing but
    the clock changes. *)
Theorem stopNotificationListener_reports (w : World) (t : Thread) :
  listenerThread w = Some t ->
  exists (w' : World) (alive : bool),
    stopNotificationListener w = (w', Ret alive) /\
    clock w <= clock w' <= clock w + 10000 /\
    (forall e, terminates_at t = Some e ->
       clock w' = Z.max (clock w) (Z.min e (clock w + 10000))) /\
    (alive = false <->
       exists e, terminates_at t = Some e /\ e <= clock w') /\
    (alive = false <->
       exists e, terminates_at t = Some e /\ e <= clock w + 10000) /\
    (alive = true -> clock w' = clock w + 10000) /\
    trace w' = trace w /\
    w' = set_clock (clock w') w.
Proof.
  intros Ht. unfold stopNotificationListener, bind, gets, join, is_alive, modify, ret.
  rewrite Ht. simpl. eexists _, _. split; [reflexivity|]. simpl.
  destruct (terminates_at t) as [e|].
  - split; [lia|]. split; [by intros e' [= <-]|].
    split; [split|split; [split|]]; [| | | |split; [|done]].
    + intros H. exists e. split; [done|]. apply Z.ltb_ge in H. lia.
    + intros (e' & [= <-] & He). apply Z.ltb_ge. lia.
    + intros H. exists e. split; [done|]. apply Z.ltb_ge in H. lia.
    + intros (e' & [= <-] & He). apply Z.ltb_ge. lia.
    + intros H. apply Z.ltb_lt in H. lia.
  - split; [lia|]. split; [done|].
    split; [split|split; [split|]]; try done;
      by intros (e & [=] & _).
Qed.

(** [startNotificationListener] that returns leaves a listener thread
    behind, which terminates after the run time of its target. *)
Lemma startNotificationListener_thread (w w' : World) :
  startNotificationListener w = (w', Ret tt) ->
  listenerThread w' =
    Some (mkThread (option_map (fun d => clock w' + d) listener_run_time)).
Proof.
  unfold startNotificationListener.
  unfold bind at 1, Storage.retrieveCredentials, gets.
  unfold bind at 1.
  destruct (credentialsStorage w).
  - unfold ret at 1. unfold bind, gets, modify. by intros [= <-].
  - unfold bind at 1.
    destruct (registerAppToken true w) as [w1 [b|e]]; [|done].
    unfold ret at 1. unfold bind, gets, modify. by intros [= <-].
Qed.

End Properties.

(** ** The package certificate *)

(** C8: the package certificate is the hexadecimal SHA-512 digest of
    the sender id (in decimal), the app id, the API key, the project id
    and the package name, fed in this order; two clients that agree on
    these five fields have the same certificate, whatever else they
    differ in. *)
Theorem buildPackageCert_digest (self other : Config) :
  buildPackageCert self =
    SHA512.hexdigest
      (py_str_int (senderId self) +:+ appId self +:+ apiKey self +:+
       projectId self +:+ packageName self) /\
  (senderId self = senderId other ->
   appId self = appId other ->
   apiKey self = apiKey other ->
   projectId self = projectId other ->
   packageName self = packageName other ->
   buildPackageCert self = buildPackageCert other).
Proof.
  assert (Hcert : forall c : Config,
    buildPackageCert c =
      SHA512.hexdigest
        (py_str_int (senderId c) +:+ appId c +:+ apiKey c +:+
         projectId c +:+ packageName c)).
  { intros c. unfold buildPackageCert, Hashlib.hexdigest, Hashlib.update,
      Hashlib.sha512. simpl. by rewrite append_empty, !append_assoc. }
  split; [apply Hcert|].
  intros Hs Ha Hk Hp Hn. by rewrite !Hcert, Hs, Ha, Hk, Hp, Hn.
Qed.

(** The order matters: swapping the app id and the API key gives
    another certificate. *)
Example buildPackageCert_order :
  buildPackageCert (mkConfig "client" "secret" 1234 "key" "project" "app" "com.example")
  <> buildPackageCert (mkConfig "client" "secret" 1234 "app" "project" "key" "com.example").
Proof. vm_compute. discriminate. Qed.

(** * The code on concrete inputs *)

Example sha512_abc :
  SHA512.hexdigest "abc" =
  "ddaf35a193617abacc417349ae20413112e6fa4e89a97ea20a9eeee64b55d39a" +:+
  "2192992a274fc1a836ba3c23a3feebbd454d4423643ce80e2a9ac94fa54ca49f".
Proof. vm_compute. reflexivity. Qed.

Example sha512_empty :
  SHA512.hexdigest "" =
  "cf83e1357eefb8bdf1542850d66d8007d620e4050b5715dc83f4a921d36ce9ce" +:+
  "47d0d13c5d85f2b0ff8318d2877eec2f63b931bd47417a81a538327af927da3e".
Proof. vm_compute. reflexivity. Qed.

(** A message of 112 bytes, which takes two blocks. *)
Example sha512_two_blocks :
  SHA512.hexdigest
    ("abcdefghbcdefghicdefghijdefghijkefghijklfghijklmghijklmn" +:+
     "hijklmnoijklmnopjklmnopqklmnopqrlmnopqrsmnopqrstnopqrstu") =
  "8e959b75dae313da8cf4f72814fc143f8f7779c6eb9f7fa17299aeadb6889018" +:+
  "501d289e4900f7e4331b99dec4b5433ac7d329eeb6dd26545e96e55b874be909".
Proof. vm_compute. reflexivity. Qed.

Example buildPackageCert_sample :
  buildPackageCert Sample.config =
  "988ef2e4a1c62eb6eb0c33d0d2e68dd5376343901ce1347d1739b172677cec37" +:+
  "759090c439333ef209431e3d07e91b348f53543009715999652068e481d8a7ef".
Proof. vm_compute. reflexivity. Qed.

Example getAuthHeader_sample :
  __getAuthHeader Sample.config = "Y2xpZW50OnNlY3JldA==".
Proof. vm_compute. reflexivity. Qed.

Example b64encode_padding :
  Base64.b64encode "a" = "YQ==" /\ Base64.b64encode "ab?>" = "YWI/Pg==".
Proof. split; vm_compute; reflexivity. Qed.

Example str_in_inner : str_in "ab" "xabc" = true.
Proof. reflexivity. Qed.
Example str_in_longer : str_in "abc" "ab" = false.
Proof. reflexivity. Qed.
Example str_in_empty : str_in "" "" = true.
Proof. reflexivity. Qed.
Example py_str_int_neg : py_str_int (-504) = "-504".
Proof. reflexivity. Qed.
Example py_str_int_zero : py_str_int 0 = "0".
Proof. reflexivity. Qed.

Example fromNotification_missing :
  NotificationBuilder.fromNotification ∅ "m1"
  = Raise (KeyError "FermaxNotificationType").
Proof. reflexivity. Qed.

(** A discriminator that is not a string at all is none of the two
    known ones. *)
Example fromNotification_not_a_string :
  NotificationBuilder.fromNotification {[ "FermaxNotificationType" := PInt 1 ]} "m1"
  = Raise NotImplementedError.
Proof. reflexivity. Qed.

(** ** Decoding, on the sample payloads *)

Lemma fromNotification_dispatch_witness :
  NotificationBuilder.fromNotification (Sample.call "d1") "m1"
    = Ret (CallNotification (Sample.call "d1") "m1") /\
  NotificationBuilder.fromNotification (Sample.call_end "d1") "m2"
    = Ret (CallEndNotification (Sample.call_end "d1")) /\
  NotificationBuilder.fromNotification (Sample.other "d1") "m3"
    = Raise NotImplementedError.
Proof.
  split; [|split].
  - apply (fromNotification_dispatch (Sample.call "d1") "m1" (PStr "Call"));
      reflexivity.
  - apply (fromNotification_dispatch (Sample.call_end "d1") "m2" (PStr "CallEnd"));
      reflexivity.
  - apply (fromNotification_dispatch (Sample.other "d1") "m3" (PStr "Info"));
      [reflexivity | discriminate | discriminate].
Defined.

(** ** The token, on the sample client *)

Lemma getOrRefreshOAuthToken_valid_witness :
  Sample.client_getOrRefreshOAuthToken Sample.refresh_ok Sample.world
    = (Sample.world, Ret Sample.fresh) /\
  exists w',
    Sample.client_getOrRefreshOAuthToken Sample.refresh_ok Sample.world_stale
      = (w', Ret Sample.fresh) /\
    clock w' = clock Sample.world_stale /\
    refresh_exchanges (trace w') = 1%nat /\
    oAuthTokenStorage w' = Some Sample.fresh /\
    trace w' =
      [EvUpdateOAuthToken (__getAuthHeader Sample.config) Sample.stale;
       EvStoreOAuthToken Sample.fresh].
Proof.
  split.
  - apply (getOrRefreshOAuthToken_valid Sample.isExpired Sample.refresh_ok
             Sample.config Sample.world Sample.fresh); reflexivity.
  - apply (getOrRefreshOAuthToken_valid Sample.isExpired Sample.refresh_ok
             Sample.config Sample.world_stale Sample.stale); reflexivity.
Defined.

(** C3 as stated fails: the token the OAuth service answers a refresh
    with is returned unchecked.  With a service that answers with a
    token whose expiry (60) is in the past at the time of the call
    (100), the call makes its one refresh exchange, stores the answer
    and returns it: a token that is expired at the return. *)
Lemma getOrRefreshOAuthToken_valid_counterexample :
  let run := Sample.client_getOrRefreshOAuthToken Sample.refresh_late
               Sample.world_stale in
  oAuthTokenStorage Sample.world_stale = Some Sample.stale /\
  Sample.isExpired (clock Sample.world_stale) Sample.stale = true /\
  run.2 = Ret Sample.late /\
  Sample.isExpired (clock run.1) Sample.late = true /\
  refresh_exchanges (trace run.1) = 1%nat /\
  oAuthTokenStorage run.1 = Some Sample.late.
Proof. repeat split; reflexivity. Qed.

(** With an OAuth service that fails, nothing is returned and the
    expired token stays in the storage. *)
Example getOrRefreshOAuthToken_refresh_fails_sample :
  let run := Sample.client_getOrRefreshOAuthToken Sample.refresh_fails
               Sample.world_stale in
  run.2 = Raise (ExternalError "authentication") /\
  oAuthTokenStorage run.1 = Some Sample.stale.
Proof. split; reflexivity. Qed.

(** ** Acknowledgment, on the sample client *)


(** The answer 500 makes the acknowledgment return [False]. *)
Example acknowledgeNotification_500 :
  (Sample.client_acknowledgeNotification (Sample.post_status 500)
     (CallNotification (Sample.call "d1") "m1") Sample.world).2
  = Ret (Some false).
Proof. reflexivity. Qed.

(** ** The listener callback, on the sample client *)

(** The id ["ab"] was never stored, but it occurs in the stored
    ["abc"]: the message is dropped. *)
Lemma on_notification_substring_discarded_witness :
  Sample.client_on_notification (Sample.post_status 200)
    (Sample.call "d1") (mkDataMessage "ab" "m2") (Sample.world_seen ["abc"])
  = (Sample.world_seen ["abc"], Ret tt).
Proof.
  apply (on_notification_substring_discarded Sample.shouldAcknowledge
           Sample.getFcmMessageId Sample.isExpired Sample.getBearerAuthHeader
           Sample.refresh_ok (Sample.post_status 200) Sample.config
           (Sample.call "d1") (mkDataMessage "ab" "m2") (Sample.world_seen ["abc"])
           ["abc"] "abc" "" "c").
  - reflexivity.
  - left. reflexivity.
  - reflexivity.
Defined.

(** C6 as stated fails: ["ab"] is not among the stored ids, and yet
    [on_notification] does not store it. *)
Lemma on_notification_stores_first_counterexample :
  let w := Sample.world_seen ["abc"] in
  let run := Sample.client_on_notification (Sample.post_status 200)
               (Sample.call "d1") (mkDataMessage "ab" "m2") w in
  ~ In "ab" ["abc"] /\
  persistentIdsStorage run.1 = Some ["abc"] /\
  trace run.1 = trace w.
Proof.
  repeat split; try reflexivity.
  intros [H|[]]. discriminate.
Qed.

Lemma on_notification_stores_first_witness :
  let w := Sample.world_seen ["abc"] in
  let run := Sample.client_on_notification Sample.post_raises
               (Sample.call "d1") (mkDataMessage "abd" "m2") w in
  persistentIdsStorage run.1 = Some ["abc"; "abd"] /\
  exists evs, trace run.1 = (trace w ++ EvStorePersistentId "abd" :: evs)%list.
Proof.
  intros w run.
  apply (on_notification_stores_first Sample.shouldAcknowledge
           Sample.getFcmMessageId Sample.isExpired Sample.getBearerAuthHeader
           Sample.refresh_ok Sample.post_raises Sample.config
           (Sample.call "d1") (mkDataMessage "abd" "m2") w run.1 run.2).
  - reflexivity.
  - apply surjective_pairing.
Defined.

(** C2 as stated fails: when the acknowledgment request raises a
    transport error, [on_notification] ends with that error and the
    callback is never invoked with the decoded notification. *)
Lemma on_notification_after_acknowledge_counterexample :
  let run := Sample.client_on_notification Sample.post_raises
               (Sample.call "d1") (mkDataMessage "a1" "m1") Sample.world in
  NotificationBuilder.fromNotification (Sample.call "d1") "m1"
    = Ret (CallNotification (Sample.call "d1") "m1") /\
  Sample.shouldAcknowledge (CallNotification (Sample.call "d1") "m1") = true /\
  run.2 = Raise (ExternalError "transport") /\
  callbacks (trace run.1) = [].
Proof. repeat split; reflexivity. Qed.

(** The answer 500 to the acknowledgment request does not keep the
    notification from the callback. *)
Lemma on_notification_after_acknowledge_witness :
  let n := CallNotification (Sample.call "d1") "m1" in
  let ack := Sample.client_acknowledgeNotification (Sample.post_status 500) n
               (Storage.stored "a1" Sample.world) in
  ack.2 = Ret (Some false) /\
  Sample.client_on_notification (Sample.post_status 500)
    (Sample.call "d1") (mkDataMessage "a1" "m1") Sample.world
  = (log (EvCallback n) ack.1, Ret tt) /\
  callbacks (trace (log (EvCallback n) ack.1)) = [n].
Proof.
  split; [reflexivity|].
  apply (on_notification_after_acknowledge Sample.shouldAcknowledge
           Sample.getFcmMessageId Sample.isExpired Sample.getBearerAuthHeader
           Sample.refresh_ok (Sample.post_status 500) Sample.config
           (Sample.call "d1") (mkDataMessage "a1" "m1")
           (CallNotification (Sample.call "d1") "m1") Sample.world _
           (Ret (Some false))); reflexivity.
Defined.

(** ** The ids [a, a, b, a], on the sample client *)

(** C1 as stated fails, in three ways.  With the ids ["abc"] and
    ["ab"], all four messages well-formed calls and every
    acknowledgment answered with 200, the callback is invoked once: the
    id ["ab"] occurs in the stored ["abc"].  With the ids ["a1"] and
    ["b2"] and a third message of an unknown type, the callback is
    invoked once: the decoder raises.  With a connection on which the
    acknowledgment request raises, the callback is not invoked at all.
    None of this depends on whether the receiver goes on after an
    exception of the callback. *)
Lemma listen_a_a_b_a_counterexample :
  map (fun m => persistent_id m.2) Sample.inbound_substring
    = ["abc"; "abc"; "ab"; "abc"] /\
  map (fun m => persistent_id m.2) Sample.inbound_unknown_type
    = ["a1"; "a1"; "b2"; "a1"] /\
  map (fun m => persistent_id m.2) Sample.inbound_calls
    = ["a1"; "a1"; "b2"; "a1"] /\
  "abc" <> "ab" /\ "a1" <> "b2" /\
  Sample.deliveries false (Sample.post_status 200) Sample.inbound_substring
    = [ CallNotification (Sample.call "d1") "m1" ] /\
  Sample.deliveries true (Sample.post_status 200) Sample.inbound_substring
    = [ CallNotification (Sample.call "d1") "m1" ] /\
  Sample.deliveries false (Sample.post_status 200) Sample.inbound_unknown_type
    = [ CallNotification (Sample.call "d1") "m1" ] /\
  Sample.deliveries true (Sample.post_status 200) Sample.inbound_unknown_type
    = [ CallNotification (Sample.call "d1") "m1" ] /\
  Sample.deliveries false Sample.post_raises Sample.inbound_calls = [] /\
  Sample.deliveries true Sample.post_raises Sample.inbound_calls = [].
Proof.
  repeat split; try discriminate; vm_compute; reflexivity.
Qed.

Lemma listen_a_a_b_a_witness :
  let m1 := (Sample.call "d1", mkDataMessage "a1" "m1") in
  let m2 := (Sample.call "d1", mkDataMessage "a1" "m2") in
  let m3 := (Sample.call_end "d1", mkDataMessage "b2" "m3") in
  let m4 := (Sample.call "d1", mkDataMessage "a1" "m4") in
  let w1 := (Sample.client_on_notification (Sample.post_status 200)
               m1.1 m1.2 Sample.world).1 in
  let w3 := (Sample.client_on_notification (Sample.post_status 200)
               m3.1 m3.2 w1).1 in
  Sample.client_listen false (Sample.post_status 200) [m1; m2; m3; m4] Sample.world
    = (w3, Ret tt) /\
  exists n1 n3,
    NotificationBuilder.fromNotification m1.1 (id m1.2) = Ret n1 /\
    NotificationBuilder.fromNotification m3.1 (id m3.2) = Ret n3 /\
    callbacks (trace w3) = (callbacks (trace Sample.world) ++ [n1; n3])%list.
Proof.
  intros m1 m2 m3 m4 w1 w3.
  apply (listen_a_a_b_a Sample.shouldAcknowledge
           Sample.getFcmMessageId Sample.isExpired Sample.getBearerAuthHeader
           Sample.refresh_ok (Sample.post_status 200) Sample.config false
           m1 m2 m3 m4 "a1" "b2" Sample.world w1 w3);
    vm_compute; reflexivity.
Defined.

(** The same four messages give the two deliveries. *)
Example deliveries_a_a_b_a :
  Sample.deliveries false (Sample.post_status 200)
    [ (Sample.call "d1", mkDataMessage "a1" "m1");
      (Sample.call "d1", mkDataMessage "a1" "m2");
      (Sample.call_end "d1", mkDataMessage "b2" "m3");
      (Sample.call "d1", mkDataMessage "a1" "m4") ]
  = [ CallNotification (Sample.call "d1") "m1";
      CallEndNotification (Sample.call_end "d1") ].
Proof. vm_compute. reflexivity. Qed.

(** ** Registration, on the sample client *)

Lemma registerAppToken_idempotent_witness :
  let w := Sample.world_registered in
  let run1 := Sample.client_registerAppToken true w in
  let run2 := Sample.client_registerAppToken true run1.1 in
  fcm_registrations (trace run1.1) = fcm_registrations (trace w) /\
  fcm_registrations (trace run2.1) = fcm_registrations (trace w) /\
  credentialsStorage run1.1 = Some Sample.provider_credentials /\
  credentialsStorage run2.1 = Some Sample.provider_credentials /\
  (deviceId w = PNone ->
   forall token, fcm_token Sample.provider_credentials = Ret token ->
     deviceId run1.1 = token /\ deviceId run2.1 = token /\
     exists evs, trace run2.1 = (trace w ++ evs)%list /\
       Forall (fun json => json = apptoken_json token true)
              (posts_to apptoken_url evs)).
Proof.
  intros w run1 run2.
  apply (registerAppToken_idempotent Sample.isExpired Sample.getBearerAuthHeader
           Sample.refresh_ok (Sample.post_status 200) Sample.fcm_register
           Sample.config true Sample.provider_credentials
           w run1.1 run2.1 run1.2 run2.2).
  - reflexivity.
  - apply surjective_pairing.
  - apply surjective_pairing.
Defined.

(** The two calls send two app-token requests with the cached token and
    never call the provider; a client without stored credentials calls
    it once. *)
Example registerAppToken_twice_sample :
  let run1 := Sample.client_registerAppToken true Sample.world_registered in
  let run2 := Sample.client_registerAppToken true run1.1 in
  run1.2 = Ret true /\ run2.2 = Ret true /\
  fcm_registrations (trace run2.1) = 0%nat /\
  posts_to apptoken_url (trace run2.1) =
    [apptoken_json (PStr "device-token") true;
     apptoken_json (PStr "device-token") true].
Proof. vm_compute. repeat split; reflexivity. Qed.

Example registerAppToken_fresh_sample :
  let run1 := Sample.client_registerAppToken true Sample.world in
  let run2 := Sample.client_registerAppToken true run1.1 in
  fcm_registrations (trace run1.1) = 1%nat /\
  fcm_registrations (trace run2.1) = 1%nat /\
  credentialsStorage run1.1 = Some Sample.provider_credentials.
Proof. vm_compute. repeat split; reflexivity. Qed.

(** ** Stopping the listener, on the sample client *)

(** At time 100, a thread that ends at 4100 is reported as not alive
    after a wait of four seconds. *)
Lemma stopNotificationListener_reports_witness :
  exists (w' : World) (alive : bool),
    stopNotificationListener (Sample.world_listening (Some 4100)) = (w', Ret alive) /\
    clock (Sample.world_listening (Some 4100)) <= clock w'
      <= clock (Sample.world_listening (Some 4100)) + 10000 /\
    (forall e, terminates_at (mkThread (Some 4100)) = Some e ->
       clock w' = Z.max (clock (Sample.world_listening (Some 4100)))
                    (Z.min e (clock (Sample.world_listening (Some 4100)) + 10000))) /\
    (alive = false <->
       exists e, terminates_at (mkThread (Some 4100)) = Some e /\ e <= clock w') /\
    (alive = false <->
       exists e, terminates_at (mkThread (Some 4100)) = Some e /\
                 e <= clock (Sample.world_listening (Some 4100)) + 10000) /\
    (alive = true -> clock w' = clock (Sample.world_listening (Some 4100)) + 10000) /\
    trace w' = trace (Sample.world_listening (Some 4100)) /\
    w' = set_clock (clock w') (Sample.world_listening (Some 4100)).
Proof.
  apply (stopNotificationListener_reports (Sample.world_listening (Some 4100))
           (mkThread (Some 4100))).
  reflexivity.
Defined.

Example stopNotificationListener_terminated :
  let run := stopNotificationListener (Sample.world_listening (Some 4100)) in
  run.2 = Ret false /\ clock run.1 = 4100.
Proof. split; reflexivity. Qed.

Example stopNotificationListener_still_alive :
  let run := stopNotificationListener (Sample.world_listening None) in
  run.2 = Ret true /\ clock run.1 = 10100.
Proof. split; reflexivity. Qed.

Example stopNotificationListener_late :
  let run := stopNotificationListener (Sample.world_listening (Some 10101)) in
  run.2 = Ret true /\ clock run.1 = 10100.
Proof. split; reflexivity. Qed.

(** Before the listener was started there is no thread to wait for. *)
Example stopNotificationListener_never_started :
  (stopNotificationListener Sample.world).2
  = Raise (AttributeError "__listenerThread").
Proof. reflexivity. Qed.

(** ** The package certificate, on the sample client *)

Lemma buildPackageCert_digest_witness :
  buildPackageCert Sample.config =
  buildPackageCert (mkConfig "other" "hidden" 1234 "key" "project" "app" "com.example").
Proof.
  apply (buildPackageCert_digest Sample.config
           (mkConfig "other" "hidden" 1234 "key" "project" "app" "com.example"));
    reflexivity.
Defined.

(** * The rest of the package: properties *)

(** ** The text of a wireless signal *)

Lemma getWirelessSignalText_cases (wirelessSignal : pyval) :
  (py_eq_int wirelessSignal 0 = true /\
     getWirelessSignalText wirelessSignal = PStr SIGNAL_TERRIBLE) \/
  (py_eq_int wirelessSignal 1 = true /\
     getWirelessSignalText wirelessSignal = PStr SIGNAL_BAD) \/
  (py_eq_int wirelessSignal 2 = true /\
     getWirelessSignalText wirelessSignal = PStr SIGNAL_WEAK) \/
  (py_eq_int wirelessSignal 3 = true /\
     getWirelessSignalText wirelessSignal = PStr SIGNAL_GOOD) \/
  (py_eq_int wirelessSignal 4 = true /\
     getWirelessSignalText wirelessSignal = PStr SIGNAL_EXCELENT) \/
  ((forall n, 0 <= n <= 4 -> py_eq_int wirelessSignal n = false) /\
     getWirelessSignalText wirelessSignal = PNone).
Proof.
  unfold getWirelessSignalText.
  destruct (py_eq_int wirelessSignal 0) eqn:H0; [tauto|].
  destruct (py_eq_int wirelessSignal 1) eqn:H1; [tauto|].
  destruct (py_eq_int wirelessSignal 2) eqn:H2; [tauto|].
  destruct (py_eq_int wirelessSignal 3) eqn:H3; [tauto|].
  destruct (py_eq_int wirelessSignal 4) eqn:H4; [tauto|].
  do 5 right. split; [|done]. intros n Hn.
  assert (n = 0 \/ n = 1 \/ n = 2 \/ n = 3 \/ n = 4) as Hcases by lia.
  destruct Hcases as [->|[->|[->|[->| ->]]]]; done.
Qed.

(** X1: [getWirelessSignalText] gives one of the five texts for the
    signals 0 to 4 and [None] for everything else; it never gives
    ["unknown"], the sixth of the sensor's options. *)
Theorem getWirelessSignalText_never_unknown (wirelessSignal : pyval) :
  getWirelessSignalText wirelessSignal <> PStr SIGNAL_UNKNOWN /\
  (getWirelessSignalText wirelessSignal = PNone <->
     forall n, 0 <= n <= 4 -> py_eq_int wirelessSignal n = false) /\
  (forall s, getWirelessSignalText wirelessSignal = PStr s ->
     In s [SIGNAL_TERRIBLE; SIGNAL_BAD; SIGNAL_WEAK; SIGNAL_GOOD; SIGNAL_EXCELENT]).
Proof.
  destruct (getWirelessSignalText_cases wirelessSignal)
    as [[H ->]|[[H ->]|[[H ->]|[[H ->]|[[H ->]|[H ->]]]]]];
    (split; [discriminate|]); split;
    try (intros s [= <-]; simpl; tauto); try discriminate;
    try (split; [discriminate | intros Hall; rewrite Hall in H; [discriminate | lia]]).
  by split.
Qed.

(** ** The entities *)

Section Entities.

Variable lower : string -> string.
Variable DOMAIN : string.
Variable DEVICE_MANUFACTURER : string.
Variable HASS_BLUECON_VERSION : string.
Variable getDeviceInfo : string -> N (option DeviceInfo.t).

Lemma signal_text_done (deviceInfo : option DeviceInfo.t) (value : pyval) :
  BlueConWifiStrenghtSensor.signal_text deviceInfo = Done value ->
  value = PNone \/ exists s, value = PStr s /\ In s wifi_options.
Proof.
  destruct deviceInfo as [d|]; [|done]. intros [= <-].
  destruct (getWirelessSignalText_cases (DeviceInfo.wirelessSignal d))
    as [[_ ->]|[[_ ->]|[[_ ->]|[[_ ->]|[[_ ->]|[_ ->]]]]]];
    [right; eexists; split; [reflexivity | simpl; tauto] .. | by left].
Qed.

(** X2: the value of a wifi sensor, as the constructor sets it and as
    every update leaves it, is [None] or one of the sensor's options. *)
Theorem wifi_sensor_value_in_options :
  (forall deviceId deviceInfo s,
     BlueConWifiStrenghtSensor.__init__ lower DOMAIN deviceId deviceInfo = Done s ->
     BlueConWifiStrenghtSensor._attr_options s = wifi_options /\
     (BlueConWifiStrenghtSensor._attr_native_value s = PNone \/
      exists text, BlueConWifiStrenghtSensor._attr_native_value s = PStr text /\
                   In text (BlueConWifiStrenghtSensor._attr_options s))) /\
  (forall s net net' s',
     BlueConWifiStrenghtSensor.async_update getDeviceInfo s net = (net', Done s') ->
     BlueConWifiStrenghtSensor._attr_options s' =
       BlueConWifiStrenghtSensor._attr_options s /\
     (BlueConWifiStrenghtSensor._attr_native_value s' = PNone \/
      exists text, BlueConWifiStrenghtSensor._attr_native_value s' = PStr text /\
                   In text wifi_options)).
Proof.
  split.
  - intros deviceId deviceInfo s. unfold BlueConWifiStrenghtSensor.__init__.
    destruct (BlueConWifiStrenghtSensor.signal_text deviceInfo) as [value|e] eqn:Hv;
      [|done].
    destruct (model_of deviceInfo); [|done]. intros [= <-]. simpl.
    split; [done|]. by apply (signal_text_done deviceInfo).
  - intros s net net' s'. unfold BlueConWifiStrenghtSensor.async_update, bindN.
    destruct (getDeviceInfo _ net) as [net1 [deviceInfo|e]]; [|done].
    unfold liftN, retN.
    destruct (BlueConWifiStrenghtSensor.signal_text deviceInfo) as [value|e] eqn:Hv;
      [|done].
    intros [= <- <-]. simpl. split; [done|]. by apply (signal_text_done deviceInfo).
Qed.

(** X3: whatever signals a call sensor receives, it is on exactly when
    the last one was the start of a call, and off if there was none (a
    new sensor is off); its ids never change. *)
Theorem call_sensor_follows_last_signal
    (deviceId accessDoorName : string) (block subBlock number : pyval)
    (deviceInfo : option DeviceInfo.t) (s : BlueConCallStatusBinarySensor.t)
    (signals : list BlueConCallStatusBinarySensor.signal) :
  BlueConCallStatusBinarySensor.__init__ lower DOMAIN deviceId accessDoorName
    block subBlock number deviceInfo = Done s ->
  let s' := List.fold_left BlueConCallStatusBinarySensor.dispatch signals s in
  BlueConCallStatusBinarySensor._attr_is_on s' =
    match last signals with
    | Some BlueConCallStatusBinarySensor.SIGNAL_CALL_STARTED => true
    | _ => false
    end /\
  BlueConCallStatusBinarySensor.unique_id s' = BlueConCallStatusBinarySensor.unique_id s /\
  BlueConCallStatusBinarySensor.deviceId s' = deviceId.
Proof.
  intros Hinit s'.
  assert (Hoff : BlueConCallStatusBinarySensor._attr_is_on s = false /\
                 BlueConCallStatusBinarySensor.deviceId s = deviceId).
  { unfold BlueConCallStatusBinarySensor.__init__ in Hinit.
    destruct (model_of deviceInfo); [|done]. by injection Hinit as <-. }
  destruct Hoff as [Hoff Hdev]. rewrite <- Hdev. clear Hinit Hdev.
  subst s'. revert s Hoff.
  induction signals as [|sig signals IH] using rev_ind; intros s Hoff.
  - done.
  - rewrite fold_left_app, last_snoc. simpl.
    destruct (IH s Hoff) as (_ & Hid & Hdev).
    destruct sig; simpl; by rewrite <- Hid, <- Hdev.
Qed.

(** X4: the three kinds of entity built for one device from one device
    info describe the same device to the platform. *)
Theorem entities_share_device_info
    (deviceId accessDoorName : string) (block subBlock number : pyval)
    (deviceInfo : option DeviceInfo.t)
    (call : BlueConCallStatusBinarySensor.t)
    (connection : BlueConConnectionStatusBinarySensor.t)
    (wifi : BlueConWifiStrenghtSensor.t) :
  BlueConCallStatusBinarySensor.__init__ lower DOMAIN deviceId accessDoorName
    block subBlock number deviceInfo = Done call ->
  BlueConConnectionStatusBinarySensor.__init__ lower DOMAIN deviceId deviceInfo
    = Done connection ->
  BlueConWifiStrenghtSensor.__init__ lower DOMAIN deviceId deviceInfo = Done wifi ->
  BlueConCallStatusBinarySensor.device_info DOMAIN DEVICE_MANUFACTURER
    HASS_BLUECON_VERSION call =
  BlueConConnectionStatusBinarySensor.device_info DOMAIN DEVICE_MANUFACTURER
    HASS_BLUECON_VERSION connection /\
  BlueConWifiStrenghtSensor.device_info DOMAIN DEVICE_MANUFACTURER
    HASS_BLUECON_VERSION wifi =
  BlueConConnectionStatusBinarySensor.device_info DOMAIN DEVICE_MANUFACTURER
    HASS_BLUECON_VERSION connection /\
  identifiers (BlueConConnectionStatusBinarySensor.device_info DOMAIN
                 DEVICE_MANUFACTURER HASS_BLUECON_VERSION connection)
    = [(DOMAIN, deviceId)].
Proof.
  unfold BlueConCallStatusBinarySensor.__init__,
    BlueConConnectionStatusBinarySensor.__init__,
    BlueConWifiStrenghtSensor.__init__.
  destruct (BlueConWifiStrenghtSensor.signal_text deviceInfo);
    destruct (model_of deviceInfo); try done.
  by intros [= <-] [= <-] [= <-].
Qed.

(** X5: the wifi sensor of a device has the unique id and the entity id
    of the connection sensor of the same device: both are built from
    the suffix [_connection_status]. *)
Theorem wifi_sensor_shares_connection_id
    (deviceId : string) (deviceInfo deviceInfo' : option DeviceInfo.t)
    (connection : BlueConConnectionStatusBinarySensor.t)
    (wifi : BlueConWifiStrenghtSensor.t) :
  BlueConConnectionStatusBinarySensor.__init__ lower DOMAIN deviceId deviceInfo
    = Done connection ->
  BlueConWifiStrenghtSensor.__init__ lower DOMAIN deviceId deviceInfo' = Done wifi ->
  BlueConWifiStrenghtSensor.unique_id wifi =
    BlueConConnectionStatusBinarySensor.unique_id connection /\
  BlueConWifiStrenghtSensor._attr_unique_id wifi =
    BlueConConnectionStatusBinarySensor._attr_unique_id connection /\
  BlueConWifiStrenghtSensor.unique_id wifi =
    lower (DOMAIN +:+ "." +:+ lower (deviceId +:+ "_connection_status")).
Proof.
  unfold BlueConConnectionStatusBinarySensor.__init__,
    BlueConWifiStrenghtSensor.__init__.
  destruct (BlueConWifiStrenghtSensor.signal_text deviceInfo');
    destruct (model_of deviceInfo); destruct (model_of deviceInfo'); try done.
  by intros [= <-] [= <-].
Qed.

(** X6: an entity can be constructed exactly when there is a device
    info: with [None], the constructors of all three kinds raise
    [AttributeError], the connection sensor's too, although it tests
    for [None] when it sets its state. *)
Theorem entity_constructors_need_device_info
    (deviceId accessDoorName : string) (block subBlock number : pyval)
    (deviceInfo : option DeviceInfo.t) :
  match deviceInfo with
  | None =>
      BlueConConnectionStatusBinarySensor.__init__ lower DOMAIN deviceId None
        = Fail (Core (AttributeError "type")) /\
      BlueConCallStatusBinarySensor.__init__ lower DOMAIN deviceId accessDoorName
        block subBlock number None = Fail (Core (AttributeError "type")) /\
      BlueConWifiStrenghtSensor.__init__ lower DOMAIN deviceId None
        = Fail (Core (AttributeError "wirelessSignal"))
  | Some d =>
      (exists s, BlueConConnectionStatusBinarySensor.__init__ lower DOMAIN deviceId
                   (Some d) = Done s /\
                 BlueConConnectionStatusBinarySensor._attr_is_on s =
                   py_eqb (DeviceInfo.connectionState d) (PStr STATE_CONNECTED)) /\
      (exists s, BlueConCallStatusBinarySensor.__init__ lower DOMAIN deviceId
                   accessDoorName block subBlock number (Some d) = Done s) /\
      (exists s, BlueConWifiStrenghtSensor.__init__ lower DOMAIN deviceId (Some d)
                 = Done s)
  end.
Proof.
  destruct deviceInfo as [d|]; [|done].
  repeat split; eexists; try split; reflexivity.
Qed.

End Entities.

Section EntityUpdates.

Variable getDeviceInfo : string -> N (option DeviceInfo.t).

(** X23: the update of a connection sensor never fails on a missing
    device info: whatever [getDeviceInfo] returns, the sensor is on
    exactly when there is an info and its state is ["Connected"], and
    its ids stay.  The update of a wifi sensor raises [AttributeError]
    when [getDeviceInfo] returns [None]. *)
Theorem update_without_device_info
    (connection : BlueConConnectionStatusBinarySensor.t)
    (wifi : BlueConWifiStrenghtSensor.t) (net net' : Net)
    (deviceInfo : option DeviceInfo.t) :
  (getDeviceInfo (BlueConConnectionStatusBinarySensor.deviceId connection) net
     = (net', Done deviceInfo) ->
   exists connection',
     BlueConConnectionStatusBinarySensor.async_update getDeviceInfo connection net
       = (net', Done connection') /\
     BlueConConnectionStatusBinarySensor._attr_is_on connection'
       = is_connected deviceInfo /\
     BlueConConnectionStatusBinarySensor.unique_id connection'
       = BlueConConnectionStatusBinarySensor.unique_id connection /\
     BlueConConnectionStatusBinarySensor.deviceId connection'
       = BlueConConnectionStatusBinarySensor.deviceId connection) /\
  (getDeviceInfo (BlueConWifiStrenghtSensor.deviceId wifi) net = (net', Done None) ->
   BlueConWifiStrenghtSensor.async_update getDeviceInfo wifi net
     = (net', Fail (Core (AttributeError "wirelessSignal")))).
Proof.
  split.
  - intros Hinfo. unfold BlueConConnectionStatusBinarySensor.async_update, bindN.
    rewrite Hinfo. eexists. split; [reflexivity|]. by repeat split.
  - intros Hnone. unfold BlueConWifiStrenghtSensor.async_update, bindN.
    by rewrite Hnone.
Qed.

End EntityUpdates.

(** ** The request monad *)

Lemma mapN_app {A B} (f : A -> N B) (l1 l2 : list A) (s : Net) :
  mapN f (l1 ++ l2) s =
  match mapN f l1 s with
  | (s1, Done ys1) =>
      match mapN f l2 s1 with
      | (s2, Done ys2) => (s2, Done (ys1 ++ ys2)%list)
      | (s2, Fail e) => (s2, Fail e)
      end
  | (s1, Fail e) => (s1, Fail e)
  end.
Proof.
  revert s. induction l1 as [|x l1 IH]; intros s; simpl.
  - unfold retN. by destruct (mapN f l2 s) as [s2 [ys2|e]].
  - unfold bindN, retN. destruct (f x s) as [s0 [y|e]]; [|done].
    rewrite IH.
    destruct (mapN f l1 s0) as [s1 [ys1|e]]; [|done].
    by destruct (mapN f l2 s1) as [s2 [ys2|e]].
Qed.

Lemma mapN_fail_at {A B} (f : A -> N B) (before after : list A) (x : A)
    (s s1 s2 : Net) (ys : list B) (e : pyexn) :
  mapN f before s = (s1, Done ys) ->
  f x s1 = (s2, Fail e) ->
  mapN f (before ++ x :: after) s = (s2, Fail e).
Proof.
  intros Hbefore Hx. rewrite mapN_app, Hbefore. simpl.
  unfold bindN. by rewrite Hx.
Qed.

Lemma traverse_length {A B} (f : A -> outcome B) (l : list A) (ys : list B) :
  traverse f l = Done ys -> length ys = length l.
Proof.
  revert ys. induction l as [|x l IH]; intros ys; simpl.
  - by intros [= <-].
  - destruct (f x); [|done]. destruct (traverse f l) as [ys'|]; [|done].
    intros [= <-]. simpl. f_equal. by apply IH.
Qed.

Lemma net_eta (s : Net) : mkNet (net_world s) (net_gets s) = s.
Proof. by destruct s. Qed.

(** ** Platform setup *)

Lemma connection_devices_connection s (sensors : list BinarySensor) :
  connection_devices (ConnectionStatus s :: sensors) =
  BlueConConnectionStatusBinarySensor.deviceId s :: connection_devices sensors.
Proof. reflexivity. Qed.
Lemma connection_devices_call s (sensors : list BinarySensor) :
  connection_devices (CallStatus s :: sensors) = connection_devices sensors.
Proof. reflexivity. Qed.
Lemma call_doors_connection s (sensors : list BinarySensor) :
  call_doors (ConnectionStatus s :: sensors) = call_doors sensors.
Proof. reflexivity. Qed.
Lemma call_doors_call s (sensors : list BinarySensor) :
  call_doors (CallStatus s :: sensors) =
  (BlueConCallStatusBinarySensor.deviceId s,
   BlueConCallStatusBinarySensor.accessDoorName s) :: call_doors sensors.
Proof. reflexivity. Qed.
Lemma connection_devices_app (l1 l2 : list BinarySensor) :
  connection_devices (l1 ++ l2) = (connection_devices l1 ++ connection_devices l2)%list.
Proof. apply omap_app. Qed.
Lemma call_doors_app (l1 l2 : list BinarySensor) :
  call_doors (l1 ++ l2) = (call_doors l1 ++ call_doors l2)%list.
Proof. apply omap_app. Qed.

Section SetupProperties.

Variable lower : string -> string.
Variable DOMAIN : string.
Variable CONF_SENDER_ID : string.
Variable CONF_API_KEY : string.
Variable CONF_PROJECT_ID : string.
Variable CONF_APP_ID : string.
Variable CONF_PACKAGE_NAME : string.
Variable getPairings : N (list Pairing.t).
Variable getDeviceInfo : string -> N (option DeviceInfo.t).

Local Abbreviation notifications_configured :=
  (notifications_configured CONF_SENDER_ID CONF_API_KEY CONF_PROJECT_ID
     CONF_APP_ID CONF_PACKAGE_NAME).
Local Abbreviation call_sensors := (call_sensors lower DOMAIN).
Local Abbreviation binary_sensors_of :=
  (binary_sensors_of lower DOMAIN CONF_SENDER_ID CONF_API_KEY CONF_PROJECT_ID
     CONF_APP_ID CONF_PACKAGE_NAME getDeviceInfo).
Local Abbreviation binary_sensor_async_setup_entry :=
  (binary_sensor_async_setup_entry lower DOMAIN CONF_SENDER_ID CONF_API_KEY
     CONF_PROJECT_ID CONF_APP_ID CONF_PACKAGE_NAME getPairings getDeviceInfo).
Local Abbreviation sensor_async_setup_entry :=
  (sensor_async_setup_entry lower DOMAIN getPairings getDeviceInfo).

Lemma call_sensors_done (pairing : Pairing.t) (deviceInfo : option DeviceInfo.t)
    (calls : list BinarySensor) :
  call_sensors pairing deviceInfo = Done calls ->
  connection_devices calls = [] /\
  call_doors calls = doors_of [pairing].
Proof.
  unfold doors_of. simpl. rewrite app_nil_r.
  unfold call_sensors. revert calls.
  induction (Pairing.accessDoorMap pairing) as [|[name door] doors IH];
    intros calls; simpl.
  - by intros [= <-].
  - destruct (BlueConCallStatusBinarySensor.__init__ _ _ _ _ _ _ _ _)
      as [sensor|e] eqn:Hinit; [|done].
    destruct (traverse _ doors) as [calls'|e]; [|done].
    intros [= <-]. destruct (IH calls' eq_refl) as [Hc Hd].
    rewrite connection_devices_call, call_doors_call, Hc, Hd.
    split; [done|]. f_equal.
    unfold BlueConCallStatusBinarySensor.__init__ in Hinit.
    destruct (model_of deviceInfo); [|done]. by injection Hinit as <-.
Qed.

(** What one pairing adds: its connection sensor and, with
    notifications configured, one call sensor per door. *)
Lemma binary_sensors_of_done (data : dict) (pairing : Pairing.t)
    (s s' : Net) (sensors : list BinarySensor) :
  binary_sensors_of data pairing s = (s', Done sensors) ->
  connection_devices sensors = [Pairing.deviceId pairing] /\
  call_doors sensors =
    if notifications_configured data then doors_of [pairing] else [].
Proof.
  unfold binary_sensors_of, bindN.
  destruct (getDeviceInfo _ s) as [s1 [deviceInfo|e]]; [|done].
  unfold liftN at 1.
  destruct (BlueConConnectionStatusBinarySensor.__init__ _ _ _ _)
    as [connection|e] eqn:Hinit; [|done].
  assert (Hdev : BlueConConnectionStatusBinarySensor.deviceId connection
                 = Pairing.deviceId pairing).
  { unfold BlueConConnectionStatusBinarySensor.__init__ in Hinit.
    destruct (model_of deviceInfo); [|done]. by injection Hinit as <-. }
  destruct (notifications_configured data).
  - unfold liftN, retN.
    destruct (call_sensors pairing deviceInfo) as [calls|e] eqn:Hcalls; [|done].
    intros [= <- <-]. destruct (call_sensors_done _ _ _ Hcalls) as [Hc Hd].
    by rewrite connection_devices_connection, call_doors_connection, Hc, Hd, Hdev.
  - unfold retN. intros [= <- <-].
    by rewrite connection_devices_connection, call_doors_connection, Hdev.
Qed.

Lemma binary_sensors_of_all (data : dict) (pairings : list Pairing.t)
    (s s' : Net) (per_pairing : list (list BinarySensor)) :
  mapN (binary_sensors_of data) pairings s = (s', Done per_pairing) ->
  connection_devices (List.concat per_pairing) = List.map Pairing.deviceId pairings /\
  call_doors (List.concat per_pairing) =
    if notifications_configured data then doors_of pairings else [].
Proof.
  revert s per_pairing. induction pairings as [|p pairings IH];
    intros s per_pairing; simpl.
  - intros [= <- <-]. by destruct (notifications_configured data).
  - unfold bindN.
    destruct (binary_sensors_of data p s) as [s1 [sensors|e]] eqn:Hp; [|done].
    destruct (mapN _ pairings s1) as [s2 [rest|e]] eqn:Hrest; [|done].
    unfold retN. intros [= <- <-]. simpl.
    destruct (binary_sensors_of_done _ _ _ _ _ Hp) as [Hc Hd].
    destruct (IH _ _ Hrest) as [Hcs Hds].
    rewrite connection_devices_app, call_doors_app, Hc, Hd, Hcs, Hds.
    split; [done|].
    destruct (notifications_configured data); [|done].
    unfold doors_of. simpl. by rewrite app_nil_r.
Qed.

(** X7: when the setup of the binary sensor platform gets to add its
    entities, they are one connection sensor per pairing, in the order
    of the pairings, and, exactly when all five notification settings
    are there, one call sensor per door of each pairing. *)
Theorem binary_sensor_setup_entities (data : dict) (s s' : Net)
    (sensors : list BinarySensor) :
  binary_sensor_async_setup_entry data s = (s', Done sensors) ->
  exists (s0 : Net) (pairings : list Pairing.t),
    getPairings s = (s0, Done pairings) /\
    connection_devices sensors = List.map Pairing.deviceId pairings /\
    call_doors sensors =
      if notifications_configured data then doors_of pairings else [].
Proof.
  unfold binary_sensor_async_setup_entry, bindN.
  destruct (getPairings s) as [s0 [pairings|e]]; [|done].
  destruct (mapN _ pairings s0) as [s1 [per_pairing|e]] eqn:Hall; [|done].
  unfold retN. intros [= <- <-]. exists s0, pairings.
  split; [done|]. by apply (binary_sensors_of_all _ _ _ _ _ Hall).
Qed.

(** X8: when the device info of one pairing is [None], the setup of the
    binary sensor platform ends there with [AttributeError] and adds no
    entity, those of the pairings before included. *)
Theorem binary_sensor_setup_needs_device_info (data : dict)
    (before after : list Pairing.t) (pairing : Pairing.t)
    (s s0 s1 s2 : Net) (per_pairing : list (list BinarySensor)) :
  getPairings s = (s0, Done (before ++ pairing :: after)%list) ->
  mapN (binary_sensors_of data) before s0 = (s1, Done per_pairing) ->
  getDeviceInfo (Pairing.deviceId pairing) s1 = (s2, Done None) ->
  binary_sensor_async_setup_entry data s
  = (s2, Fail (Core (AttributeError "type"))).
Proof.
  intros Hpairings Hbefore Hnone.
  unfold binary_sensor_async_setup_entry, bindN at 1. rewrite Hpairings.
  unfold bindN at 1.
  rewrite (mapN_fail_at _ before after pairing s0 s1 s2 per_pairing
             (Core (AttributeError "type")) Hbefore); [done|].
  unfold binary_sensors_of, bindN. by rewrite Hnone.
Qed.

(** X9: the setup of the sensor platform adds one wifi sensor per
    pairing, in the order of the pairings; when the device info of a
    pairing is [None] it ends there with [AttributeError] and adds
    none. *)
Theorem sensor_setup_entities (s : Net) :
  (forall s' sensors,
     sensor_async_setup_entry s = (s', Done sensors) ->
     exists (s0 : Net) (pairings : list Pairing.t),
       getPairings s = (s0, Done pairings) /\
       List.map BlueConWifiStrenghtSensor.deviceId sensors
         = List.map Pairing.deviceId pairings) /\
  (forall before after pairing s0 s1 s2 sensors,
     getPairings s = (s0, Done (before ++ pairing :: after)%list) ->
     mapN (fun pairing : Pairing.t =>
             bindN (getDeviceInfo (Pairing.deviceId pairing))
               (fun deviceInfo =>
                  liftN (BlueConWifiStrenghtSensor.__init__ lower DOMAIN
                           (Pairing.deviceId pairing) deviceInfo)))
          before s0 = (s1, Done sensors) ->
     getDeviceInfo (Pairing.deviceId pairing) s1 = (s2, Done None) ->
     sensor_async_setup_entry s
     = (s2, Fail (Core (AttributeError "wirelessSignal")))).
Proof.
  split.
  - intros s' sensors. unfold sensor_async_setup_entry, bindN at 1.
    destruct (getPairings s) as [s0 [pairings|e]]; [|done].
    intros Hall. exists s0, pairings. split; [done|].
    revert s0 sensors Hall. induction pairings as [|p pairings IH];
      intros s0 sensors; simpl.
    + by intros [= <- <-].
    + unfold bindN at 1. unfold bindN at 1.
      destruct (getDeviceInfo _ s0) as [s1 [deviceInfo|e]]; [|done].
      unfold liftN at 1.
      destruct (BlueConWifiStrenghtSensor.__init__ _ _ _ _) as [sensor|e] eqn:Hinit;
        [|done].
      unfold bindN at 1.
      destruct (mapN _ pairings s1) as [s2 [rest|e]] eqn:Hrest; [|done].
      unfold retN. intros [= <- <-]. simpl. rewrite (IH _ _ Hrest). f_equal.
      unfold BlueConWifiStrenghtSensor.__init__ in Hinit.
      destruct (BlueConWifiStrenghtSensor.signal_text deviceInfo); [|done].
      destruct (model_of deviceInfo); [|done]. by injection Hinit as <-.
  - intros before after pairing s0 s1 s2 sensors Hpairings Hbefore Hnone.
    unfold sensor_async_setup_entry, bindN at 1. rewrite Hpairings.
    rewrite (mapN_fail_at _ before after pairing s0 s1 s2 sensors
               (Core (AttributeError "wirelessSignal")) Hbefore); [done|].
    unfold bindN. by rewrite Hnone.
Qed.

End SetupProperties.

(** ** The greatest element *)

Lemma fold_max_spec {A} (key : A -> Z) (rest : list A) (x : A) :
  let best := List.fold_left (fun best y => if key best <? key y then y else best)
                rest x in
  exists before behind,
    x :: rest = (before ++ best :: behind)%list /\
    (forall y, In y before -> key y < key best) /\
    (forall y, In y behind -> key y <= key best).
Proof.
  revert x. induction rest as [|y rest IH]; intros x; simpl.
  - exists [], []. by repeat split.
  - destruct (key x <? key y) eqn:Hlt.
    + apply Z.ltb_lt in Hlt. specialize (IH y). simpl in IH.
      set (best := List.fold_left _ rest y) in *.
      destruct IH as (before & behind & Hsplit & Hbefore & Hbehind).
      exists (x :: before), behind. rewrite Hsplit. split; [done|].
      split; [|done]. intros z [<-|Hz]; [|by apply Hbefore].
      assert (key y <= key best).
      { destruct before as [|b before]; simpl in Hsplit.
        - injection Hsplit as <- _. lia.
        - injection Hsplit as <- _. apply Z.lt_le_incl, Hbefore. by left. }
      lia.
    + apply Z.ltb_ge in Hlt. specialize (IH x). simpl in IH.
      set (best := List.fold_left _ rest x) in *.
      destruct IH as (before & behind & Hsplit & Hbefore & Hbehind).
      destruct before as [|b before]; simpl in Hsplit.
      * injection Hsplit as Hbest Hrest. exists [], (y :: behind).
        simpl. split; [by rewrite Hbest, Hrest|].
        split; [done|]. intros z [<-|Hz]; [by rewrite <- Hbest | by apply Hbehind].
      * injection Hsplit as Hb Hrest. subst b. exists (x :: y :: before), behind.
        simpl. rewrite Hrest. split; [done|]. split; [|done].
        assert (key x < key best) by (apply Hbefore; by left).
        intros z [<-|[<-|Hz]]; [done | lia | apply Hbefore; by right].
Qed.

(** [max] with a key gives the first of the greatest: everything before
    it is smaller, nothing behind it is greater; it gives [None] for
    the empty list only. *)
Lemma py_max_by_spec {A} (key : A -> Z) (l : list A) :
  match py_max_by key l with
  | None => l = []
  | Some best =>
      exists before behind,
        l = (before ++ best :: behind)%list /\
        (forall y, In y before -> key y < key best) /\
        (forall y, In y behind -> key y <= key best)
  end.
Proof.
  destruct l as [|x rest]; [done|]. simpl. apply fold_max_spec.
Qed.

(** ** The rest of [BlueConAPI] *)

Section RestProperties.

Variable isExpired : Z -> OAuthToken -> bool.
Variable getBearerAuthHeader : OAuthToken -> dict.
Variable OAuthService_updateOAuthToken :
  list Event -> string -> OAuthToken -> result OAuthToken.
Variable session_post : list Event -> string -> dict -> dict -> result Z.
Variable self : Config.
Variable OAuthService_createOAuthToken :
  list Event -> string -> string -> string -> result OAuthToken.
Variable getDirectOpenDoorParamsRequest : AccessDoor.t -> dict.
Variable DeviceInfo_new : json -> outcome DeviceInfo.t.
Variable CallLog : Type.
Variable CallLog_new : json -> outcome CallLog.
Variable CallLog_deviceId : CallLog -> pyval.
Variable CallLog_photoId : CallLog -> pyval.
Variable getCallDate : CallLog -> Z.
Variable b64decode : json -> outcome string.
Variable py_chars : string -> list string.
Variable session_get :
  list Event -> list GetRequest -> GetRequest -> outcome Response.

Local Abbreviation __getOrRefreshOAuthToken :=
  (__getOrRefreshOAuthToken isExpired OAuthService_updateOAuthToken self).
Local Abbreviation bearer :=
  (bearer isExpired getBearerAuthHeader OAuthService_updateOAuthToken self).
Local Abbreviation get := (get session_get).
Local Abbreviation getDeviceInfo :=
  (getDeviceInfo isExpired getBearerAuthHeader OAuthService_updateOAuthToken self
     DeviceInfo_new session_get).
Local Abbreviation has_photo_of :=
  (has_photo_of CallLog CallLog_deviceId CallLog_photoId).
Local Abbreviation getLastPicture :=
  (getLastPicture isExpired getBearerAuthHeader OAuthService_updateOAuthToken self
     CallLog CallLog_new CallLog_deviceId CallLog_photoId getCallDate b64decode
     py_chars session_get).
Local Abbreviation openDoor :=
  (openDoor isExpired getBearerAuthHeader OAuthService_updateOAuthToken
     session_post self getDirectOpenDoorParamsRequest).
Local Abbreviation create := (create self OAuthService_createOAuthToken).
Local Abbreviation create_already_authed := (create_already_authed self).

Local Abbreviation has_valid_token := (has_valid_token isExpired).

Lemma bearer_valid (s : Net) (t : OAuthToken) :
  has_valid_token (net_world s) t ->
  bearer s = (s, Done (getBearerAuthHeader t)).
Proof.
  intros [Hstored Hvalid]. unfold bearer, bindN, liftM.
  rewrite (getOrRefreshOAuthToken_not_expired _ _ _ _ _ Hstored Hvalid).
  simpl. by rewrite net_eta.
Qed.

Lemma get_run (url : string) (params headers : dict) (s : Net) :
  get url params headers s =
  (mkNet (net_world s) (net_gets s ++ [mkGet url params headers]),
   session_get (trace (net_world s)) (net_gets s) (mkGet url params headers)).
Proof. reflexivity. Qed.

(** X10: with a valid token, [getDeviceInfo] sends one GET request for
    the device, with the bearer header of the token, and leaves the
    client's world alone.  A response with a status other than 200
    gives [None], whatever its body; a response with status 200 never
    gives [None]: it gives the device info made from its body, or the
    exception of reading or converting the body. *)
Theorem getDeviceInfo_by_status
    (deviceId : string) (s : Net) (t : OAuthToken) (response : Response) :
  has_valid_token (net_world s) t ->
  let request :=
    mkGet (device_url deviceId) ∅ (getBearerAuthHeader t) in
  let s' := mkNet (net_world s) (net_gets s ++ [request]) in
  session_get (trace (net_world s)) (net_gets s) request = Done response ->
  (status response <> 200 -> getDeviceInfo deviceId s = (s', Done None)) /\
  (status response = 200 ->
     getDeviceInfo deviceId s =
     (s', match response_json response with
          | Fail e => Fail e
          | Done parsed =>
              match DeviceInfo_new parsed with
              | Fail e => Fail e
              | Done deviceInfo => Done (Some deviceInfo)
              end
          end)).
Proof.
  intros Hvalid request s' Hresponse.
  assert (Hrun : getDeviceInfo deviceId s =
                 (if status response =? 200
                  then bindN (liftN (response_json response)) (fun parsed =>
                         bindN (liftN (DeviceInfo_new parsed)) (fun deviceInfo =>
                           retN (Some deviceInfo)))
                  else retN None) s').
  { unfold getDeviceInfo, bindN at 1. rewrite (bearer_valid _ _ Hvalid).
    unfold bindN at 1. rewrite get_run. fold request s'. by rewrite Hresponse. }
  rewrite Hrun. split.
  - intros Hstatus. by apply Z.eqb_neq in Hstatus as ->.
  - intros Hstatus. apply Z.eqb_eq in Hstatus as ->.
    unfold bindN, liftN, retN.
    destruct (response_json response) as [parsed|e]; [|done].
    by destruct (DeviceInfo_new parsed).
Qed.

(** When the request itself raises, or the token cannot be had, so does
    [getDeviceInfo]. *)
Lemma getDeviceInfo_request_fails
    (deviceId : string) (s : Net) (t : OAuthToken) (e : pyexn) :
  has_valid_token (net_world s) t ->
  let request :=
    mkGet (device_url deviceId) ∅ (getBearerAuthHeader t) in
  session_get (trace (net_world s)) (net_gets s) request = Fail e ->
  getDeviceInfo deviceId s
  = (mkNet (net_world s) (net_gets s ++ [request]), Fail e).
Proof.
  intros Hvalid request Hfail.
  unfold getDeviceInfo, bindN at 1. rewrite (bearer_valid _ _ Hvalid).
  unfold bindN at 1. rewrite get_run. fold request. by rewrite Hfail.
Qed.

(** *** Tokens and doors *)

Lemma posts_to_other (url u : string) (json headers : dict) :
  url <> u -> posts_to url [EvPost u json headers] = [].
Proof.
  intros Hne. unfold posts_to. simpl.
  destruct (String.eqb u url) eqn:Heq; [|done].
  apply String.eqb_eq in Heq. congruence.
Qed.

Lemma getOrRefreshOAuthToken_returns_stored_aux (w w' : World) (t : OAuthToken) :
  __getOrRefreshOAuthToken w = (w', Ret t) -> oAuthTokenStorage w' = Some t.
Proof.
  unfold __getOrRefreshOAuthToken, Storage.retrieveOAuthToken, updateOAuthToken,
    Storage.storeOAuthToken, bind, gets, modify, lift, ret, raise.
  destruct (oAuthTokenStorage w) as [old|] eqn:Hold; [|done].
  destruct (isExpired (clock w) old).
  - simpl. destruct (OAuthService_updateOAuthToken _ _ _); [|done].
    by intros [= <- <-].
  - by intros [= <- <-].
Qed.

(** X14: a token that [__getOrRefreshOAuthToken] returns is the token
    in the storage when it returns: either the stored token, which was
    not expired, with nothing done, or the answer of the OAuth service
    to the refresh of the expired stored token, stored before the
    return. *)
Theorem getOrRefreshOAuthToken_returns_stored (w w' : World) (t : OAuthToken) :
  __getOrRefreshOAuthToken w = (w', Ret t) ->
  oAuthTokenStorage w' = Some t /\
  ((oAuthTokenStorage w = Some t /\ isExpired (clock w) t = false /\ w' = w) \/
   (exists old,
      oAuthTokenStorage w = Some old /\ isExpired (clock w) old = true /\
      OAuthService_updateOAuthToken
        (trace w ++ [EvUpdateOAuthToken (__getAuthHeader self) old])
        (__getAuthHeader self) old = Ret t /\
      trace w' = (trace w ++ [EvUpdateOAuthToken (__getAuthHeader self) old;
                              EvStoreOAuthToken t])%list)).
Proof.
  unfold __getOrRefreshOAuthToken, Storage.retrieveOAuthToken, updateOAuthToken,
    Storage.storeOAuthToken, bind, gets, modify, lift, ret, raise.
  destruct (oAuthTokenStorage w) as [old|] eqn:Hold; [|done].
  destruct (isExpired (clock w) old) eqn:Hexp.
  - simpl. destruct (OAuthService_updateOAuthToken _ _ _) as [t'|e] eqn:Hrefresh;
      [|done].
    intros [= <- <-]. simpl. split; [done|]. right. exists old.
    repeat split; try done. by rewrite <- app_assoc.
  - intros [= <- <-]. split; [done|]. by left.
Qed.


(** X15: [openDoor] touches neither the notification storage nor the
    device token, never calls the push provider or the callback, and
    sends at most one request, to the door URL of the device with the
    parameters of the door.  When it returns, that request was sent
    with the bearer header of the token in the storage, and the value
    is whether the answer had status 200. *)
Theorem openDoor_result (device : string) (door : AccessDoor.t)
    (w w' : World) (r : result bool) :
  openDoor device door w = (w', r) ->
  credentialsStorage w' = credentialsStorage w /\
  persistentIdsStorage w' = persistentIdsStorage w /\
  deviceId w' = deviceId w /\
  (exists evs,
     trace w' = (trace w ++ evs)%list /\
     callbacks evs = [] /\ fcm_registrations evs = 0%nat /\
     (forall url, url <> directed_opendoor_url device -> posts_to url evs = []) /\
     (posts_to (directed_opendoor_url device) evs = [] \/
      posts_to (directed_opendoor_url device) evs
        = [getDirectOpenDoorParamsRequest door])) /\
  (forall opened, r = Ret opened ->
     exists (t : OAuthToken) (status : Z) (tr : list Event),
       oAuthTokenStorage w' = Some t /\
       trace w' =
         (tr ++ [EvPost (directed_opendoor_url device)
                   (getDirectOpenDoorParamsRequest door)
                   (getBearerAuthHeader t)])%list /\
       session_post (trace w') (directed_opendoor_url device)
         (getDirectOpenDoorParamsRequest door) (getBearerAuthHeader t) = Ret status /\
       opened = (status =? 200)).
Proof.
  unfold openDoor. cbv zeta. unfold bind at 1.
  destruct (__getOrRefreshOAuthToken w) as [w1 [t|e]] eqn:Htok;
    destruct (getOrRefreshOAuthToken_frame _ _ _ _ _ _ Htok)
      as (Hc & Hp & Hd & _ & _ & evs & Htr & Hcb & Hfcm & Hposts).
  - pose proof (getOrRefreshOAuthToken_returns_stored_aux w w1 t Htok) as Hstored.
    unfold bind, ret. rewrite post_run.
    set (request := EvPost (directed_opendoor_url device)
                      (getDirectOpenDoorParamsRequest door) (getBearerAuthHeader t)).
    assert (Hframe :
      exists evs',
        (trace w1 ++ [request])%list = (trace w ++ evs')%list /\
        callbacks evs' = [] /\ fcm_registrations evs' = 0%nat /\
        (forall url, url <> directed_opendoor_url device -> posts_to url evs' = []) /\
        (posts_to (directed_opendoor_url device) evs' = [] \/
         posts_to (directed_opendoor_url device) evs'
           = [getDirectOpenDoorParamsRequest door])).
    { exists (evs ++ [request])%list.
      rewrite Htr, callbacks_app, fcm_registrations_app, Hcb, Hfcm, <- app_assoc.
      repeat split; try done.
      - intros url Hurl. rewrite posts_to_app, Hposts.
        by apply posts_to_other.
      - right. unfold request. by rewrite posts_to_app, Hposts, posts_to_single. }
    destruct (session_post _ _ _ _) as [status|e] eqn:Hpost;
      intros [= <- <-]; simpl; repeat split; try done.
    intros opened [= <-]. by exists t, status, (trace w1).
  - intros [= <- <-]. repeat split; try done.
    exists evs. rewrite !Hposts. repeat split; try done. by left.
Qed.

(** X16: a client whose token storage is empty sends nothing: opening
    a door, asking for a device info and asking for the last picture
    all end with [AttributeError] before any request, and change
    nothing. *)
Theorem no_token_no_request (device : string) (door : AccessDoor.t) (s : Net) :
  oAuthTokenStorage (net_world s) = None ->
  openDoor device door (net_world s)
    = (net_world s, Raise (AttributeError "isExpired")) /\
  getDeviceInfo device s = (s, Fail (Core (AttributeError "isExpired"))) /\
  getLastPicture device s = (s, Fail (Core (AttributeError "isExpired"))).
Proof.
  intros Hempty.
  assert (Htok : __getOrRefreshOAuthToken (net_world s)
                 = (net_world s, Raise (AttributeError "isExpired"))).
  { unfold __getOrRefreshOAuthToken, Storage.retrieveOAuthToken, bind, gets, raise.
    by rewrite Hempty. }
  assert (Hbearer : bearer s = (s, Fail (Core (AttributeError "isExpired")))).
  { unfold bearer, bindN, liftM. rewrite Htok. simpl. by rewrite net_eta. }
  split; [|split].
  - unfold openDoor. cbv zeta. unfold bind. by rewrite Htok.
  - unfold getDeviceInfo, bindN. by rewrite Hbearer.
  - unfold getLastPicture, bindN at 1.
    unfold liftM at 1, self_deviceId, gets. simpl. rewrite net_eta.
    unfold bindN. by rewrite Hbearer.
Qed.

(** X17: [create_already_authed] gives a client exactly when the
    storage holds a token, and raises [RuntimeError] otherwise, without
    any exchange.  After a [create] that returned, the storage holds
    the token of the password exchange, so that [create_already_authed]
    on it gives a client; a [create] whose exchange failed leaves the
    storage as it was. *)
Theorem create_then_already_authed (username password : string) (s : Net) :
  (oAuthTokenStorage (net_world s) = None ->
     create_already_authed s
     = (s, Fail (RuntimeError "Provided IOAuthTokenStorage does not contain a token"))) /\
  (forall t, oAuthTokenStorage (net_world s) = Some t ->
     create_already_authed s
     = (mkNet (__init__ (net_world s)) (net_gets s), Done self)) /\
  (forall w' r, create username password (net_world s) = (w', r) ->
     match r with
     | Ret client =>
         client = self /\
         (exists token,
            OAuthService_createOAuthToken (trace (net_world s))
              (__getAuthHeader self) username password = Ret token /\
            oAuthTokenStorage w' = Some token) /\
         create_already_authed (mkNet w' (net_gets s))
           = (mkNet w' (net_gets s), Done self)
     | Raise e =>
         OAuthService_createOAuthToken (trace (net_world s)) (__getAuthHeader self)
           username password = Raise e /\
         oAuthTokenStorage w' = oAuthTokenStorage (net_world s) /\
         trace w' = trace (net_world s)
     end).
Proof.
  split; [|split].
  - intros Hempty. unfold create_already_authed, bindN, liftM,
      Storage.retrieveOAuthToken, gets. simpl. rewrite Hempty.
    unfold failN. by rewrite net_eta.
  - intros t Hstored. unfold create_already_authed, bindN, liftM,
      Storage.retrieveOAuthToken, gets. simpl. by rewrite Hstored.
  - intros w' r. unfold create, bind, modify, gets, lift, ret,
      Storage.storeOAuthToken. simpl.
    destruct (OAuthService_createOAuthToken _ _ _ _) as [token|e];
      intros [= <- <-]; [|done].
    simpl. split; [done|]. split; [by exists token | done].
Qed.

(** *** The last picture *)

(** [getLastPicture] up to its choice of the call log: with a valid
    token and a call registry that could be read and converted. *)
Lemma getLastPicture_run (device : string) (s : Net) (t : OAuthToken)
    (response : Response) (responseJson : json) (items : list json)
    (constructed : list CallLog) :
  has_valid_token (net_world s) t ->
  let request :=
    mkGet callregistry_url
      {[ "appToken" := deviceId (net_world s);
         "callRegistryType" := PStr "all" ]}
      (getBearerAuthHeader t) in
  let s1 := mkNet (net_world s) (net_gets s ++ [request]) in
  session_get (trace (net_world s)) (net_gets s) request = Done response ->
  response_json response = Done responseJson ->
  py_iter py_chars responseJson = Done items ->
  traverse CallLog_new items = Done constructed ->
  getLastPicture device s =
  match py_max_by getCallDate (List.filter (has_photo_of device) constructed) with
  | None => (s1, Done None)
  | Some latestCallLog =>
      let photo :=
        mkGet photocall_url {[ "photoId" := CallLog_photoId latestCallLog ]}
              (getBearerAuthHeader t) in
      (mkNet (net_world s) (net_gets s ++ [request; photo]),
       match session_get (trace (net_world s)) (net_gets s ++ [request]) photo with
       | Fail e => Fail e
       | Done response =>
           match response_json response with
           | Fail e => Fail e
           | Done parsed =>
               match json_getitem parsed "image" with
               | Fail e => Fail e
               | Done image =>
                   match json_getitem image "data" with
                   | Fail e => Fail e
                   | Done data =>
                       match b64decode data with
                       | Fail e => Fail e
                       | Done picture => Done (Some picture)
                       end
                   end
               end
           end
       end)
  end.
Proof.
  intros Hvalid request s1 Hresponse Hjson Hiter Hlogs.
  unfold getLastPicture, bindN at 1.
  unfold liftM at 1, self_deviceId, gets. simpl. rewrite net_eta.
  unfold bindN at 1. rewrite (bearer_valid _ _ Hvalid).
  unfold bindN at 1. rewrite get_run. fold request s1. rewrite Hresponse.
  unfold bindN at 1, liftN at 1. rewrite Hjson.
  unfold bindN at 1, liftN at 1. rewrite Hiter.
  unfold bindN at 1, liftN at 1. rewrite Hlogs.
  destruct (py_max_by getCallDate _) as [latest|]; [|done].
  unfold bindN at 1. rewrite (bearer_valid s1 t Hvalid).
  unfold bindN at 1. rewrite get_run.
  change (net_world s1) with (net_world s).
  change (net_gets s1) with (net_gets s ++ [request])%list.
  rewrite <- app_assoc. simpl.
  destruct (session_get (trace (net_world s)) (net_gets s ++ [request]) _)
    as [response2|e]; [|done].
  unfold bindN, liftN, retN.
  destruct (response_json response2) as [parsed|e]; [|done].
  destruct (json_getitem parsed "image") as [image|e]; [|done].
  destruct (json_getitem image "data") as [data|e]; [|done].
  by destruct (b64decode data).
Qed.

(** X12: with a valid token and a call registry that could be read,
    [getLastPicture] gives [None] after that one request when no call
    log of the device has a photo: there is no photo request. *)
Theorem getLastPicture_no_photo (device : string) (s : Net) (t : OAuthToken)
    (response : Response) (responseJson : json) (items : list json)
    (constructed : list CallLog) :
  has_valid_token (net_world s) t ->
  let request :=
    mkGet callregistry_url
      {[ "appToken" := deviceId (net_world s);
         "callRegistryType" := PStr "all" ]}
      (getBearerAuthHeader t) in
  session_get (trace (net_world s)) (net_gets s) request = Done response ->
  response_json response = Done responseJson ->
  py_iter py_chars responseJson = Done items ->
  traverse CallLog_new items = Done constructed ->
  (forall callLog, In callLog constructed ->
     CallLog_deviceId callLog <> PStr device \/ CallLog_photoId callLog = PNone) ->
  getLastPicture device s
  = (mkNet (net_world s) (net_gets s ++ [request]), Done None).
Proof.
  intros Hvalid request Hresponse Hjson Hiter Hlogs Hnone.
  rewrite (getLastPicture_run device s t response responseJson items constructed
             Hvalid Hresponse Hjson Hiter Hlogs).
  replace (List.filter (has_photo_of device) constructed) with (@nil CallLog);
    [done|].
  symmetry. clear Hlogs. induction constructed as [|callLog rest IH]; [done|].
  simpl. rewrite <- IH by (intros c Hc; apply Hnone; by right).
  replace (has_photo_of device callLog) with false; [done|].
  symmetry. unfold has_photo_of, py_eqb.
  destruct (Hnone callLog (or_introl eq_refl)) as [Hdev|Hphoto].
  - by rewrite bool_decide_eq_false_2.
  - rewrite Hphoto. apply andb_false_r.
Qed.

(** X13: otherwise the photo [getLastPicture] asks for is that of the
    latest call of the device that has one: of the call logs with the
    device's id and a photo id, in the order of the registry, it is the
    first of those with the greatest call date. *)
Theorem getLastPicture_latest (device : string) (s : Net) (t : OAuthToken)
    (response : Response) (responseJson : json) (items : list json)
    (constructed : list CallLog) (callLog : CallLog) :
  has_valid_token (net_world s) t ->
  let request :=
    mkGet callregistry_url
      {[ "appToken" := deviceId (net_world s);
         "callRegistryType" := PStr "all" ]}
      (getBearerAuthHeader t) in
  session_get (trace (net_world s)) (net_gets s) request = Done response ->
  response_json response = Done responseJson ->
  py_iter py_chars responseJson = Done items ->
  traverse CallLog_new items = Done constructed ->
  In callLog constructed ->
  CallLog_deviceId callLog = PStr device ->
  CallLog_photoId callLog <> PNone ->
  exists (latest : CallLog) (before behind : list CallLog),
    List.filter (has_photo_of device) constructed
      = (before ++ latest :: behind)%list /\
    CallLog_deviceId latest = PStr device /\
    CallLog_photoId latest <> PNone /\
    (forall other, In other before -> getCallDate other < getCallDate latest) /\
    (forall other, In other behind -> getCallDate other <= getCallDate latest) /\
    net_gets (getLastPicture device s).1 =
      (net_gets s ++
       [request;
        mkGet photocall_url {[ "photoId" := CallLog_photoId latest ]}
              (getBearerAuthHeader t)])%list /\
    net_world (getLastPicture device s).1 = net_world s.
Proof.
  intros Hvalid request Hresponse Hjson Hiter Hlogs Hin Hdev Hphoto.
  rewrite (getLastPicture_run device s t response responseJson items constructed
             Hvalid Hresponse Hjson Hiter Hlogs).
  pose proof (py_max_by_spec getCallDate
                (List.filter (has_photo_of device) constructed)) as Hmax.
  destruct (py_max_by getCallDate _) as [latest|].
  - destruct Hmax as (before & behind & Hsplit & Hbefore & Hbehind).
    exists latest, before, behind. split; [done|].
    assert (Hlatest : has_photo_of device latest = true).
    { assert (In latest (List.filter (has_photo_of device) constructed)) as Hl.
      { rewrite Hsplit. apply in_or_app. right. by left. }
      by apply filter_In in Hl as [_ Hl]. }
    unfold has_photo_of, py_eqb in Hlatest.
    apply andb_true_iff in Hlatest as [Hd Hp].
    apply bool_decide_eq_true in Hd. apply negb_true_iff in Hp.
    apply bool_decide_eq_false in Hp. by repeat split.
  - exfalso.
    assert (In callLog (List.filter (has_photo_of device) constructed)) as Hl.
    { apply filter_In. split; [done|]. unfold has_photo_of, py_eqb.
      rewrite Hdev, bool_decide_eq_true_2 by done.
      by rewrite bool_decide_eq_false_2. }
    by rewrite Hmax in Hl.
Qed.

Section WithSetup.

Variable lower : string -> string.
Variable DOMAIN : string.
Variable CONF_SENDER_ID : string.
Variable CONF_API_KEY : string.
Variable CONF_PROJECT_ID : string.
Variable CONF_APP_ID : string.
Variable CONF_PACKAGE_NAME : string.

(** X11: a device whose info request is answered with a status other
    than 200 stops the setup of the binary sensor platform: the step
    for its pairing raises [AttributeError] after that one request,
    whatever the configuration and the doors of the pairing. *)
Theorem binary_sensor_setup_status_not_200
    (data : dict) (pairing : Pairing.t) (s : Net) (t : OAuthToken)
    (response : Response) :
  has_valid_token (net_world s) t ->
  let request :=
    mkGet (device_url (Pairing.deviceId pairing)) ∅ (getBearerAuthHeader t) in
  session_get (trace (net_world s)) (net_gets s) request = Done response ->
  status response <> 200 ->
  binary_sensors_of lower DOMAIN CONF_SENDER_ID CONF_API_KEY CONF_PROJECT_ID
    CONF_APP_ID CONF_PACKAGE_NAME getDeviceInfo data pairing s
  = (mkNet (net_world s) (net_gets s ++ [request]),
     Fail (Core (AttributeError "type"))).
Proof.
  intros Hvalid request Hresponse Hstatus.
  unfold binary_sensors_of, bindN at 1.
  unfold getDeviceInfo, bindN at 1. rewrite (bearer_valid _ _ Hvalid).
  unfold bindN at 1. rewrite get_run. fold request. rewrite Hresponse.
  by apply Z.eqb_neq in Hstatus as ->.
Qed.

End WithSetup.

End RestProperties.

(** ** More on the listener and on registration *)

Section MoreProperties.

Variable shouldAcknowledge : INotification -> bool.
Variable getFcmMessageId : INotification -> pyval.
Variable isExpired : Z -> OAuthToken -> bool.
Variable getBearerAuthHeader : OAuthToken -> dict.
Variable OAuthService_updateOAuthToken :
  list Event -> string -> OAuthToken -> result OAuthToken.
Variable session_post : list Event -> string -> dict -> dict -> result Z.
Variable AndroidFCM_register :
  list Event -> string -> string -> Z -> string -> string -> string ->
  result Credentials.
Variable self : Config.
Variable resume_after_error : bool.
Variable listener_run_time : option Z.

Local Abbreviation registerAppToken :=
  (registerAppToken isExpired getBearerAuthHeader
     OAuthService_updateOAuthToken session_post AndroidFCM_register self).
Local Abbreviation on_notification :=
  (on_notification shouldAcknowledge getFcmMessageId isExpired
     getBearerAuthHeader OAuthService_updateOAuthToken session_post self).
Local Abbreviation listen :=
  (listen shouldAcknowledge getFcmMessageId isExpired
     getBearerAuthHeader OAuthService_updateOAuthToken session_post self
     resume_after_error).
Local Abbreviation startNotificationListener :=
  (startNotificationListener isExpired getBearerAuthHeader
     OAuthService_updateOAuthToken session_post AndroidFCM_register self
     listener_run_time).

(** Once an id counts as a duplicate it keeps doing so: the stored ids
    only grow. *)
Lemma on_notification_keeps_duplicates (notification : dict) (dm : DataMessage)
    (w w' : World) r (idstr : string) :
  on_notification notification dm w = (w', r) ->
  is_duplicate idstr (persistentIdsStorage w) = true ->
  is_duplicate idstr (persistentIdsStorage w') = true.
Proof.
  intros Hstep Hdup.
  destruct (on_notification_step _ _ _ _ _ _ _ _ _ _ _ _ Hstep)
    as [[_ ->]|(_ & Hids & _)]; [done|].
  by rewrite Hids, is_duplicate_snoc, Hdup.
Qed.

Lemma on_notification_makes_duplicate (notification : dict) (dm : DataMessage)
    (w w' : World) r :
  on_notification notification dm w = (w', r) ->
  is_duplicate (persistent_id dm) (persistentIdsStorage w') = true.
Proof.
  intros Hstep.
  destruct (on_notification_step _ _ _ _ _ _ _ _ _ _ _ _ Hstep)
    as [[Hdup ->]|(_ & Hids & _)]; [done|].
  rewrite Hids, is_duplicate_snoc, str_in_refl. apply orb_true_r.
Qed.

(** X18: a message is processed once: however the first processing of
    a message ended, with the callback, with an exception of the
    decoder or of the acknowledgment, or by dropping it, every later
    message with the same persistent id is dropped, whatever its
    payload. *)
Theorem on_notification_once (notification notification' : dict)
    (dm dm' : DataMessage) (w w' : World) (r : result unit) :
  on_notification notification dm w = (w', r) ->
  persistent_id dm' = persistent_id dm ->
  on_notification notification' dm' w' = (w', Ret tt).
Proof.
  intros Hstep Hid. apply on_notification_duplicate. rewrite Hid.
  by apply (on_notification_makes_duplicate _ _ _ _ _ Hstep).
Qed.

Lemma listen_keeps_duplicates (inbound : list (dict * DataMessage))
    (w w' : World) r (idstr : string) :
  listen inbound w = (w', r) ->
  is_duplicate idstr (persistentIdsStorage w) = true ->
  is_duplicate idstr (persistentIdsStorage w') = true.
Proof.
  revert w. induction inbound as [|[notification dm] rest IH]; intros w; simpl.
  - by intros [= <- <-].
  - destruct (on_notification notification dm w) as [w1 r1] eqn:Hstep.
    intros Hrun Hdup.
    pose proof (on_notification_keeps_duplicates _ _ _ _ _ _ Hstep Hdup) as Hdup1.
    destruct r1 as [[]|e]; [by apply (IH w1)|].
    destruct resume_after_error; [by apply (IH w1)|].
    by injection Hrun as <- <-.
Qed.

Lemma listen_all_duplicates (inbound : list (dict * DataMessage)) (w w' : World) :
  listen inbound w = (w', Ret tt) ->
  forall m, In m inbound ->
    is_duplicate (persistent_id m.2) (persistentIdsStorage w') = true.
Proof.
  revert w. induction inbound as [|[notification dm] rest IH]; intros w; simpl.
  - by intros _ m [].
  - destruct (on_notification notification dm w) as [w1 r1] eqn:Hstep.
    intros Hrun m [<-|Hin].
    + assert (Hrest : listen rest w1 = (w', Ret tt)).
      { destruct r1 as [[]|e]; [done|]. by destruct resume_after_error. }
      apply (listen_keeps_duplicates _ _ _ _ _ Hrest).
      by apply (on_notification_makes_duplicate _ _ _ _ _ Hstep).
    + assert (Hrest : listen rest w1 = (w', Ret tt)).
      { destruct r1 as [[]|e]; [done|]. by destruct resume_after_error. }
      by apply (IH w1).
Qed.

Lemma listen_duplicates_only (replay : list (dict * DataMessage)) (w : World) :
  (forall m, In m replay ->
     is_duplicate (persistent_id m.2) (persistentIdsStorage w) = true) ->
  listen replay w = (w, Ret tt).
Proof.
  induction replay as [|[notification dm] rest IH]; intros Hall; simpl; [done|].
  rewrite on_notification_duplicate by (apply (Hall (notification, dm)); by left).
  apply IH. intros m Hm. apply Hall. by right.
Qed.

(** X19: redelivery is absorbed.  After the listener got through a
    batch of messages (it returned; with a receiver that goes on after
    errors it always does), messages that carry persistent ids of that
    batch, in any order and number and with any payload, are all
    dropped: nothing is stored, sent or handed to the callback. *)
Theorem listen_replay_dropped (inbound replay : list (dict * DataMessage))
    (w w' : World) :
  listen inbound w = (w', Ret tt) ->
  (forall m, In m replay ->
     exists m', In m' inbound /\ persistent_id m.2 = persistent_id m'.2) ->
  listen replay w' = (w', Ret tt).
Proof.
  intros Hrun Hreplay. apply listen_duplicates_only.
  intros m Hm. destruct (Hreplay m Hm) as (m' & Hm' & ->).
  by apply (listen_all_duplicates _ _ _ Hrun).
Qed.

(** [registerAppToken] on a client without stored credentials and
    without device token, step by step. *)
Lemma registerAppToken_fresh_run (active : bool) (w : World) :
  credentialsStorage w = None ->
  deviceId w = PNone ->
  let call :=
    EvFCMRegister (apiKey self) (projectId self) (senderId self) (appId self)
      (packageName self) (buildPackageCert self) in
  registerAppToken active w =
  match AndroidFCM_register (trace w ++ [call]) (apiKey self) (projectId self)
          (senderId self) (appId self) (packageName self) (buildPackageCert self)
  with
  | Raise e => (log call w, Raise e)
  | Ret credentials =>
      let w1 := log (EvStoreCredentials credentials)
                  (set_credentialsStorage (Some credentials) (log call w)) in
      match fcm_token credentials with
      | Raise e => (w1, Raise e)
      | Ret token =>
          bind (gets deviceId) (fun d =>
            bind (__getOrRefreshOAuthToken isExpired OAuthService_updateOAuthToken self)
              (fun oAuthToken =>
                 bind (post session_post apptoken_url (apptoken_json d active)
                         (getBearerAuthHeader oAuthToken))
                      (fun status => ret (status =? 200))))
            (set_deviceId token w1)
      end
  end.
Proof.
  intros Hc Hd call. unfold registerAppToken.
  unfold bind at 1, gets. rewrite Hd. simpl.
  unfold bind at 1. unfold bind at 1. unfold bind at 1.
  unfold Storage.retrieveCredentials, gets. rewrite Hc.
  unfold bind at 1. unfold register, bind at 1, modify.
  unfold bind at 1, gets, lift. simpl. fold call.
  destruct (AndroidFCM_register _ _ _ _ _ _ _) as [credentials|e]; [|done].
  unfold Storage.storeCredentials, bind at 1, modify. unfold ret at 1.
  unfold bind at 1, lift. by destruct (fcm_token credentials).
Qed.

(** X20: first registration.  A client without stored credentials and
    without a device token calls the push provider once, with its
    configuration and the package certificate, before anything else.
    When the provider answers with credentials that hold a token, these
    are stored, the token becomes the device token, and every app-token
    request carries it; when the provider raises, so does
    [registerAppToken]: nothing is stored, nothing is sent, and the
    client still holds no device token. *)
Theorem registerAppToken_first_registration (active : bool) (w : World) :
  credentialsStorage w = None ->
  deviceId w = PNone ->
  let call :=
    EvFCMRegister (apiKey self) (projectId self) (senderId self) (appId self)
      (packageName self) (buildPackageCert self) in
  let answer :=
    AndroidFCM_register (trace w ++ [call]) (apiKey self) (projectId self)
      (senderId self) (appId self) (packageName self) (buildPackageCert self) in
  (forall e, answer = Raise e ->
     registerAppToken active w = (log call w, Raise e)) /\
  (forall credentials token,
     answer = Ret credentials ->
     fcm_token credentials = Ret token ->
     exists w' r evs,
       registerAppToken active w = (w', r) /\
       credentialsStorage w' = Some credentials /\
       deviceId w' = token /\
       trace w' = (trace w ++ call :: EvStoreCredentials credentials :: evs)%list /\
       fcm_registrations (trace w') = S (fcm_registrations (trace w)) /\
       Forall (fun json => json = apptoken_json token active)
              (posts_to apptoken_url evs)).
Proof.
  intros Hc Hd call answer.
  pose proof (registerAppToken_fresh_run active w Hc Hd) as Hrun.
  cbv zeta in Hrun. fold call answer in Hrun. split.
  - intros e He. by rewrite Hrun, He.
  - intros credentials token Hanswer Htoken. rewrite Hrun, Hanswer, Htoken.
    match goal with |- context [bind (gets deviceId) ?k ?w0] =>
      destruct (bind (gets deviceId) k w0) as [w' r] eqn:Hrest end.
    destruct (apptoken_request_frame _ _ _ _ _ _ _ _ _ Hrest)
      as (Hc' & Hd' & evs & Htr & Hfcm & Hposts).
    simpl in Hc', Hd', Htr, Hposts. exists w', r, evs. split; [done|].
    rewrite Hc', Hd', Htr. rewrite <- !app_assoc. simpl.
    repeat split; try done.
    change (call :: EvStoreCredentials credentials :: evs)
      with ([call; EvStoreCredentials credentials] ++ evs)%list.
    rewrite !fcm_registrations_app, Hfcm.
    unfold fcm_registrations at 2. simpl. lia.
Qed.

(** X21: stored credentials that lack the provider's token (no ["fcm"]
    entry, or none for ["token"] in it) make [registerAppToken] raise
    [KeyError] on a client without device token: no request is sent,
    the provider is not called, and nothing changes, so that every
    further call ends the same way. *)
Theorem registerAppToken_malformed_credentials
    (active : bool) (credentials : Credentials) (w : World) (e : exn) :
  credentialsStorage w = Some credentials ->
  deviceId w = PNone ->
  fcm_token credentials = Raise e ->
  registerAppToken active w = (w, Raise e) /\
  (e = KeyError "fcm" \/ e = KeyError "token").
Proof.
  intros Hc Hd Htoken. split.
  - unfold registerAppToken.
    unfold bind at 1, gets. rewrite Hd. simpl.
    unfold bind at 1. unfold bind at 1. unfold bind at 1.
    unfold Storage.retrieveCredentials, gets. rewrite Hc.
    unfold ret at 1. unfold bind at 1, lift. by rewrite Htoken.
  - unfold fcm_token, dict_getitem in Htoken.
    repeat case_match; naive_solver.
Qed.

(** X22: [startNotificationListener] with stored credentials sends
    nothing and registers nothing: it only starts the thread.  Without
    stored credentials it first runs [registerAppToken(True)]; the
    thread is started whenever that call returns, also when it returns
    [False] because the app-token request was refused, and is not
    started when the call raises. *)
Theorem startNotificationListener_registers_first (w : World) :
  let thread (w1 : World) :=
    mkThread (option_map (fun d => clock w1 + d) listener_run_time) in
  match credentialsStorage w with
  | Some _ =>
      startNotificationListener w = (set_listenerThread (Some (thread w)) w, Ret tt)
  | None =>
      forall w1 r, registerAppToken true w = (w1, r) ->
        match r with
        | Ret registered =>
            startNotificationListener w
            = (set_listenerThread (Some (thread w1)) w1, Ret tt)
        | Raise e =>
            startNotificationListener w = (w1, Raise e)
        end
  end.
Proof.
  intros thread. destruct (credentialsStorage w) eqn:Hc.
  - unfold startNotificationListener, bind at 1, Storage.retrieveCredentials, gets.
    by rewrite Hc.
  - intros w1 r Hreg.
    assert (Hrun : startNotificationListener w =
                   match r with
                   | Ret _ => (set_listenerThread (Some (thread w1)) w1, Ret tt)
                   | Raise e => (w1, Raise e)
                   end).
    { unfold startNotificationListener, bind at 1, Storage.retrieveCredentials, gets.
      rewrite Hc. unfold bind at 1. unfold bind at 1. rewrite Hreg.
      by destruct r. }
    by destruct r.
Qed.

End MoreProperties.

(** * The rest of the package on concrete inputs *)

Example home_lower : Home.lower "D1_ZERO_call_status" = "d1_zero_call_status".
Proof. reflexivity. Qed.

Example home_b64decode :
  Home.b64decode (JStr (Base64.b64encode "client:secret")) = Done "client:secret" /\
  Home.b64decode (JStr "aGVsbG8=") = Done "hello" /\
  Home.b64decode (JStr "a") = Fail (Core (ExternalError "binascii.Error")).
Proof. repeat split; vm_compute; reflexivity. Qed.

Example home_getLastPicture :
  (Home.client_getLastPicture "D1" Home.net).2 = Done (Some "hello") /\
  List.map get_params (net_gets (Home.client_getLastPicture "D1" Home.net).1)
  = [ {[ "appToken" := PNone; "callRegistryType" := PStr "all" ]};
      {[ "photoId" := PStr "ph3" ]} ].
Proof. split; vm_compute; reflexivity. Qed.

Example home_getDeviceInfo :
  (Home.client_getDeviceInfo "D1" Home.net).2 = Done (Some Home.info1) /\
  (Home.client_getDeviceInfo "d2" Home.net).2 = Done None.
Proof. split; vm_compute; reflexivity. Qed.

(** ** The properties at the sample home *)

Lemma getWirelessSignalText_never_unknown_witness :
  In "good" [SIGNAL_TERRIBLE; SIGNAL_BAD; SIGNAL_WEAK; SIGNAL_GOOD; SIGNAL_EXCELENT].
Proof.
  apply (getWirelessSignalText_never_unknown (PInt 3)). reflexivity.
Defined.

Lemma wifi_sensor_value_in_options_witness :
  exists s,
    BlueConWifiStrenghtSensor.__init__ Home.lower Home.DOMAIN "D1" (Some Home.info2)
      = Done s /\
    BlueConWifiStrenghtSensor._attr_options s = wifi_options /\
    (BlueConWifiStrenghtSensor._attr_native_value s = PNone \/
     exists text, BlueConWifiStrenghtSensor._attr_native_value s = PStr text /\
                  In text (BlueConWifiStrenghtSensor._attr_options s)).
Proof.
  eexists. split; [reflexivity|].
  apply (proj1 (wifi_sensor_value_in_options Home.lower Home.DOMAIN
                  Home.getDeviceInfo_all) "D1" (Some Home.info2)).
  reflexivity.
Defined.

Lemma call_sensor_follows_last_signal_witness :
  exists s,
    BlueConCallStatusBinarySensor.__init__ Home.lower Home.DOMAIN "D1" "ZERO"
      (PInt 1) (PInt 0) (PInt 2) (Some Home.info1) = Done s /\
    let s' := List.fold_left BlueConCallStatusBinarySensor.dispatch
                [BlueConCallStatusBinarySensor.SIGNAL_CALL_STARTED;
                 BlueConCallStatusBinarySensor.SIGNAL_CALL_ENDED;
                 BlueConCallStatusBinarySensor.SIGNAL_CALL_STARTED] s in
    BlueConCallStatusBinarySensor._attr_is_on s' = true /\
    BlueConCallStatusBinarySensor.unique_id s' = BlueConCallStatusBinarySensor.unique_id s /\
    BlueConCallStatusBinarySensor.deviceId s' = "D1".
Proof.
  eexists. split; [reflexivity|].
  apply (call_sensor_follows_last_signal Home.lower Home.DOMAIN "D1" "ZERO"
           (PInt 1) (PInt 0) (PInt 2) (Some Home.info1) _
           [BlueConCallStatusBinarySensor.SIGNAL_CALL_STARTED;
            BlueConCallStatusBinarySensor.SIGNAL_CALL_ENDED;
            BlueConCallStatusBinarySensor.SIGNAL_CALL_STARTED]).
  reflexivity.
Defined.

Lemma entities_share_device_info_witness :
  exists call connection wifi,
    BlueConCallStatusBinarySensor.__init__ Home.lower Home.DOMAIN "D1" "ZERO"
      (PInt 1) (PInt 0) (PInt 2) (Some Home.info1) = Done call /\
    BlueConConnectionStatusBinarySensor.__init__ Home.lower Home.DOMAIN "D1"
      (Some Home.info1) = Done connection /\
    BlueConWifiStrenghtSensor.__init__ Home.lower Home.DOMAIN "D1" (Some Home.info1)
      = Done wifi /\
    BlueConCallStatusBinarySensor.device_info Home.DOMAIN Home.DEVICE_MANUFACTURER
      Home.HASS_BLUECON_VERSION call =
    BlueConConnectionStatusBinarySensor.device_info Home.DOMAIN
      Home.DEVICE_MANUFACTURER Home.HASS_BLUECON_VERSION connection /\
    BlueConWifiStrenghtSensor.device_info Home.DOMAIN Home.DEVICE_MANUFACTURER
      Home.HASS_BLUECON_VERSION wifi =
    BlueConConnectionStatusBinarySensor.device_info Home.DOMAIN
      Home.DEVICE_MANUFACTURER Home.HASS_BLUECON_VERSION connection /\
    identifiers (BlueConConnectionStatusBinarySensor.device_info Home.DOMAIN
                   Home.DEVICE_MANUFACTURER Home.HASS_BLUECON_VERSION connection)
      = [(Home.DOMAIN, "D1")].
Proof.
  eexists _, _, _.
  split; [reflexivity|]. split; [reflexivity|]. split; [reflexivity|].
  apply (entities_share_device_info Home.lower Home.DOMAIN Home.DEVICE_MANUFACTURER
           Home.HASS_BLUECON_VERSION "D1" "ZERO" (PInt 1) (PInt 0) (PInt 2)
           (Some Home.info1)); reflexivity.
Defined.

Lemma wifi_sensor_shares_connection_id_witness :
  exists connection wifi,
    BlueConConnectionStatusBinarySensor.__init__ Home.lower Home.DOMAIN "D1"
      (Some Home.info1) = Done connection /\
    BlueConWifiStrenghtSensor.__init__ Home.lower Home.DOMAIN "D1" (Some Home.info1)
      = Done wifi /\
    BlueConWifiStrenghtSensor.unique_id wifi =
      BlueConConnectionStatusBinarySensor.unique_id connection /\
    BlueConWifiStrenghtSensor._attr_unique_id wifi =
      BlueConConnectionStatusBinarySensor._attr_unique_id connection /\
    BlueConWifiStrenghtSensor.unique_id wifi =
      Home.lower (Home.DOMAIN +:+ "." +:+ Home.lower ("D1" +:+ "_connection_status")).
Proof.
  eexists _, _. split; [reflexivity|]. split; [reflexivity|].
  apply (wifi_sensor_shares_connection_id Home.lower Home.DOMAIN "D1"
           (Some Home.info1) (Some Home.info1)); reflexivity.
Defined.

Lemma update_without_device_info_witness :
  exists connection wifi,
    BlueConConnectionStatusBinarySensor.__init__ Home.lower Home.DOMAIN "d2"
      (Some Home.info1) = Done connection /\
    BlueConWifiStrenghtSensor.__init__ Home.lower Home.DOMAIN "d2" (Some Home.info1)
      = Done wifi /\
    (exists connection',
       BlueConConnectionStatusBinarySensor.async_update Home.getDeviceInfo_first
         connection Home.net = (Home.net, Done connection') /\
       BlueConConnectionStatusBinarySensor._attr_is_on connection' = is_connected None /\
       BlueConConnectionStatusBinarySensor.unique_id connection'
         = BlueConConnectionStatusBinarySensor.unique_id connection /\
       BlueConConnectionStatusBinarySensor.deviceId connection'
         = BlueConConnectionStatusBinarySensor.deviceId connection) /\
    BlueConWifiStrenghtSensor.async_update Home.getDeviceInfo_first wifi Home.net
      = (Home.net, Fail (Core (AttributeError "wirelessSignal"))).
Proof.
  eexists _, _. split; [reflexivity|]. split; [reflexivity|].
  match goal with
  | |- _ /\ BlueConWifiStrenghtSensor.async_update _ ?wifi _ = _ =>
      match goal with
      | |- (exists _, BlueConConnectionStatusBinarySensor.async_update _ ?connection _
                      = _ /\ _) /\ _ =>
          destruct (update_without_device_info Home.getDeviceInfo_first
                      connection wifi Home.net Home.net None) as [Hconnection Hwifi]
      end
  end.
  split; [apply Hconnection | apply Hwifi]; reflexivity.
Defined.

Lemma binary_sensor_setup_entities_witness :
  exists (s' : Net) (sensors : list BinarySensor),
    binary_sensor_async_setup_entry Home.lower Home.DOMAIN Home.CONF_SENDER_ID
      Home.CONF_API_KEY Home.CONF_PROJECT_ID Home.CONF_APP_ID Home.CONF_PACKAGE_NAME
      Home.getPairings Home.getDeviceInfo_all Home.configured Home.net
      = (s', Done sensors) /\
    exists (s0 : Net) (pairings : list Pairing.t),
      Home.getPairings Home.net = (s0, Done pairings) /\
      connection_devices sensors = List.map Pairing.deviceId pairings /\
      call_doors sensors =
        if notifications_configured Home.CONF_SENDER_ID Home.CONF_API_KEY
             Home.CONF_PROJECT_ID Home.CONF_APP_ID Home.CONF_PACKAGE_NAME
             Home.configured
        then doors_of pairings else [].
Proof.
  eexists _, _. split; [reflexivity|].
  eapply (binary_sensor_setup_entities Home.lower Home.DOMAIN Home.CONF_SENDER_ID
           Home.CONF_API_KEY Home.CONF_PROJECT_ID Home.CONF_APP_ID
           Home.CONF_PACKAGE_NAME Home.getPairings Home.getDeviceInfo_all
           Home.configured Home.net).
  reflexivity.
Defined.

Example home_binary_sensor_setup :
  let entities (data : dict) :=
    match (binary_sensor_async_setup_entry Home.lower Home.DOMAIN Home.CONF_SENDER_ID
             Home.CONF_API_KEY Home.CONF_PROJECT_ID Home.CONF_APP_ID
             Home.CONF_PACKAGE_NAME Home.getPairings Home.getDeviceInfo_all data
             Home.net).2 with
    | Done sensors => Some (connection_devices sensors, call_doors sensors)
    | Fail _ => None
    end in
  entities Home.configured
    = Some (["D1"; "d2"], [("D1", "ZERO"); ("D1", "ONE"); ("d2", "ZERO")]) /\
  entities Home.not_configured = Some (["D1"; "d2"], []).
Proof. split; vm_compute; reflexivity. Qed.

Lemma binary_sensor_setup_needs_device_info_witness :
  binary_sensor_async_setup_entry Home.lower Home.DOMAIN Home.CONF_SENDER_ID
    Home.CONF_API_KEY Home.CONF_PROJECT_ID Home.CONF_APP_ID Home.CONF_PACKAGE_NAME
    Home.getPairings Home.getDeviceInfo_first Home.configured Home.net
  = (Home.net, Fail (Core (AttributeError "type"))).
Proof.
  eapply (binary_sensor_setup_needs_device_info Home.lower Home.DOMAIN
            Home.CONF_SENDER_ID Home.CONF_API_KEY Home.CONF_PROJECT_ID
            Home.CONF_APP_ID Home.CONF_PACKAGE_NAME Home.getPairings
            Home.getDeviceInfo_first Home.configured [Home.pairing1] []
            Home.pairing2 Home.net Home.net Home.net Home.net);
    reflexivity.
Defined.

Lemma sensor_setup_entities_witness :
  sensor_async_setup_entry Home.lower Home.DOMAIN Home.getPairings
    Home.getDeviceInfo_first Home.net
  = (Home.net, Fail (Core (AttributeError "wirelessSignal"))).
Proof.
  eapply (proj2 (sensor_setup_entities Home.lower Home.DOMAIN Home.getPairings
                   Home.getDeviceInfo_first Home.net)
            [Home.pairing1] [] Home.pairing2 Home.net Home.net Home.net);
    reflexivity.
Defined.

Lemma getDeviceInfo_by_status_witness :
  Home.client_getDeviceInfo "d2" Home.net
  = (mkNet Sample.world
       [mkGet (device_url "d2") ∅ (Sample.getBearerAuthHeader Sample.fresh)],
     Done None).
Proof.
  refine (proj1 (getDeviceInfo_by_status Sample.isExpired Sample.getBearerAuthHeader
                   Sample.refresh_ok Sample.config Home.DeviceInfo_new
                   Home.session_get "d2" Home.net Sample.fresh
                   (mkResponse 404 (Done JNull) (Done JNull)) _ _) _).
  - split; reflexivity.
  - reflexivity.
  - discriminate.
Defined.

Lemma binary_sensor_setup_status_not_200_witness :
  binary_sensors_of Home.lower Home.DOMAIN Home.CONF_SENDER_ID Home.CONF_API_KEY
    Home.CONF_PROJECT_ID Home.CONF_APP_ID Home.CONF_PACKAGE_NAME
    Home.client_getDeviceInfo Home.configured Home.pairing2 Home.net
  = (mkNet Sample.world
       [mkGet (device_url "d2") ∅ (Sample.getBearerAuthHeader Sample.fresh)],
     Fail (Core (AttributeError "type"))).
Proof.
  refine (binary_sensor_setup_status_not_200 Sample.isExpired
            Sample.getBearerAuthHeader Sample.refresh_ok Sample.config
            Home.DeviceInfo_new Home.session_get Home.lower Home.DOMAIN
            Home.CONF_SENDER_ID Home.CONF_API_KEY Home.CONF_PROJECT_ID
            Home.CONF_APP_ID Home.CONF_PACKAGE_NAME Home.configured Home.pairing2
            Home.net Sample.fresh (mkResponse 404 (Done JNull) (Done JNull)) _ _ _).
  - split; reflexivity.
  - reflexivity.
  - discriminate.
Defined.

Lemma getLastPicture_no_photo_witness :
  Home.client_getLastPicture "d3" Home.net
  = (mkNet Sample.world
       [mkGet callregistry_url
          {[ "appToken" := PNone; "callRegistryType" := PStr "all" ]}
          (Sample.getBearerAuthHeader Sample.fresh)],
     Done None).
Proof.
  refine (getLastPicture_no_photo Sample.isExpired Sample.getBearerAuthHeader
            Sample.refresh_ok Sample.config Home.CallLog Home.CallLog_new
            Home.call_device Home.call_photo Home.call_date Home.b64decode
            Home.py_chars Home.session_get "d3" Home.net Sample.fresh
            (mkResponse 200 (Done Home.registry) (Done Home.registry))
            Home.registry _ Home.call_logs _ _ _ _ _ _).
  - split; reflexivity.
  - reflexivity.
  - reflexivity.
  - reflexivity.
  - reflexivity.
  - intros callLog [<-|[<-|[<-|[<-|[]]]]]; left; discriminate.
Defined.

Lemma getLastPicture_latest_witness :
  exists (latest : Home.CallLog) (before behind : list Home.CallLog),
    List.filter (has_photo_of Home.CallLog Home.call_device Home.call_photo "D1")
      Home.call_logs = (before ++ latest :: behind)%list /\
    Home.call_device latest = PStr "D1" /\
    Home.call_photo latest <> PNone /\
    (forall other, In other before -> Home.call_date other < Home.call_date latest) /\
    (forall other, In other behind -> Home.call_date other <= Home.call_date latest) /\
    net_gets (Home.client_getLastPicture "D1" Home.net).1 =
      (net_gets Home.net ++
       [mkGet callregistry_url
          {[ "appToken" := deviceId (net_world Home.net);
             "callRegistryType" := PStr "all" ]}
          (Sample.getBearerAuthHeader Sample.fresh);
        mkGet photocall_url {[ "photoId" := Home.call_photo latest ]}
              (Sample.getBearerAuthHeader Sample.fresh)])%list /\
    net_world (Home.client_getLastPicture "D1" Home.net).1 = net_world Home.net.
Proof.
  refine (getLastPicture_latest Sample.isExpired Sample.getBearerAuthHeader
            Sample.refresh_ok Sample.config Home.CallLog Home.CallLog_new
            Home.call_device Home.call_photo Home.call_date Home.b64decode
            Home.py_chars Home.session_get "D1" Home.net Sample.fresh
            (mkResponse 200 (Done Home.registry) (Done Home.registry))
            Home.registry _ Home.call_logs
            (Home.mkCallLog (PStr "D1") (PStr "ph1") 10) _ _ _ _ _ _ _ _).
  - split; reflexivity.
  - reflexivity.
  - reflexivity.
  - reflexivity.
  - reflexivity.
  - left. reflexivity.
  - reflexivity.
  - discriminate.
Defined.

Lemma getOrRefreshOAuthToken_returns_stored_witness :
  let run := Sample.client_getOrRefreshOAuthToken Sample.refresh_ok Sample.world_stale in
  oAuthTokenStorage run.1 = Some Sample.fresh /\
  ((oAuthTokenStorage Sample.world_stale = Some Sample.fresh /\
    Sample.isExpired (clock Sample.world_stale) Sample.fresh = false /\
    run.1 = Sample.world_stale) \/
   (exists old,
      oAuthTokenStorage Sample.world_stale = Some old /\
      Sample.isExpired (clock Sample.world_stale) old = true /\
      Sample.refresh_ok
        (trace Sample.world_stale
           ++ [EvUpdateOAuthToken (__getAuthHeader Sample.config) old])
        (__getAuthHeader Sample.config) old = Ret Sample.fresh /\
      trace run.1 =
        (trace Sample.world_stale
           ++ [EvUpdateOAuthToken (__getAuthHeader Sample.config) old;
               EvStoreOAuthToken Sample.fresh])%list)).
Proof.
  intros run.
  apply (getOrRefreshOAuthToken_returns_stored Sample.isExpired Sample.refresh_ok
           Sample.config Sample.world_stale run.1 Sample.fresh).
  reflexivity.
Defined.

Lemma no_token_no_request_witness :
  Home.client_openDoor "D1" Home.door1 (net_world Home.net_signed_out)
    = (net_world Home.net_signed_out, Raise (AttributeError "isExpired")) /\
  Home.client_getDeviceInfo "D1" Home.net_signed_out
    = (Home.net_signed_out, Fail (Core (AttributeError "isExpired"))) /\
  Home.client_getLastPicture "D1" Home.net_signed_out
    = (Home.net_signed_out, Fail (Core (AttributeError "isExpired"))).
Proof.
  apply (no_token_no_request Sample.isExpired Sample.getBearerAuthHeader
           Sample.refresh_ok (Sample.post_status 200) Sample.config
           Home.getDirectOpenDoorParamsRequest Home.DeviceInfo_new Home.CallLog
           Home.CallLog_new Home.call_device Home.call_photo Home.call_date
           Home.b64decode Home.py_chars Home.session_get "D1" Home.door1
           Home.net_signed_out).
  reflexivity.
Defined.

Lemma openDoor_result_witness :
  let run := Home.client_openDoor "D1" Home.door1 Sample.world_stale in
  credentialsStorage run.1 = credentialsStorage Sample.world_stale /\
  persistentIdsStorage run.1 = persistentIdsStorage Sample.world_stale /\
  deviceId run.1 = deviceId Sample.world_stale /\
  (exists evs,
     trace run.1 = (trace Sample.world_stale ++ evs)%list /\
     callbacks evs = [] /\ fcm_registrations evs = 0%nat /\
     (forall url, url <> directed_opendoor_url "D1" -> posts_to url evs = []) /\
     (posts_to (directed_opendoor_url "D1") evs = [] \/
      posts_to (directed_opendoor_url "D1") evs
        = [Home.getDirectOpenDoorParamsRequest Home.door1])) /\
  (forall opened, run.2 = Ret opened ->
     exists (t : OAuthToken) (status : Z) (tr : list Event),
       oAuthTokenStorage run.1 = Some t /\
       trace run.1 =
         (tr ++ [EvPost (directed_opendoor_url "D1")
                   (Home.getDirectOpenDoorParamsRequest Home.door1)
                   (Sample.getBearerAuthHeader t)])%list /\
       Sample.post_status 200 (trace run.1) (directed_opendoor_url "D1")
         (Home.getDirectOpenDoorParamsRequest Home.door1)
         (Sample.getBearerAuthHeader t) = Ret status /\
       opened = (status =? 200)).
Proof.
  intros run.
  apply (openDoor_result Sample.isExpired Sample.getBearerAuthHeader
           Sample.refresh_ok (Sample.post_status 200) Sample.config
           Home.getDirectOpenDoorParamsRequest "D1" Home.door1
           Sample.world_stale run.1 run.2).
  apply surjective_pairing.
Defined.

Example home_openDoor :
  (Home.client_openDoor "D1" Home.door1 Sample.world_stale).2 = Ret true /\
  oAuthTokenStorage (Home.client_openDoor "D1" Home.door1 Sample.world_stale).1
    = Some Sample.fresh.
Proof. split; vm_compute; reflexivity. Qed.

Lemma create_then_already_authed_witness :
  let run := create Sample.config Home.createOAuthToken "user" "password"
               (net_world Home.net_signed_out) in
  run.2 = Ret Sample.config /\
  create_already_authed Sample.config Home.net_signed_out
    = (Home.net_signed_out,
       Fail (RuntimeError "Provided IOAuthTokenStorage does not contain a token")) /\
  create_already_authed Sample.config (mkNet run.1 [])
    = (mkNet run.1 [], Done Sample.config).
Proof.
  intros run.
  destruct (create_then_already_authed Sample.config Home.createOAuthToken
              "user" "password" Home.net_signed_out) as (Hnone & _ & Hcreate).
  split; [reflexivity|]. split; [apply Hnone; reflexivity|].
  apply (Hcreate run.1 (Ret Sample.config)). reflexivity.
Defined.

Lemma on_notification_once_witness :
  let first := Sample.client_on_notification (Sample.post_status 200)
                 (Sample.call "d1") (mkDataMessage "a1" "m1") Sample.world in
  Sample.client_on_notification (Sample.post_status 200)
    (Sample.other "d2") (mkDataMessage "a1" "m9") first.1
  = (first.1, Ret tt).
Proof.
  intros first.
  apply (on_notification_once Sample.shouldAcknowledge Sample.getFcmMessageId
           Sample.isExpired Sample.getBearerAuthHeader Sample.refresh_ok
           (Sample.post_status 200) Sample.config (Sample.call "d1")
           (Sample.other "d2") (mkDataMessage "a1" "m1") (mkDataMessage "a1" "m9")
           Sample.world first.1 first.2).
  - apply surjective_pairing.
  - reflexivity.
Defined.

Lemma listen_replay_dropped_witness :
  let first := Sample.client_listen true (Sample.post_status 200)
                 Sample.inbound_unknown_type Sample.world in
  Sample.client_listen true (Sample.post_status 200)
    [ (Sample.other "d9", mkDataMessage "b2" "m7");
      (Sample.call "d1", mkDataMessage "a1" "m8");
      (Sample.call "d2", mkDataMessage "b2" "m9") ] first.1
  = (first.1, Ret tt).
Proof.
  intros first.
  apply (listen_replay_dropped Sample.shouldAcknowledge Sample.getFcmMessageId
           Sample.isExpired Sample.getBearerAuthHeader Sample.refresh_ok
           (Sample.post_status 200) Sample.config true
           Sample.inbound_unknown_type _ Sample.world first.1).
  - vm_compute. reflexivity.
  - intros m [<-|[<-|[<-|[]]]].
    + exists (Sample.other "d2", mkDataMessage "b2" "m3").
      split; [simpl; tauto | reflexivity].
    + exists (Sample.call "d1", mkDataMessage "a1" "m1").
      split; [simpl; tauto | reflexivity].
    + exists (Sample.other "d2", mkDataMessage "b2" "m3").
      split; [simpl; tauto | reflexivity].
Defined.

Lemma registerAppToken_first_registration_witness :
  exists w' r evs,
    Sample.client_registerAppToken true Sample.world = (w', r) /\
    credentialsStorage w' = Some Sample.provider_credentials /\
    deviceId w' = PStr "device-token" /\
    trace w' =
      (trace Sample.world
         ++ EvFCMRegister (apiKey Sample.config) (projectId Sample.config)
              (senderId Sample.config) (appId Sample.config)
              (packageName Sample.config) (buildPackageCert Sample.config)
         :: EvStoreCredentials Sample.provider_credentials :: evs)%list /\
    fcm_registrations (trace w') = S (fcm_registrations (trace Sample.world)) /\
    Forall (fun json => json = apptoken_json (PStr "device-token") true)
           (posts_to apptoken_url evs).
Proof.
  apply (proj2 (registerAppToken_first_registration Sample.isExpired
                  Sample.getBearerAuthHeader Sample.refresh_ok
                  (Sample.post_status 200) Sample.fcm_register Sample.config
                  true Sample.world eq_refl eq_refl)
           Sample.provider_credentials (PStr "device-token"));
    reflexivity.
Defined.

Lemma registerAppToken_malformed_credentials_witness :
  let w := set_credentialsStorage (Some {[ "fcm" := ∅ ]}) Sample.world in
  Sample.client_registerAppToken true w = (w, Raise (KeyError "token")) /\
  (KeyError "token" = KeyError "fcm" \/ KeyError "token" = KeyError "token").
Proof.
  intros w.
  apply (registerAppToken_malformed_credentials Sample.isExpired
           Sample.getBearerAuthHeader Sample.refresh_ok (Sample.post_status 200)
           Sample.fcm_register Sample.config true {[ "fcm" := ∅ ]} w
           (KeyError "token")); reflexivity.
Defined.

Lemma startNotificationListener_registers_first_witness :
  let run := Sample.client_registerAppToken true Sample.world in
  startNotificationListener Sample.isExpired Sample.getBearerAuthHeader
    Sample.refresh_ok (Sample.post_status 200) Sample.fcm_register Sample.config
    (Some 4000) Sample.world
  = (set_listenerThread (Some (mkThread (Some (clock run.1 + 4000)))) run.1, Ret tt).
Proof.
  intros run.
  apply (startNotificationListener_registers_first Sample.isExpired
           Sample.getBearerAuthHeader Sample.refresh_ok (Sample.post_status 200)
           Sample.fcm_register Sample.config (Some 4000) Sample.world
           run.1 (Ret true)).
  vm_compute. reflexivity.
Defined.
